(** * Hybrid rendering back-end: level of detail, thresholds, hit testing,
    frame metrics and the accessibility summary

  A shallow embedding of the TypeScript sources under [lib/viz/hybrid]
  ([lod.ts], [thresholds.ts], [detection.ts], [engine.ts], the three
  renderers, [accessibility-fallbacks.ts] and [interaction-bridge.ts])
  together with the properties the design document states about them and
  further properties of the code.

  Numbers.  The modules [Lod] to [InteractionBridge] compute with exact
  rationals [Q]; counts and array lengths are [nat], millisecond time
  stamps obtained from [Date.getTime()] are [Z], and a comparison of a
  square root is written in its squared form.  That is the arithmetic of
  the code wherever rounding cannot change an outcome, and the properties
  stated over these modules are of that kind: counts, orders,
  subsequences, minima and maxima, integer time stamps, and evaluations at
  inputs on which every intermediate value is exact in double precision.
  Properties that turn on a rounded comparison (a ratio against 0.7, a
  distance against a radius, a deviation against three standard
  deviations) are stated over a second embedding, [LodR], [SurfaceR] and
  [SummaryR], whose number type is abstract: its theorems use the laws
  [Rounded.Laws] only, which IEEE 754 double precision satisfies
  ([Float64Facts.binary64_laws]), and are instantiated at
  [Float64.binary64]. *)

From Stdlib Require Import ZArith QArith Qabs Qround Lia Lqa List Bool Sorted.
From Stdlib Require Floats.
From stdpp Require Import gmap strings list sorting pretty.

(** ** JavaScript arithmetic helpers *)

Module Js.

Definition ltb (a b : Q) : bool := negb (Qle_bool b a).
Definition gtb (a b : Q) : bool := ltb b a.
Definition leb (a b : Q) : bool := Qle_bool a b.
Definition geb (a b : Q) : bool := Qle_bool b a.
Definition eqb (a b : Q) : bool := Qeq_bool a b.

(** [Math.min(a, b)] and [Math.max(a, b)]. *)
Definition min2 (a b : Q) : Q := if Qle_bool a b then a else b.
Definition max2 (a b : Q) : Q := if Qle_bool a b then b else a.

(** [Math.min(...vs)] and [Math.max(...vs)].  On the empty list JavaScript
    answers [Infinity] and [-Infinity]; the callers modelled here never
    spread an empty array (see [bucketPoints_nonempty]), and [0] stands in. *)
Definition min_of (vs : list Q) : Q :=
  match vs with
  | [] => 0%Q
  | v :: rest => fold_left min2 rest v
  end.

Definition max_of (vs : list Q) : Q :=
  match vs with
  | [] => 0%Q
  | v :: rest => fold_left max2 rest v
  end.

Definition minZ_of (vs : list Z) : Z :=
  match vs with
  | [] => 0%Z
  | v :: rest => fold_left Z.min rest v
  end.

Definition maxZ_of (vs : list Z) : Z :=
  match vs with
  | [] => 0%Z
  | v :: rest => fold_left Z.max rest v
  end.

(** [vs.reduce((a, b) => a + b, 0)]. *)
Definition sum (vs : list Q) : Q := fold_left Qplus vs 0%Q.

Definition of_nat (n : nat) : Q := inject_Z (Z.of_nat n).

(** [Math.abs(d) > t * Math.sqrt(v)] for [v >= 0], in squared form:
    a negative right-hand side is always exceeded, otherwise both sides
    are squared. *)
Definition abs_gt_scaled_sqrt (d t v : Q) : bool :=
  if ltb t 0 then ltb 0 v || negb (eqb d 0)
  else ltb (t * t * v) (d * d).

(** [arr.slice(0, e)]: a negative end counts from the back. *)
Definition slice0 {A} (e : Z) (l : list A) : list A :=
  if (0 <=? e)%Z then take (Z.to_nat e) l
  else take (Z.to_nat (Z.of_nat (length l) + e)) l.

(** [arr.reduce(f)] without an initial value on a non-empty array. *)
Definition reduce1 {A} (f : A -> A -> A) (first : A) (rest : list A) : A :=
  fold_left f rest first.

(** [arr.sort((a, b) => a - b)] on numbers. *)
#[export] Instance Qle_rel_dec : RelDecision Qle.
Proof.
  intros a b. destruct (Qlt_le_dec b a) as [H | H].
  - right. apply Qlt_not_le. exact H.
  - left. exact H.
Defined.

Definition sort_num (vs : list Q) : list Q := merge_sort Qle vs.
Definition sort_int (vs : list Z) : list Z := merge_sort Z.le vs.

(** [arr.sort((a, b) => key(a) - key(b))] on objects: the sort of
    JavaScript is stable, as is this insertion sort. *)
Fixpoint insert_by {A} (key : A -> Z) (a : A) (l : list A) : list A :=
  match l with
  | [] => [a]
  | b :: rest =>
      if (key a <=? key b)%Z then a :: b :: rest else b :: insert_by key a rest
  end.

Definition sort_by {A} (key : A -> Z) (l : list A) : list A :=
  foldr (insert_by key) [] l.

(** [new Date(t).getTime()]: the time value is truncated towards zero
    to whole milliseconds. *)
Definition date_of_half (twice : Z) : Z := Z.quot twice 2.

End Js.

(** ** types.ts *)

Module Types.

Inductive RendererTier := SVG | CANVAS | WEBGL.

#[export] Instance RendererTier_eq_dec : EqDecision RendererTier.
Proof. solve_decision. Defined.

(** [id?: string | number]. *)
Inductive PointId :=
| IdStr (s : string)
| IdNum (n : Z).

(** [DataPoint]: [x] is a number or a [Date] that the scales coerce to a
    number.  The opaque [metadata] bag is never read by the code below and
    is left out. *)
Record DataPoint := mkDataPoint {
  dp_x : Q;
  dp_y : Q;
  dp_id : option PointId;
}.

(** [TimeSeriesPoint]: [x] is a [Date], kept as its [getTime()] value. *)
Record TimeSeriesPoint := mkTimeSeriesPoint {
  x : Z;
  y : Q;
  id : option PointId;
  seriesId : option string;
}.

(** [SeriesData]; [visible?: boolean] is [None] when the field is
    [undefined]. *)
Record SeriesData := mkSeriesData {
  s_id : string;
  s_name : string;
  s_color : string;
  s_data : list DataPoint;
  visible : option bool;
}.

Inductive LODLevel := MINIMAL | LOW | MEDIUM | HIGH | FULL.

Definition LODLevel_value (l : LODLevel) : Z :=
  match l with
  | MINIMAL => 0 | LOW => 1 | MEDIUM => 2 | HIGH => 3 | FULL => 4
  end%Z.

Record LODBucket := mkLODBucket {
  startTime : Z;
  endTime : Z;
  min : Q;
  max : Q;
  avg : Q;
  count : nat;
  outliers : list TimeSeriesPoint;
  representative : TimeSeriesPoint;
}.

Record LODResult := mkLODResult {
  buckets : list LODBucket;
  totalPoints : nat;
  sampledPoints : nat;
  compressionRatio : Q;
  level : LODLevel;
  outlierCount : nat;
}.

End Types.

(** ** lod.ts *)

Module Lod.
Import Types.

Inductive OutlierMethod := zscore | iqr | mad.

Record LODConfig := mkLODConfig {
  targetPoints : nat;
  outlierThreshold : Q;
  outlierMethod : OutlierMethod;
  preserveMinMax : bool;
  preserveOutliers : bool;
  maxOutlierPercentage : Q;
}.

(** [Partial<LODConfig>]. *)
Record PartialLODConfig := mkPartialLODConfig {
  p_targetPoints : option nat;
  p_outlierThreshold : option Q;
  p_outlierMethod : option OutlierMethod;
  p_preserveMinMax : option bool;
  p_preserveOutliers : option bool;
  p_maxOutlierPercentage : option Q;
}.

Definition DEFAULT_LOD_CONFIG : LODConfig :=
  {| targetPoints := 1000;
     outlierThreshold := 3;
     outlierMethod := zscore;
     preserveMinMax := true;
     preserveOutliers := true;
     maxOutlierPercentage := 10 |}.

(** [{ ...DEFAULT_LOD_CONFIG, ...config, targetPoints }]. *)
Definition mergeConfig (config : option PartialLODConfig) (target : nat) : LODConfig :=
  let d := DEFAULT_LOD_CONFIG in
  match config with
  | None =>
      {| targetPoints := target;
         outlierThreshold := outlierThreshold d;
         outlierMethod := outlierMethod d;
         preserveMinMax := preserveMinMax d;
         preserveOutliers := preserveOutliers d;
         maxOutlierPercentage := maxOutlierPercentage d |}
  | Some c =>
      {| targetPoints := target;
         outlierThreshold := default (outlierThreshold d) (p_outlierThreshold c);
         outlierMethod := default (outlierMethod d) (p_outlierMethod c);
         preserveMinMax := default (preserveMinMax d) (p_preserveMinMax c);
         preserveOutliers := default (preserveOutliers d) (p_preserveOutliers c);
         maxOutlierPercentage :=
           default (maxOutlierPercentage d) (p_maxOutlierPercentage c) |}
  end.

Definition intervals : list Z :=
  [1; 5; 10; 50; 100; 500;
   1000; 5000; 10000; 30000;
   60000; 300000; 600000;
   3600000; 18000000; 36000000;
   86400000; 604800000]%Z.

(** One turn of the loop that looks for the closest nice interval:
    the state is [(closest, minDiff)]. *)
Definition closer (bucketMs : Q) (st : Z * Q) (interval : Z) : Z * Q :=
  let diff := Qabs (bucketMs - inject_Z interval) in
  if Js.ltb diff (snd st) then (interval, diff) else st.

Definition calculateBucketSize (timeRange : Z * Z) (targetPoints : nat) : Z :=
  let '(start, end_) := timeRange in
  let duration := (end_ - start)%Z in
  if (duration =? 0)%Z || (targetPoints =? 0)%nat then 1%Z
  else
    let bucketMs := (inject_Z duration / Js.of_nat targetPoints)%Q in
    let closest0 := 1%Z in
    let minDiff0 := Qabs (bucketMs - inject_Z closest0) in
    let '(closest, _) := fold_left (closer bucketMs) intervals (closest0, minDiff0) in
    Z.max 1 closest.

Definition bucketIndexOf (start bucketSize : Z) (point : TimeSeriesPoint) : Z :=
  Qfloor (inject_Z (x point - start) / inject_Z bucketSize).

(** [bucketPoints]: the [Map] from bucket index to the points pushed
    into that bucket, in input order. *)
Definition bucketPoints (points : list TimeSeriesPoint) (bucketSize : Z)
    (timeRange : Z * Z) : gmap Z (list TimeSeriesPoint) :=
  let start := fst timeRange in
  fold_left
    (fun buckets point =>
       let bucketIndex := bucketIndexOf start bucketSize point in
       <[bucketIndex := default [] (buckets !! bucketIndex) ++ [point]]> buckets)
    points ∅.

Definition mean (values : list Q) : Q :=
  (Js.sum values / Js.of_nat (length values))%Q.

Definition variance (values : list Q) : Q :=
  let m := mean values in
  (fold_left (fun acc v => acc + (v - m) * (v - m)) values 0
     / Js.of_nat (length values))%Q.

(** [std = Math.sqrt(variance)]; [std === 0] is [variance == 0] and
    [Math.abs((p.y - mean) / std) > threshold] is, for [std > 0],
    [|p.y - mean| > threshold * std] (squared form). *)
Definition detectOutliersZScore (points : list TimeSeriesPoint) (threshold : Q)
    : list TimeSeriesPoint :=
  if (length points <? 3)%nat then []
  else
    let values := map y points in
    let m := mean values in
    let var := variance values in
    if Js.eqb var 0 then []
    else List.filter (fun p => Js.abs_gt_scaled_sqrt (y p - m) threshold var) points.

Definition at_index (vs : list Q) (i : nat) : Q := nth i vs 0%Q.

Definition detectOutliersIQR (points : list TimeSeriesPoint) : list TimeSeriesPoint :=
  if (length points <? 4)%nat then []
  else
    let values := Js.sort_num (map y points) in
    let n := length values in
    let q1 := at_index values (n / 4) in
    let q3 := at_index values (n * 3 / 4) in
    let iqr_ := (q3 - q1)%Q in
    let lowerBound := (q1 - (3 # 2) * iqr_)%Q in
    let upperBound := (q3 + (3 # 2) * iqr_)%Q in
    List.filter (fun p => Js.ltb (y p) lowerBound || Js.gtb (y p) upperBound) points.

Definition detectOutliersMAD (points : list TimeSeriesPoint) (threshold : Q)
    : list TimeSeriesPoint :=
  if (length points <? 3)%nat then []
  else
    let values := Js.sort_num (map y points) in
    let median := at_index values (length values / 2) in
    let deviations := map (fun v => Qabs (v - median)) values in
    let mad_ := at_index (Js.sort_num deviations) (length deviations / 2) in
    if Js.eqb mad_ 0 then []
    else List.filter (fun p => Js.gtb (Qabs (y p - median) / mad_) threshold) points.

Definition detectOutliers (points : list TimeSeriesPoint) (config : LODConfig)
    : list TimeSeriesPoint :=
  if negb (preserveOutliers config) || (length points <? 3)%nat then []
  else
    match outlierMethod config with
    | zscore => detectOutliersZScore points (outlierThreshold config)
    | iqr => detectOutliersIQR points
    | mad => detectOutliersMAD points (outlierThreshold config)
    end.

(** The synthetic average point of a bucket:
    [{ x: new Date(midTime), y: avg, id: `bucket-${bucketIndex}-avg` }]
    with [midTime = bucketStart + bucketSize / 2]. *)
Definition averagePoint (bucketIndex bucketStart bucketSize : Z) (avg : Q)
    : TimeSeriesPoint :=
  {| x := Js.date_of_half (2 * bucketStart + bucketSize);
     y := avg;
     id := Some (IdStr ("bucket-" +:+ pretty bucketIndex +:+ "-avg"));
     seriesId := None |}.

Definition moreExtreme (avg : Q) (extreme current : TimeSeriesPoint) : TimeSeriesPoint :=
  if Js.gtb (Qabs (y current - avg)) (Qabs (y extreme - avg)) then current else extreme.

(** [bucketPoints.find((p) => p.y === v) || bucketPoints[0]]; the last
    alternative is the synthetic point only for an empty bucket, which
    the caller never passes. *)
Definition findByValue (bucketPoints : list TimeSeriesPoint) (v : Q)
    (fallback : TimeSeriesPoint) : TimeSeriesPoint :=
  match List.find (fun p => Js.eqb (y p) v) bucketPoints with
  | Some p => p
  | None => hd fallback bucketPoints
  end.

Definition createBucketSummary (bucketPoints : list TimeSeriesPoint)
    (bucketIndex bucketSize startTime : Z) (outliers : list TimeSeriesPoint)
    (config : LODConfig) : LODBucket :=
  let values := map y bucketPoints in
  let min := Js.min_of values in
  let max := Js.max_of values in
  let avg := (Js.sum values / Js.of_nat (length values))%Q in
  let bucketStart := (startTime + bucketIndex * bucketSize)%Z in
  let bucketEnd := (bucketStart + bucketSize)%Z in
  let synthetic := averagePoint bucketIndex bucketStart bucketSize avg in
  let representative :=
    if preserveMinMax config then
      let bucketOutliers :=
        List.filter (fun o => (bucketStart <=? x o)%Z && (x o <? bucketEnd)%Z) outliers in
      match bucketOutliers with
      | first :: rest => Js.reduce1 (moreExtreme avg) first rest
      | [] =>
          let range := (max - min)%Q in
          if Js.gtb range 0 && Js.gtb ((avg - min) / range) (7 # 10) then
            findByValue bucketPoints max synthetic
          else if Js.gtb range 0 && Js.gtb ((max - avg) / range) (7 # 10) then
            findByValue bucketPoints min synthetic
          else synthetic
      end
    else synthetic in
  {| Types.startTime := bucketStart;
     endTime := bucketEnd;
     Types.min := min;
     Types.max := max;
     Types.avg := avg;
     count := length bucketPoints;
     Types.outliers := [];
     Types.representative := representative |}.

Definition levelOf (compressionRatio : Q) : LODLevel :=
  if Js.geb compressionRatio 100 then MINIMAL
  else if Js.geb compressionRatio 50 then LOW
  else if Js.geb compressionRatio 10 then MEDIUM
  else if Js.geb compressionRatio 2 then HIGH
  else FULL.

Definition singletonBucket (p : TimeSeriesPoint) : LODBucket :=
  {| startTime := x p;
     endTime := x p;
     min := y p;
     max := y p;
     avg := y p;
     count := 1;
     outliers := [];
     representative := p |}.

Definition timeRangeOf (points : list TimeSeriesPoint) (timeRange : option (Z * Z))
    : Z * Z :=
  match timeRange with
  | Some r => r
  | None =>
      let times := map x points in
      (Js.minZ_of times, Js.maxZ_of times)
  end.

Definition cappedOutliersOf (points : list TimeSeriesPoint) (fullConfig : LODConfig)
    : list TimeSeriesPoint :=
  let allOutliers := detectOutliers points fullConfig in
  let maxOutliers :=
    Qfloor (Js.of_nat (length points) * (maxOutlierPercentage fullConfig / 100)) in
  Js.slice0 maxOutliers allOutliers.

Definition applyLOD (points : list TimeSeriesPoint) (targetPoints : nat)
    (timeRange : option (Z * Z)) (config : option PartialLODConfig) : LODResult :=
  let fullConfig := mergeConfig config targetPoints in
  if (length points <=? targetPoints)%nat then
    {| buckets := map singletonBucket points;
       totalPoints := length points;
       sampledPoints := length points;
       compressionRatio := 1;
       level := FULL;
       outlierCount := 0 |}
  else
    let range := timeRangeOf points timeRange in
    let bucketSize := calculateBucketSize range targetPoints in
    let buckets := bucketPoints points bucketSize range in
    let cappedOutliers := cappedOutliersOf points fullConfig in
    let sortedIndices := Js.sort_int (elements (dom buckets)) in
    let bucketSummaries :=
      map (fun index =>
             createBucketSummary (default [] (buckets !! index)) index bucketSize
               (fst range) cappedOutliers fullConfig)
          sortedIndices in
    let sampledPoints := length bucketSummaries in
    let compressionRatio := (Js.of_nat (length points) / Js.of_nat sampledPoints)%Q in
    {| Types.buckets := bucketSummaries;
       totalPoints := length points;
       Types.sampledPoints := sampledPoints;
       Types.compressionRatio := compressionRatio;
       level := levelOf compressionRatio;
       outlierCount := length cappedOutliers |}.

Definition applyLODWithZoom (points : list TimeSeriesPoint) (targetPoints : nat)
    (zoomDomain fullDomain : Z * Z) (config : option PartialLODConfig) : LODResult :=
  let visiblePoints :=
    List.filter (fun p => (fst zoomDomain <=? x p)%Z && (x p <=? snd zoomDomain)%Z) points in
  let zoomedTargetPoints := Nat.min (targetPoints * 2) (length visiblePoints) in
  applyLOD visiblePoints zoomedTargetPoints (Some zoomDomain) config.

(** An entry of the envelope: [{ time, min, max }], [time] being the
    [Date] at the middle of the bucket. *)
Record EnvelopeEntry := mkEnvelopeEntry {
  env_time : Z;
  env_min : Q;
  env_max : Q;
}.

Definition createMinMaxEnvelope (buckets : list LODBucket) : list EnvelopeEntry :=
  map (fun b => {| env_time := Js.date_of_half (startTime b + endTime b);
                   env_min := min b;
                   env_max := max b |})
      buckets.

Definition extractRepresentativePoints (lodResult : LODResult) : list TimeSeriesPoint :=
  map representative (buckets lodResult).

Definition extractAllSignificantPoints (lodResult : LODResult) (includeOutliers : bool)
    : list TimeSeriesPoint :=
  let points := map representative (buckets lodResult) in
  let points' :=
    if includeOutliers
    then fold_left (fun acc bucket => acc ++ outliers bucket) (buckets lodResult) points
    else points in
  Js.sort_by x points'.

End Lod.

(** ** thresholds.ts *)

Module Thresholds.
Import Types.

Record ThresholdConfig := mkThresholdConfig {
  svgToCanvas : Q;
  canvasToWebGL : Q;
  pointsPerPixelSVG : Q;
  pointsPerPixelCanvas : Q;
  pointsPerPixelWebGL : Q;
  forceRenderer : option RendererTier;
  autoDetect : bool;
}.

(** [Partial<ThresholdConfig>]: an absent field is [None]. *)
Record PartialThresholdConfig := mkPartialThresholdConfig {
  p_svgToCanvas : option Q;
  p_canvasToWebGL : option Q;
  p_pointsPerPixelSVG : option Q;
  p_pointsPerPixelCanvas : option Q;
  p_pointsPerPixelWebGL : option Q;
  p_forceRenderer : option RendererTier;
  p_autoDetect : option bool;
}.

Definition DEFAULT_THRESHOLDS : ThresholdConfig :=
  {| svgToCanvas := 5000;
     canvasToWebGL := 50000;
     pointsPerPixelSVG := 1 # 2;
     pointsPerPixelCanvas := 5;
     pointsPerPixelWebGL := 50;
     forceRenderer := None;
     autoDetect := true |}.

Definition calculatePointDensity (pointCount : nat) (width height : Q) : Q :=
  let pixelArea := (width * height)%Q in
  if Js.eqb pixelArea 0 then 0%Q else (Js.of_nat pointCount / pixelArea)%Q.

(** [a ?? b]. *)
Definition nullish {A} (a : option A) (b : A) : A := default b a.

Definition validateThresholds (config : PartialThresholdConfig) : ThresholdConfig :=
  let base := DEFAULT_THRESHOLDS in
  {| svgToCanvas := Js.max2 100 (nullish (p_svgToCanvas config) (svgToCanvas base));
     canvasToWebGL :=
       Js.max2 (nullish (p_svgToCanvas config) (svgToCanvas base))
               (nullish (p_canvasToWebGL config) (canvasToWebGL base));
     pointsPerPixelSVG :=
       Js.max2 (1 # 10) (nullish (p_pointsPerPixelSVG config) (pointsPerPixelSVG base));
     pointsPerPixelCanvas :=
       Js.max2 (1 # 10) (nullish (p_pointsPerPixelCanvas config) (pointsPerPixelCanvas base));
     pointsPerPixelWebGL :=
       Js.max2 (1 # 10) (nullish (p_pointsPerPixelWebGL config) (pointsPerPixelWebGL base));
     forceRenderer :=
       match p_forceRenderer config with
       | Some r => Some r
       | None => forceRenderer base
       end;
     autoDetect := nullish (p_autoDetect config) (autoDetect base) |}.

End Thresholds.

(** ** detection.ts *)

Module Detection.
Import Types Thresholds.

Record DensityMetrics := mkDensityMetrics {
  totalPoints : nat;
  pointsPerPixel : Q;
  seriesCount : nat;
  maxSeriesLength : nat;
  estimatedMemoryMB : Q;
}.

Definition calculateDensityMetrics (data : list SeriesData) (width height : Q)
    : DensityMetrics :=
  let '(totalPoints, maxSeriesLength) :=
    fold_left
      (fun '(total, longest) series =>
         let length := length (s_data series) in
         ((total + length)%nat, Nat.max longest length))
      data (0%nat, 0%nat) in
  {| totalPoints := totalPoints;
     pointsPerPixel := calculatePointDensity totalPoints width height;
     seriesCount := length data;
     maxSeriesLength := maxSeriesLength;
     estimatedMemoryMB := (Js.of_nat (totalPoints * 16) / (1024 * 1024))%Q |}.

(** [detectOptimalTier] with the thresholds supplied by the caller (the
    engine always passes its own). *)
Definition detectOptimalTier (metrics : DensityMetrics) (config : ThresholdConfig)
    : RendererTier :=
  match forceRenderer config with
  | Some forced => forced
  | None =>
      if Js.geb (Js.of_nat (totalPoints metrics)) (canvasToWebGL config) then WEBGL
      else if Js.geb (Js.of_nat (totalPoints metrics)) (svgToCanvas config) then CANVAS
      else if Js.geb (pointsPerPixel metrics) (pointsPerPixelWebGL config) then WEBGL
      else if Js.geb (pointsPerPixel metrics) (pointsPerPixelCanvas config) then CANVAS
      else SVG
  end.

(** What [detectDeviceCapabilities] finds in the browser; the probing
    itself is outside the model. *)
Record DeviceCapabilities := mkDeviceCapabilities {
  webglSupported : bool;
  canvasSupported : bool;
  svgSupported : bool;
}.

Definition isTierAvailable (caps : DeviceCapabilities) (tier : RendererTier) : bool :=
  match tier with
  | SVG => svgSupported caps
  | CANVAS => canvasSupported caps
  | WEBGL => webglSupported caps
  end.

(** [const tiers = [RendererTier.WEBGL, RendererTier.CANVAS, RendererTier.SVG]]. *)
Definition tiers : list RendererTier := [WEBGL; CANVAS; SVG].

(** [tiers.indexOf(t)]; every tier occurs in [tiers], so the [-1] of an
    absent element is never produced. *)
Fixpoint indexOf (l : list RendererTier) (t : RendererTier) : nat :=
  match l with
  | [] => 0
  | t' :: rest => if decide (t' = t) then 0 else S (indexOf rest t)
  end.

Definition getFallbackTier (caps : DeviceCapabilities) (preferred : RendererTier)
    : RendererTier :=
  let preferredIndex := indexOf tiers preferred in
  match List.find (isTierAvailable caps) (drop preferredIndex tiers) with
  | Some t => t
  | None => SVG
  end.

(** [PerformanceSnapshot]; [fps = 1000 / frameTime] is [None] when the
    frame time is zero (JavaScript's [Infinity]). *)
Record PerformanceSnapshot := mkPerformanceSnapshot {
  timestamp : Q;
  frameTime : Q;
  fps : option Q;
  droppedFrames : nat;
  tier : RendererTier;
}.

Definition MAX_HISTORY : nat := 60.

(** [arr.shift()]. *)
Definition shift {A} (l : list A) : list A := tail l.

(** The module-level [performanceHistory] array is threaded explicitly. *)
Definition recordPerformance (performanceHistory : list PerformanceSnapshot)
    (snapshot : PerformanceSnapshot) : list PerformanceSnapshot :=
  let pushed := performanceHistory ++ [snapshot] in
  if (MAX_HISTORY <? length pushed)%nat then shift pushed else pushed.

(** [now] is the reading of [performance.now()]. *)
Definition countPerformanceViolations (performanceHistory : list PerformanceSnapshot)
    (now budgetMs windowMs : Q) : nat :=
  let windowStart := (now - windowMs)%Q in
  length
    (List.filter
       (fun p => Js.geb (timestamp p) windowStart && Js.gtb (frameTime p) budgetMs)
       performanceHistory).

Definition shouldDegradeTier (caps : DeviceCapabilities)
    (performanceHistory : list PerformanceSnapshot) (now : Q)
    (currentTier : RendererTier) (budgetMs : Q) (violationThreshold : nat)
    (windowMs : Q) : option RendererTier :=
  let violations := countPerformanceViolations performanceHistory now budgetMs windowMs in
  if (violationThreshold <=? violations)%nat then
    let currentIndex := indexOf tiers currentTier in
    if (currentIndex <? length tiers - 1)%nat then
      match tiers !! (currentIndex + 1)%nat with
      | Some nextTier => if isTierAvailable caps nextTier then Some nextTier else None
      | None => None
      end
    else None
  else None.

Inductive Reason := density | performance | fallback | manual.

Record TierRecommendation := mkTierRecommendation {
  recommended : RendererTier;
  reason : Reason;
  metrics : DensityMetrics;
  alternative : option RendererTier;
}.

Definition getTierRecommendation (caps : DeviceCapabilities)
    (performanceHistory : list PerformanceSnapshot) (now : Q)
    (data : list SeriesData) (width height : Q) (thresholds : ThresholdConfig)
    : TierRecommendation :=
  let metrics := calculateDensityMetrics data width height in
  let optimal := detectOptimalTier metrics thresholds in
  if negb (isTierAvailable caps optimal) then
    {| recommended := getFallbackTier caps optimal;
       reason := fallback;
       metrics := metrics;
       alternative := Some optimal |}
  else
    let budgetMs := (1000 / 60)%Q in
    match shouldDegradeTier caps performanceHistory now optimal budgetMs 10 1000 with
    | Some degraded =>
        if decide (degraded <> optimal) then
          {| recommended := degraded;
             reason := performance;
             metrics := metrics;
             alternative := Some optimal |}
        else
          {| recommended := optimal; reason := density; metrics := metrics;
             alternative := None |}
    | None =>
        {| recommended := optimal; reason := density; metrics := metrics;
           alternative := None |}
    end.

End Detection.

(** ** engine.ts *)

Module Engine.
Import Types Thresholds Detection.

(** The fields of [PerformanceBudgetConfig] that the engine reads. *)
Record PerformanceBudgetConfig := mkPerformanceBudgetConfig {
  targetFrameTime : Q;
  maxFrameTime : Q;
  autoDegrade : bool;
  degradeFrameThreshold : nat;
}.

Record HybridRendererConfig := mkHybridRendererConfig {
  thresholds : ThresholdConfig;
  performanceBudgets : PerformanceBudgetConfig;
}.

Definition DEFAULT_CONFIG : HybridRendererConfig :=
  {| thresholds := DEFAULT_THRESHOLDS;
     performanceBudgets :=
       {| targetFrameTime := 1667 # 100;
          maxFrameTime := 3333 # 100;
          autoDegrade := true;
          degradeFrameThreshold := 10 |} |}.

Record FrameMetrics := mkFrameMetrics {
  timestamp : Q;
  frameTime : Q;
  renderTime : Q;
  pointCount : nat;
  tier : RendererTier;
  dropped : bool;
}.

Record EngineState := mkEngineState {
  currentTier : RendererTier;
  dataDensity : nat;
  lodLevel : LODLevel;
  performanceViolations : nat;
}.

Record TierSwitchEvent := mkTierSwitchEvent {
  from : RendererTier;
  to : RendererTier;
  reason : Reason;
  ts_timestamp : Q;
  ts_density : nat;
  ts_frameTime : Q;
}.

(** [EngineEvent], with the time stamp of its emission. *)
Inductive EngineEvent :=
| tierSwitch (payload : TierSwitchEvent) (timestamp : Q)
| performanceViolation (payload : FrameMetrics) (timestamp : Q).

(** The private fields of [HybridEngine].  A registered renderer is an
    external object; the [renderers] map is kept as the list of tiers that
    have one, and [currentRenderer] as the tier whose renderer is current.
    [emitted] records the events handed to the subscribers, oldest first. *)
Record HybridEngine := mkHybridEngine {
  config : HybridRendererConfig;
  state : EngineState;
  renderers : list RendererTier;
  currentRenderer : option RendererTier;
  frameCount : nat;
  droppedFrames : nat;
  isDestroyed : bool;
  frameMetrics : list FrameMetrics;
  emitted : list EngineEvent;
}.

Definition maxFrameMetrics : nat := 60.

Definition createInitialState : EngineState :=
  {| currentTier := SVG;
     dataDensity := 0;
     lodLevel := FULL;
     performanceViolations := 0 |}.

(** [new HybridEngine(config)] with the merged configuration. *)
Definition createHybridEngine (cfg : HybridRendererConfig) : HybridEngine :=
  {| config := cfg;
     state := createInitialState;
     renderers := [];
     currentRenderer := None;
     frameCount := 0;
     droppedFrames := 0;
     isDestroyed := false;
     frameMetrics := [];
     emitted := [] |}.

Definition set_state (e : HybridEngine) (s : EngineState) : HybridEngine :=
  {| config := config e; state := s; renderers := renderers e;
     currentRenderer := currentRenderer e; frameCount := frameCount e;
     droppedFrames := droppedFrames e; isDestroyed := isDestroyed e;
     frameMetrics := frameMetrics e; emitted := emitted e |}.

Definition emitEvent (e : HybridEngine) (ev : EngineEvent) : HybridEngine :=
  {| config := config e; state := state e; renderers := renderers e;
     currentRenderer := currentRenderer e; frameCount := frameCount e;
     droppedFrames := droppedFrames e; isDestroyed := isDestroyed e;
     frameMetrics := frameMetrics e; emitted := emitted e ++ [ev] |}.

Definition registerRenderer (e : HybridEngine) (tier : RendererTier) : HybridEngine :=
  let registered :=
    if bool_decide (tier ∈ renderers e) then renderers e else renderers e ++ [tier] in
  {| config := config e; state := state e; renderers := registered;
     currentRenderer :=
       match currentRenderer e with
       | Some r => Some r
       | None => if decide (tier = currentTier (state e)) then Some tier else None
       end;
     frameCount := frameCount e;
     droppedFrames := droppedFrames e; isDestroyed := isDestroyed e;
     frameMetrics := frameMetrics e; emitted := emitted e |}.

Definition getAverageFrameTime (e : HybridEngine) (now windowMs : Q) : Q :=
  let windowStart := (now - windowMs)%Q in
  let recent := List.filter (fun m => Js.geb (timestamp m) windowStart) (frameMetrics e) in
  if (length recent =? 0)%nat then 0%Q
  else (fold_left (fun acc m => acc + frameTime m) recent 0 / Js.of_nat (length recent))%Q.

(** [switchTier]: the new engine and the event returned, if any. *)
Definition switchTier (now : Q) (e : HybridEngine) (newTier : RendererTier)
    (reason : Reason) : HybridEngine * option TierSwitchEvent :=
  if decide (newTier = currentTier (state e)) then (e, None)
  else if negb (bool_decide (newTier ∈ renderers e)) then (e, None)
  else
    let event :=
      {| from := currentTier (state e);
         to := newTier;
         reason := reason;
         ts_timestamp := now;
         ts_density := dataDensity (state e);
         ts_frameTime := getAverageFrameTime e now 1000 |} in
    let s := state e in
    let e' :=
      {| config := config e;
         state := {| currentTier := newTier; dataDensity := dataDensity s;
                     lodLevel := lodLevel s;
                     performanceViolations := performanceViolations s |};
         renderers := renderers e;
         currentRenderer := Some newTier;
         frameCount := frameCount e;
         droppedFrames := droppedFrames e; isDestroyed := isDestroyed e;
         frameMetrics := frameMetrics e; emitted := emitted e |} in
    (emitEvent e' (tierSwitch event now), Some event).

Definition forceSwitchTier (caps : DeviceCapabilities) (now : Q) (e : HybridEngine)
    (tier : RendererTier) : HybridEngine * option TierSwitchEvent :=
  if negb (isTierAvailable caps tier) then
    switchTier now e (getFallbackTier caps tier) fallback
  else switchTier now e tier manual.

Definition switchToFallbackTier (caps : DeviceCapabilities) (now : Q) (e : HybridEngine)
    : HybridEngine :=
  fst (switchTier now e (getFallbackTier caps (currentTier (state e))) fallback).

(** [evaluateTierChange(data?, width?, height?)]: the optional arguments
    are [Some (data, width, height)] when all three are passed;
    [performanceHistory] is the array of the detection module. *)
Definition evaluateTierChange (caps : DeviceCapabilities)
    (performanceHistory : list PerformanceSnapshot) (now : Q) (e : HybridEngine)
    (args : option (list SeriesData * Q * Q))
    : HybridEngine * option TierSwitchEvent :=
  match forceRenderer (thresholds (config e)) with
  | Some forcedTier =>
      if bool_decide (forcedTier <> currentTier (state e)) && isTierAvailable caps forcedTier
      then switchTier now e forcedTier manual
      else (e, None)
  | None =>
      let recommendation :=
        match args with
        | Some (data, width, height) =>
            if negb (Js.eqb width 0) && negb (Js.eqb height 0) then
              Some (getTierRecommendation caps performanceHistory now data width height
                      (thresholds (config e)))
            else None
        | None => None
        end in
      let degradeCheck :=
        if autoDegrade (performanceBudgets (config e)) then
          match shouldDegradeTier caps performanceHistory now (currentTier (state e))
                  (targetFrameTime (performanceBudgets (config e)))
                  (degradeFrameThreshold (performanceBudgets (config e))) 1000 with
          | Some degraded => switchTier now e degraded performance
          | None => (e, None)
          end
        else (e, None) in
      match recommendation with
      | Some r =>
          if decide (recommended r <> currentTier (state e))
          then switchTier now e (recommended r) (Detection.reason r)
          else degradeCheck
      | None => degradeCheck
      end
  end.

Definition totalPointsOf (data : list SeriesData) : nat :=
  fold_left (fun sum s => (sum + length (s_data s))%nat) data 0%nat.

(** [recordFrameMetrics], together with the array of the detection module
    that it appends to through [recordPerformance]. *)
Definition recordFrameMetrics (now : Q)
    (w : HybridEngine * list PerformanceSnapshot) (frameTime : Q)
    (data : list SeriesData) : HybridEngine * list PerformanceSnapshot :=
  let '(e, performanceHistory) := w in
  let totalPoints := totalPointsOf data in
  let budgets := performanceBudgets (config e) in
  let dropped := Js.gtb frameTime (maxFrameTime budgets) in
  let droppedFrames' := if dropped then S (droppedFrames e) else droppedFrames e in
  let metric :=
    {| timestamp := now;
       frameTime := frameTime;
       renderTime := frameTime;
       pointCount := totalPoints;
       tier := currentTier (state e);
       dropped := dropped |} in
  let pushed := frameMetrics e ++ [metric] in
  let frameMetrics' :=
    if (maxFrameMetrics <? length pushed)%nat then shift pushed else pushed in
  let history' :=
    recordPerformance performanceHistory
      {| Detection.timestamp := now;
         Detection.frameTime := frameTime;
         fps := if Js.eqb frameTime 0 then None else Some (1000 / frameTime)%Q;
         Detection.droppedFrames := droppedFrames';
         Detection.tier := currentTier (state e) |} in
  let s := state e in
  let violated := Js.gtb frameTime (maxFrameTime budgets) in
  let violations' :=
    if violated then S (performanceViolations s) else performanceViolations s in
  let e' :=
    {| config := config e;
       state := {| currentTier := currentTier s; dataDensity := totalPoints;
                   lodLevel := lodLevel s; performanceViolations := violations' |};
       renderers := renderers e;
       currentRenderer := currentRenderer e;
       frameCount := frameCount e;
       droppedFrames := droppedFrames';
       isDestroyed := isDestroyed e;
       frameMetrics := frameMetrics';
       emitted := emitted e |} in
  let e'' :=
    if violated && (degradeFrameThreshold budgets <=? violations')%nat
    then emitEvent e' (performanceViolation metric now)
    else e' in
  (e'', history').

(** A run of [recordFrameMetrics] calls, one per recording
    [(now, frameTime, data)], oldest first. *)
Definition recordAll (w : HybridEngine * list PerformanceSnapshot)
    (recordings : list (Q * Q * list SeriesData))
    : HybridEngine * list PerformanceSnapshot :=
  fold_left
    (fun w' '(now, frameTime, data) => recordFrameMetrics now w' frameTime data)
    recordings w.

(** [shouldReevaluateTier]: the frame counter is advanced as a side
    effect. *)
Definition shouldReevaluateTier (e : HybridEngine) (data : list SeriesData)
    : HybridEngine * bool :=
  let e' :=
    {| config := config e; state := state e; renderers := renderers e;
       currentRenderer := currentRenderer e; frameCount := S (frameCount e);
       droppedFrames := droppedFrames e; isDestroyed := isDestroyed e;
       frameMetrics := frameMetrics e; emitted := emitted e |} in
  if (frameCount e' mod 30 =? 0)%nat then
    let totalPoints := Z.of_nat (totalPointsOf data) in
    let densityChanged :=
      (1000 <? Z.abs (totalPoints - Z.of_nat (dataDensity (state e))))%Z in
    (e', densityChanged)
  else (e', false).

(** The readings of [performance.now()] that one [render] call takes, in
    the order it takes them: at its start, inside [evaluateTierChange] and
    inside [switchToFallbackTier] (when these run), after the renderer has
    drawn, and inside [recordFrameMetrics]. *)
Record RenderClock := mkRenderClock {
  atStart : Q;
  atEvaluate : Q;
  atFallback : Q;
  atEnd : Q;
  atRecord : Q;
}.

(** How a call ends: it returns, or an exception leaves it. *)
Inductive Outcome := Returned | Threw.

(** [render(data, context)].  The drawing of the current renderer is
    outside the model; [rendererThrows] says whether its [render] throws,
    as a renderer that was not initialised does.  Nothing catches the
    exception: it leaves [render] before any frame is recorded. *)
Definition render (caps : DeviceCapabilities) (clock : RenderClock) (rendererThrows : bool)
    (w : HybridEngine * list PerformanceSnapshot)
    (data : list SeriesData) (width height : Q)
    : HybridEngine * list PerformanceSnapshot * Outcome :=
  let '(e, performanceHistory) := w in
  if isDestroyed e then (w, Returned)
  else
    let '(e1, reevaluate) := shouldReevaluateTier e data in
    let e2 :=
      if reevaluate
      then fst (evaluateTierChange caps performanceHistory (atEvaluate clock) e1
                  (Some (data, width, height)))
      else e1 in
    let e3 :=
      match currentRenderer e2 with
      | Some _ => e2
      | None => switchToFallbackTier caps (atFallback clock) e2
      end in
    match currentRenderer e3 with
    | None => (e3, performanceHistory, Returned)
    | Some _ =>
        if rendererThrows then (e3, performanceHistory, Threw)
        else
          let frameTime := (atEnd clock - atStart clock)%Q in
          (recordFrameMetrics (atRecord clock) (e3, performanceHistory) frameTime data,
           Returned)
    end.

End Engine.

(** ** Hit testing and region queries of the three renderers *)

Module Render.
Import Types.

Record Margin := mkMargin { top : Q; right : Q; bottom : Q; left : Q }.

(** [RenderContext]; the d3 scales are the injected data-to-pixel maps. *)
Record RenderContext := mkRenderContext {
  width : Q;
  height : Q;
  margin : Margin;
  xScale : Q -> Q;
  yScale : Q -> Q;
  pixelRatio : Q;
}.

(** [HitTestResult].  [distance] is a square root in the source; the
    model keeps its square in [distance2]. *)
Record HitTestResult := mkHitTestResult {
  point : DataPoint;
  series : option string;
  distance2 : Q;
  hit_x : Q;
  hit_y : Q;
}.

(** [!series.visible && series.visible !== undefined]: the series is
    passed over. *)
Definition skipped (s : SeriesData) : bool :=
  let truthy := match visible s with Some b => b | None => false end in
  let isUndefined := match visible s with None => true | Some _ => false end in
  negb truthy && negb isUndefined.

(** [distance < radius] with [distance = Math.sqrt(d2)], squared form. *)
Definition within (d2 radius : Q) : bool :=
  Js.ltb 0 radius && Js.ltb d2 (radius * radius).

(** [distance < minDistance], where [minDistance] starts at [Infinity]
    ([None]) and then holds a square root (kept squared). *)
Definition below (d2 : Q) (minDistance : option Q) : bool :=
  match minDistance with
  | None => true
  | Some m2 => Js.ltb d2 m2
  end.

(** The body of the innermost loop of every [hitTest]: the state is
    [(closest, minDistance)]. *)
Definition consider (radius : Q) (st : option HitTestResult * option Q)
    (candidate : HitTestResult) : option HitTestResult * option Q :=
  if within (distance2 candidate) radius && below (distance2 candidate) (snd st)
  then (Some candidate, Some (distance2 candidate))
  else st.

Definition sq (a : Q) : Q := (a * a)%Q.

(** [height || 0]. *)
Definition orZero (h : Q) : Q := if Js.eqb h 0 then 0%Q else h.

End Render.

Module SVGRenderer.
Import Types Render.

(** The fields of the class that [render], [hitTest] and
    [getPointsInRegion] touch; [ready] stands for [svg] and [mainGroup]
    being set by [initialize]. *)
Record t := mk {
  ready : bool;
  currentData : list SeriesData;
  currentContext : option RenderContext;
}.

Definition initialize (context : RenderContext) : t :=
  {| ready := true; currentData := []; currentContext := Some context |}.

(** [render]: [None] is the thrown 'Renderer not initialized'. *)
Definition render (r : t) (data : list SeriesData) (context : RenderContext) : option t :=
  if negb (ready r) then None
  else Some {| ready := true; currentData := data; currentContext := Some context |}.

Definition candidate (ctx : RenderContext) (dataX dataY : Q) (s : SeriesData)
    (p : DataPoint) : HitTestResult :=
  let px := xScale ctx (dp_x p) in
  let py := yScale ctx (dp_y p) in
  let dx := (px - dataX)%Q in
  let dy := (py - dataY)%Q in
  {| point := p; series := Some (s_id s); distance2 := (dx * dx + dy * dy)%Q;
     hit_x := px; hit_y := py |}.

Definition hitTest (r : t) (x y radius : Q) : option HitTestResult :=
  match currentContext r with
  | None => None
  | Some ctx =>
      if (length (currentData r) =? 0)%nat then None
      else
        let dataX := (x - left (margin ctx))%Q in
        let dataY := (y - top (margin ctx))%Q in
        fst (fold_left
               (fun st s =>
                  if skipped s then st
                  else fold_left
                         (fun st' p => consider radius st' (candidate ctx dataX dataY s p))
                         (s_data s) st)
               (currentData r) (None, None))
  end.

Definition getPointsInRegion (r : t) (x1 y1 x2 y2 : Q) : list DataPoint :=
  match currentContext r with
  | None => []
  | Some ctx =>
      let minX := (Js.min2 x1 x2 - left (margin ctx))%Q in
      let maxX := (Js.max2 x1 x2 - left (margin ctx))%Q in
      let minY := (Js.min2 y1 y2 - top (margin ctx))%Q in
      let maxY := (Js.max2 y1 y2 - top (margin ctx))%Q in
      fold_left
        (fun points s =>
           if skipped s then points
           else fold_left
                  (fun points' p =>
                     let px := xScale ctx (dp_x p) in
                     let py := yScale ctx (dp_y p) in
                     if Js.geb px minX && Js.leb px maxX && Js.geb py minY && Js.leb py maxY
                     then points' ++ [p] else points')
                  (s_data s) points)
        (currentData r) []
  end.

End SVGRenderer.

Module WebGLRenderer.
Import Types Render.

(** [ready] stands for [renderer], [scene] and [camera] being set. *)
Record t := mk {
  ready : bool;
  currentData : list SeriesData;
  currentContext : option RenderContext;
}.

Definition initialize (context : RenderContext) : t :=
  {| ready := true; currentData := []; currentContext := Some context |}.

Definition render (r : t) (data : list SeriesData) (context : RenderContext) : option t :=
  if negb (ready r) then None
  else Some {| ready := true; currentData := data; currentContext := Some context |}.

Definition candidate (ctx : RenderContext) (worldX worldY : Q) (s : SeriesData)
    (p : DataPoint) : HitTestResult :=
  let px := xScale ctx (dp_x p) in
  let py := (orZero (height ctx) - yScale ctx (dp_y p))%Q in
  let dx := (px - worldX)%Q in
  let dy := (py - worldY)%Q in
  {| point := p; series := Some (s_id s); distance2 := (dx * dx + dy * dy)%Q;
     hit_x := px; hit_y := py |}.

Definition hitTest (r : t) (x y radius : Q) : option HitTestResult :=
  match currentContext r with
  | None => None
  | Some ctx =>
      if negb (ready r) || (length (currentData r) =? 0)%nat then None
      else
        let worldX := (x - left (margin ctx))%Q in
        let worldY := (orZero (height ctx) - (y - top (margin ctx)))%Q in
        fst (fold_left
               (fun st s =>
                  if skipped s then st
                  else fold_left
                         (fun st' p => consider radius st' (candidate ctx worldX worldY s p))
                         (s_data s) st)
               (currentData r) (None, None))
  end.

Definition getPointsInRegion (r : t) (x1 y1 x2 y2 : Q) : list DataPoint :=
  match currentContext r with
  | None => []
  | Some ctx =>
      let minX := (Js.min2 x1 x2 - left (margin ctx))%Q in
      let maxX := (Js.max2 x1 x2 - left (margin ctx))%Q in
      let minY := (Js.min2 y1 y2 - top (margin ctx))%Q in
      let maxY := (Js.max2 y1 y2 - top (margin ctx))%Q in
      fold_left
        (fun points s =>
           if skipped s then points
           else fold_left
                  (fun points' p =>
                     let px := xScale ctx (dp_x p) in
                     let py :=
                       (orZero (height ctx) - yScale ctx (dp_y p) - top (margin ctx))%Q in
                     if Js.geb px minX && Js.leb px maxX && Js.geb py minY && Js.leb py maxY
                     then points' ++ [p] else points')
                  (s_data s) points)
        (currentData r) []
  end.

End WebGLRenderer.

Module CanvasRenderer.
Import Types Render.

(** [ready] stands for the 2D context [ctx] being set; the keys
    [`${cellX},${cellY}`] of [spatialIndex] are kept as pairs. *)
Record t := mk {
  ready : bool;
  currentData : list SeriesData;
  currentContext : option RenderContext;
  spatialIndex : gmap (Z * Z) (list DataPoint);
}.

Definition hitTestRadius : Q := 10.

Definition initialize (context : RenderContext) : t :=
  {| ready := true; currentData := []; currentContext := Some context;
     spatialIndex := ∅ |}.

Definition cellOf (cellSize a : Q) : Z := Qfloor (a / cellSize).

Definition buildSpatialIndex (data : list SeriesData) (xScale yScale : Q -> Q)
    : gmap (Z * Z) (list DataPoint) :=
  let cellSize := (hitTestRadius * 2)%Q in
  fold_left
    (fun index s =>
       if skipped s then index
       else fold_left
              (fun index' p =>
                 let x := xScale (dp_x p) in
                 let y := yScale (dp_y p) in
                 let cellKey := (cellOf cellSize x, cellOf cellSize y) in
                 <[cellKey := default [] (index' !! cellKey) ++ [p]]> index')
              (s_data s) index)
    data ∅.

Definition render (r : t) (data : list SeriesData) (context : RenderContext) : option t :=
  if negb (ready r) then None
  else Some {| ready := true; currentData := data; currentContext := Some context;
               spatialIndex := buildSpatialIndex data (xScale context) (yScale context) |}.

(** [this.currentData.find((s) => s.data.some((p) => p.x === point.x &&
    p.y === point.y))?.id]. *)
Definition seriesOf (data : list SeriesData) (point : DataPoint) : option string :=
  match List.find
          (fun s => existsb (fun p => Js.eqb (dp_x p) (dp_x point)
                                      && Js.eqb (dp_y p) (dp_y point)) (s_data s))
          data with
  | Some s => Some (s_id s)
  | None => None
  end.

Definition candidate (r : t) (ctx : RenderContext) (dataX dataY : Q) (p : DataPoint)
    : HitTestResult :=
  let px := xScale ctx (dp_x p) in
  let py := yScale ctx (dp_y p) in
  {| point := p; series := seriesOf (currentData r) p;
     distance2 := (sq (px - dataX) + sq (py - dataY))%Q;
     hit_x := px; hit_y := py |}.

(** [for (let dx = -1; dx <= 1; dx++) for (let dy = -1; dy <= 1; dy++)]. *)
Definition neighbourhood (cellX cellY : Z) : list (Z * Z) :=
  dx ← [-1; 0; 1]%Z; dy ← [-1; 0; 1]%Z; [((cellX + dx)%Z, (cellY + dy)%Z)].

Definition hitTest (r : t) (x y radius : Q) : option HitTestResult :=
  match currentContext r with
  | None => None
  | Some ctx =>
      if (length (currentData r) =? 0)%nat then None
      else
        let dataX := (x - left (margin ctx))%Q in
        let dataY := (y - top (margin ctx))%Q in
        let cellSize := (hitTestRadius * 2)%Q in
        let cellX := cellOf cellSize dataX in
        let cellY := cellOf cellSize dataY in
        fst (fold_left
               (fun st cellKey =>
                  match spatialIndex r !! cellKey with
                  | None => st
                  | Some points =>
                      fold_left
                        (fun st' p => consider radius st' (candidate r ctx dataX dataY p))
                        points st
                  end)
               (neighbourhood cellX cellY) (None, None))
  end.

(** [for (let c = lo; c <= hi; c++)]. *)
Definition cellRange (lo hi : Z) : list Z := seqZ lo (hi - lo + 1).

Definition getPointsInRegion (r : t) (x1 y1 x2 y2 : Q) : list DataPoint :=
  match currentContext r with
  | None => []
  | Some ctx =>
      let minX := (Js.min2 x1 x2 - left (margin ctx))%Q in
      let maxX := (Js.max2 x1 x2 - left (margin ctx))%Q in
      let minY := (Js.min2 y1 y2 - top (margin ctx))%Q in
      let maxY := (Js.max2 y1 y2 - top (margin ctx))%Q in
      let cellSize := (hitTestRadius * 2)%Q in
      let cells :=
        cx ← cellRange (cellOf cellSize minX) (cellOf cellSize maxX);
        cy ← cellRange (cellOf cellSize minY) (cellOf cellSize maxY);
        [(cx, cy)] in
      fold_left
        (fun points cellKey =>
           match spatialIndex r !! cellKey with
           | None => points
           | Some cellPoints =>
               fold_left
                 (fun points' p =>
                    let px := xScale ctx (dp_x p) in
                    let py := yScale ctx (dp_y p) in
                    if Js.geb px minX && Js.leb px maxX && Js.geb py minY && Js.leb py maxY
                    then points' ++ [p] else points')
                 cellPoints points
           end)
        cells []
  end.

End CanvasRenderer.

(** ** accessibility-fallbacks.ts *)

Module Accessibility.
Import Types.

(** An entry of [anomalies]; its [description] text is a rendering of the
    two fields kept here. *)
Record Anomaly := mkAnomaly {
  a_series : string;
  a_point : DataPoint;
}.

Inductive Direction := up | down | stable.

Record Trend := mkTrend {
  t_series : string;
  direction : Direction;
  strength : Q;
}.

(** [DataSummary].  [valueRange] is [None] while [globalMin] and
    [globalMax] still hold their initial [Infinity] and [-Infinity]. *)
Record DataSummary := mkDataSummary {
  seriesCount : nat;
  totalPoints : nat;
  timeRange : option (Z * Z);
  valueRange : option (Q * Q);
  anomalies : list Anomaly;
  trends : list Trend;
}.

(** [new Date(v).getTime()] for a numeric [v]. *)
Definition timeOf (v : Q) : Z := if Qle_bool 0 v then Qfloor v else Qceiling v.

(** The variables the loop over the series updates. *)
Record Acc := mkAcc {
  acc_totalPoints : nat;
  acc_range : option (Q * Q);
  acc_timeMin : option Z;
  acc_timeMax : option Z;
  acc_anomalies : list Anomaly;
  acc_trends : list Trend;
}.

Definition seriesAnomalies (s : SeriesData) (seriesAvg var : Q) : list Anomaly :=
  fold_left
    (fun found p =>
       (* Math.abs(point.y - seriesAvg) > 3 * std, with std = Math.sqrt(var) *)
       if Js.abs_gt_scaled_sqrt (dp_y p - seriesAvg) 3 var
       then found ++ [{| a_series := s_name s; a_point := p |}]
       else found)
    (s_data s) [].

Definition seriesTrend (s : SeriesData) (seriesMin seriesMax seriesAvg : Q) : list Trend :=
  match s_data s, last (s_data s) with
  | firstPoint :: _ :: _, Some lastPoint =>
      let change := (dp_y lastPoint - dp_y firstPoint)%Q in
      let span := (seriesMax - seriesMin)%Q in
      let strength := (Qabs change / (if Js.eqb span 0 then 1 else span))%Q in
      let direction :=
        if Js.ltb (Qabs change) ((1 # 100) * seriesAvg) then stable
        else if Js.gtb change 0 then up
        else down in
      [{| t_series := s_name s; direction := direction;
          strength := Js.min2 strength 1 |}]
  | _, _ => []
  end.

Definition step (acc : Acc) (s : SeriesData) : Acc :=
  let total := (acc_totalPoints acc + length (s_data s))%nat in
  if (length (s_data s) =? 0)%nat then
    {| acc_totalPoints := total; acc_range := acc_range acc;
       acc_timeMin := acc_timeMin acc; acc_timeMax := acc_timeMax acc;
       acc_anomalies := acc_anomalies acc; acc_trends := acc_trends acc |}
  else
    let values := map dp_y (s_data s) in
    let seriesMin := Js.min_of values in
    let seriesMax := Js.max_of values in
    let seriesAvg := (Js.sum values / Js.of_nat (length values))%Q in
    let range :=
      match acc_range acc with
      | None => (seriesMin, seriesMax)
      | Some (globalMin, globalMax) =>
          (Js.min2 globalMin seriesMin, Js.max2 globalMax seriesMax)
      end in
    let times := map (fun p => timeOf (dp_x p)) (s_data s) in
    let seriesTimeMin := Js.minZ_of times in
    let seriesTimeMax := Js.maxZ_of times in
    let timeMin :=
      match acc_timeMin acc with
      | None => seriesTimeMin
      | Some t => if (seriesTimeMin <? t)%Z then seriesTimeMin else t
      end in
    let timeMax :=
      match acc_timeMax acc with
      | None => seriesTimeMax
      | Some t => if (t <? seriesTimeMax)%Z then seriesTimeMax else t
      end in
    let var :=
      (fold_left (fun a v => a + (v - seriesAvg) * (v - seriesAvg)) values 0
         / Js.of_nat (length values))%Q in
    {| acc_totalPoints := total;
       acc_range := Some range;
       acc_timeMin := Some timeMin;
       acc_timeMax := Some timeMax;
       acc_anomalies := acc_anomalies acc ++ seriesAnomalies s seriesAvg var;
       acc_trends := acc_trends acc ++ seriesTrend s seriesMin seriesMax seriesAvg |}.

Definition generateDataSummary (data : list SeriesData) : DataSummary :=
  if (length data =? 0)%nat then
    {| seriesCount := 0; totalPoints := 0; timeRange := None;
       valueRange := Some (0, 0)%Q; anomalies := []; trends := [] |}
  else
    let acc :=
      fold_left step data
        {| acc_totalPoints := 0; acc_range := None; acc_timeMin := None;
           acc_timeMax := None; acc_anomalies := []; acc_trends := [] |} in
    {| seriesCount := length data;
       totalPoints := acc_totalPoints acc;
       timeRange :=
         match acc_timeMin acc, acc_timeMax acc with
         | Some lo, Some hi => Some (lo, hi)
         | _, _ => None
         end;
       valueRange := acc_range acc;
       anomalies := Js.slice0 10 (acc_anomalies acc);
       trends := acc_trends acc |}.

(** [TableColumn] without its [format] function, whose text depends on
    the locale. *)
Record TableColumn := mkTableColumn { key : string; header : string }.

(** [TableRow]; as in [DataPoint], the [metadata] bag is left out. *)
Record TableRow := mkTableRow {
  row_series : string;
  row_timestamp : Q;
  row_value : Q;
  row_id : option PointId;
}.

(** [generateDataTable(data, maxRows)].  The loop state is
    [(rows, truncated, count)]; a [break] is the rest of the loop passing
    the state on unchanged. *)
Definition generateDataTable (data : list SeriesData) (maxRows : Q)
    : list TableColumn * list TableRow * bool :=
  if (length data =? 0)%nat then ([], [], false)
  else
    let columns :=
      [ {| key := "series"; header := "Series" |};
        {| key := "timestamp"; header := "Time" |};
        {| key := "value"; header := "Value" |} ] in
    let '(rows, truncated, _) :=
      fold_left
        (fun '(rows, truncated, count) series =>
           if (truncated : bool) then (rows, truncated, count)
           else
             fold_left
               (fun '(rows, truncated, count) point =>
                  if (truncated : bool) then (rows, truncated, count)
                  else if Js.geb (Js.of_nat count) maxRows then (rows, true, count)
                  else
                    (rows ++ [{| row_series := s_name series;
                                 row_timestamp := dp_x point;
                                 row_value := dp_y point;
                                 row_id := dp_id point |}],
                     false, S count))
               (s_data series) (rows, truncated, count))
        data ([], false, 0%nat) in
    (columns, rows, truncated).

End Accessibility.

(** ** interaction-bridge.ts *)

Module InteractionBridge.
Import Types Render.

(** The two interaction methods of the [Renderer] interface. *)
Record Renderer := mkRenderer {
  hitTest : Q -> Q -> Q -> option HitTestResult;
  getPointsInRegion : Q -> Q -> Q -> Q -> list DataPoint;
}.

Definition ofSVG (r : SVGRenderer.t) : Renderer :=
  {| hitTest := SVGRenderer.hitTest r;
     getPointsInRegion := SVGRenderer.getPointsInRegion r |}.

Definition ofCanvas (r : CanvasRenderer.t) : Renderer :=
  {| hitTest := CanvasRenderer.hitTest r;
     getPointsInRegion := CanvasRenderer.getPointsInRegion r |}.

Definition ofWebGL (r : WebGLRenderer.t) : Renderer :=
  {| hitTest := WebGLRenderer.hitTest r;
     getPointsInRegion := WebGLRenderer.getPointsInRegion r |}.

(** The fields of [InteractionBridgeConfig] that the handlers below read. *)
Record InteractionBridgeConfig := mkInteractionBridgeConfig {
  hoverRadius : Q;
  selectionRadius : Q;
  doubleClickThresholdMs : Q;
  enableKeyboardNavigation : bool;
}.

Definition DEFAULT_INTERACTION_CONFIG : InteractionBridgeConfig :=
  {| hoverRadius := 10;
     selectionRadius := 15;
     doubleClickThresholdMs := 300;
     enableKeyboardNavigation := true |}.

(** [lastClick]; [time] is a reading of [Date.now()]. *)
Record Click := mkClick { time : Z; click_x : Q; click_y : Q }.

Record TooltipState := mkTooltipState {
  tt_visible : bool;
  tt_x : Q;
  tt_y : Q;
  tt_point : option DataPoint;
}.

(** The private fields of the class.  [container] and [renderer] are set
    and cleared together by [attach] and [detach] and are kept as the one
    field [renderer]; the callbacks and the timers are outside the model. *)
Record t := mk {
  config : InteractionBridgeConfig;
  renderer : option Renderer;
  selection : list DataPoint;
  hoverPoint : option DataPoint;
  hoverSeries : option string;
  tooltip : TooltipState;
  isBrushing : bool;
  brushStart : option (Q * Q);
  brushCurrent : option (Q * Q);
  lastClick : option Click;
}.

Definition createInteractionBridge (config : InteractionBridgeConfig) : t :=
  {| config := config; renderer := None; selection := []; hoverPoint := None;
     hoverSeries := None;
     tooltip := {| tt_visible := false; tt_x := 0; tt_y := 0; tt_point := None |};
     isBrushing := false; brushStart := None; brushCurrent := None; lastClick := None |}.

Definition detach (b : t) : t :=
  {| config := config b; renderer := None; selection := selection b;
     hoverPoint := hoverPoint b; hoverSeries := hoverSeries b; tooltip := tooltip b;
     isBrushing := isBrushing b; brushStart := brushStart b;
     brushCurrent := brushCurrent b; lastClick := lastClick b |}.

Definition attach (b : t) (r : Renderer) : t :=
  let b' := detach b in
  {| config := config b'; renderer := Some r; selection := selection b';
     hoverPoint := hoverPoint b'; hoverSeries := hoverSeries b'; tooltip := tooltip b';
     isBrushing := isBrushing b'; brushStart := brushStart b';
     brushCurrent := brushCurrent b'; lastClick := lastClick b' |}.

Definition set_selection (b : t) (points : list DataPoint) : t :=
  {| config := config b; renderer := renderer b; selection := points;
     hoverPoint := hoverPoint b; hoverSeries := hoverSeries b; tooltip := tooltip b;
     isBrushing := isBrushing b; brushStart := brushStart b;
     brushCurrent := brushCurrent b; lastClick := lastClick b |}.

Definition set_lastClick (b : t) (c : option Click) : t :=
  {| config := config b; renderer := renderer b; selection := selection b;
     hoverPoint := hoverPoint b; hoverSeries := hoverSeries b; tooltip := tooltip b;
     isBrushing := isBrushing b; brushStart := brushStart b;
     brushCurrent := brushCurrent b; lastClick := c |}.

Definition set_brush (b : t) (brushing : bool) (start current : option (Q * Q)) : t :=
  {| config := config b; renderer := renderer b; selection := selection b;
     hoverPoint := hoverPoint b; hoverSeries := hoverSeries b; tooltip := tooltip b;
     isBrushing := brushing; brushStart := start;
     brushCurrent := current; lastClick := lastClick b |}.

(** [(p) => p.x === point.x && p.y === point.y], on numeric [x]. *)
Definition sameXY (point p : DataPoint) : bool :=
  Js.eqb (dp_x p) (dp_x point) && Js.eqb (dp_y p) (dp_y point).

(** [arr.findIndex(f)]: [None] is the answer [-1]. *)
Fixpoint findIndex {A} (f : A -> bool) (l : list A) : option nat :=
  match l with
  | [] => None
  | a :: rest => if f a then Some 0%nat else option_map S (findIndex f rest)
  end.

(** [handleClick] for a click at [(x, y)] of the container when
    [Date.now()] reads [now]. *)
Definition handleClick (b : t) (x y : Q) (now : Z) : t :=
  match renderer b with
  | None => b
  | Some r =>
      let isDoubleClick :=
        match lastClick b with
        | Some last =>
            Js.ltb (inject_Z (now - time last)) (doubleClickThresholdMs (config b))
            && Js.ltb (Qabs (x - click_x last)) 5
            && Js.ltb (Qabs (y - click_y last)) 5
        | None => false
        end in
      if isDoubleClick then b
      else
        let b1 := set_lastClick b (Some {| time := now; click_x := x; click_y := y |}) in
        match hitTest r x y (selectionRadius (config b)) with
        | Some result =>
            match findIndex (sameXY (point result)) (selection b1) with
            | Some existingIndex =>
                (* splice(existingIndex, 1) *)
                set_selection b1 (delete existingIndex (selection b1))
            | None => set_selection b1 (selection b1 ++ [point result])
            end
        | None => b1
        end
  end.

Definition handleDoubleClick (b : t) : t :=
  match renderer b with
  | None => b
  | Some _ => set_lastClick b None
  end.

(** [performHitTest], which the hover timer runs. *)
Definition performHitTest (b : t) (x y : Q) : t :=
  match renderer b with
  | None => b
  | Some r =>
      let result := hitTest r x y (hoverRadius (config b)) in
      {| config := config b; renderer := renderer b; selection := selection b;
         hoverPoint := option_map point result;
         hoverSeries := result ≫= series;
         tooltip := {| tt_visible := match result with Some _ => true | None => false end;
                       tt_x := x; tt_y := y; tt_point := option_map point result |};
         isBrushing := isBrushing b; brushStart := brushStart b;
         brushCurrent := brushCurrent b; lastClick := lastClick b |}
  end.

Definition clearHover (b : t) : t :=
  {| config := config b; renderer := renderer b; selection := selection b;
     hoverPoint := None; hoverSeries := None;
     tooltip := {| tt_visible := false; tt_x := 0; tt_y := 0; tt_point := None |};
     isBrushing := isBrushing b; brushStart := brushStart b;
     brushCurrent := brushCurrent b; lastClick := lastClick b |}.

Definition startBrush (b : t) (x y : Q) : t :=
  set_brush b true (Some (x, y)) (Some (x, y)).

Definition updateBrush (b : t) (x y : Q) : t :=
  if negb (isBrushing b) then b
  else set_brush b (isBrushing b) (brushStart b) (Some (x, y)).

(** [handleMouseMove]: while brushing it moves the brush; otherwise it
    only arms the hover timer, whose firing is [performHitTest]. *)
Definition handleMouseMove (b : t) (x y : Q) : t :=
  match renderer b with
  | None => b
  | Some _ =>
      match isBrushing b, brushStart b with
      | true, Some _ => set_brush b (isBrushing b) (brushStart b) (Some (x, y))
      | _, _ => b
      end
  end.

(** [endBrush]: the new state and the points returned. *)
Definition endBrush (b : t) : t * list DataPoint :=
  match isBrushing b, brushStart b, brushCurrent b, renderer b with
  | true, Some (x1, y1), Some (x2, y2), Some r =>
      let points := getPointsInRegion r x1 y1 x2 y2 in
      (set_brush (set_selection b points) false None None, points)
  | _, _, _, _ => (set_brush b false None None, [])
  end.

Definition handleEnterOnHover (b : t) : t :=
  match hoverPoint b with
  | Some hover =>
      match findIndex (sameXY hover) (selection b) with
      | None => set_selection b (selection b ++ [hover])
      | Some _ => b
      end
  | None => b
  end.

Definition clearSelection (b : t) : t := set_selection b [].

Definition getSelection (b : t) : list DataPoint := selection b.

Definition setSelection (b : t) (points : list DataPoint) : t := set_selection b points.

Inductive Key := ArrowLeft | ArrowRight | ArrowUp | ArrowDown | Escape | Enter | OtherKey.

(** [handleKeyDown]; [navigateByKeyboard] is an empty placeholder in the
    source. *)
Definition handleKeyDown (b : t) (key : Key) : t :=
  if negb (enableKeyboardNavigation (config b)) then b
  else
    match key with
    | ArrowLeft | ArrowRight | ArrowUp | ArrowDown => b
    | Escape => clearSelection b
    | Enter =>
        match hoverPoint b with
        | Some _ => handleEnterOnHover b
        | None => b
        end
    | OtherKey => b
    end.

End InteractionBridge.

(** ** Rounded arithmetic

  The embeddings below follow the same sources once more over a number
  type of which only the operations are given: [x] of a data point may be
  a number or a [Date], [y] and every computed quantity is of the number
  type.  [Float64.binary64] is the instance of IEEE 754 double precision,
  the [number] of JavaScript. *)

Module Rounded.

Class Number := mkNumber {
  num : Type;
  zero : num;
  infinity : num;
  neg_infinity : num;
  (** An array length, as a number. *)
  of_nat : nat -> num;
  (** A decimal literal of the program text. *)
  lit : Q -> num;
  add : num -> num -> num;
  sub : num -> num -> num;
  mul : num -> num -> num;
  div : num -> num -> num;
  (** [x ** 2] and [Math.pow(x, 2)]. *)
  pow2 : num -> num;
  sqrt : num -> num;
  abs : num -> num;
  (** [Math.min(a, b)] and [Math.max(a, b)]. *)
  min2 : num -> num -> num;
  max2 : num -> num -> num;
  ltb : num -> num -> bool;
  leb : num -> num -> bool;
  (** [a === b] on numbers. *)
  eqb : num -> num -> bool;
  (** [Math.floor(a)], for a finite [a]. *)
  floor : num -> Z;
}.

Section Derived.
Context {A : Number}.

Definition gtb (a b : num) : bool := ltb b a.
Definition geb (a b : num) : bool := leb b a.

(** [Math.min(...vs)] and [Math.max(...vs)]. *)
Definition min_of (vs : list num) : num :=
  match vs with
  | [] => infinity
  | v :: rest => fold_left min2 rest v
  end.

Definition max_of (vs : list num) : num :=
  match vs with
  | [] => neg_infinity
  | v :: rest => fold_left max2 rest v
  end.

(** [vs.reduce((a, b) => a + b, 0)]. *)
Definition sum (vs : list num) : num := fold_left add vs zero.

(** [v || 0]: zero, negative zero and NaN are falsy. *)
Definition orZero (v : num) : num := if eqb v v && negb (eqb v zero) then v else zero.
End Derived.

(** What the proofs use of the arithmetic.  All of it holds of IEEE
    doubles, NaN and the infinities included: [<] is a strict order that
    is total on the numbers that equal themselves (all but NaN), only
    such numbers are ever below or above another, a difference that is a
    number has operands that are numbers,
    [Math.min] and [Math.max] answer one of their arguments, the same one
    in either order, and [-Infinity - Infinity] is not positive. *)
Record Laws (A : Number) : Prop := mkLaws {
  ltb_irrefl : forall a : num, ltb a a = false;
  ltb_trans : forall a b c : num, ltb a b = true -> ltb b c = true -> ltb a c = true;
  ltb_cotrans :
    forall a b c : num, ltb a c = true -> eqb b b = true -> ltb a b = true \/ ltb b c = true;
  ltb_infinity : forall a b : num, ltb a b = true -> ltb a infinity = true;
  ltb_comparable : forall a b : num, ltb a b = true -> eqb a a = true /\ eqb b b = true;
  sub_comparable :
    forall a b : num, eqb (sub a b) (sub a b) = true -> eqb a a = true /\ eqb b b = true;
  min2_select : forall a b : num, min2 a b = a \/ min2 a b = b;
  max2_select : forall a b : num, max2 a b = a \/ max2 a b = b;
  min2_comm : forall a b : num, min2 a b = min2 b a;
  max2_comm : forall a b : num, max2 a b = max2 b a;
  empty_range : ltb zero (sub neg_infinity infinity) = false;
}.

End Rounded.

(** ** IEEE 754 double precision *)

Module Float64.
Import PrimFloat FloatOps SpecFloat.

(** An integer of the program as a double; exact below 2^53. *)
Definition of_Z (z : Z) : float :=
  match z with
  | Z0 => PrimFloat.zero
  | Zpos _ => PrimFloat.of_uint63 (Uint63.of_Z z)
  | Zneg p => PrimFloat.opp (PrimFloat.of_uint63 (Uint63.of_Z (Zpos p)))
  end.

(** The double nearest to a short decimal: the correctly rounded quotient
    of its numerator and denominator. *)
Definition lit (q : Q) : float := PrimFloat.div (of_Z (Qnum q)) (of_Z (Zpos (Qden q))).

Definition floorZ (f : float) : Z :=
  match Prim2SF f with
  | S754_finite s m e =>
      let v := if s then Zneg m else Zpos m in
      if (0 <=? e)%Z then (v * 2 ^ e)%Z else (v / 2 ^ (- e))%Z
  | _ => 0%Z
  end.

(** [Math.max(a, b)]: NaN if either is NaN, and [+0] above [-0]. *)
Definition max2 (a b : float) : float :=
  if PrimFloat.is_nan a then a
  else if PrimFloat.is_nan b then b
  else if PrimFloat.ltb a b then b
  else if PrimFloat.ltb b a then a
  else if PrimFloat.get_sign a then b else a.

Definition min2 (a b : float) : float :=
  if PrimFloat.is_nan a then a
  else if PrimFloat.is_nan b then b
  else if PrimFloat.ltb a b then a
  else if PrimFloat.ltb b a then b
  else if PrimFloat.get_sign a then a else b.

(** A comparison key of the numbers: [<] on doubles is the lexicographic
    order [below] of their keys; NaN has none. *)
Definition key (f : spec_float) : option (Z * Z * Z) :=
  match f with
  | S754_nan => None
  | S754_infinity true => Some (-2, 0, 0)%Z
  | S754_finite true m e => Some (-1, - e, - Zpos m)%Z
  | S754_zero _ => Some (0, 0, 0)%Z
  | S754_finite false m e => Some (1, e, Zpos m)%Z
  | S754_infinity false => Some (2, 0, 0)%Z
  end.

Definition below (a b : Z * Z * Z) : Prop :=
  let '(a1, a2, a3) := a in
  let '(b1, b2, b3) := b in
  (a1 < b1 \/ (a1 = b1 /\ (a2 < b2 \/ (a2 = b2 /\ a3 < b3))))%Z.

(** [pow2] is the exact square rounded once, as in engines whose [pow]
    answers [x * x] for the exponent 2. *)
#[export] Instance binary64 : Rounded.Number :=
  {| Rounded.num := float;
     Rounded.zero := PrimFloat.zero;
     Rounded.infinity := PrimFloat.infinity;
     Rounded.neg_infinity := PrimFloat.neg_infinity;
     Rounded.of_nat := fun n => of_Z (Z.of_nat n);
     Rounded.lit := lit;
     Rounded.add := PrimFloat.add;
     Rounded.sub := PrimFloat.sub;
     Rounded.mul := PrimFloat.mul;
     Rounded.div := PrimFloat.div;
     Rounded.pow2 := fun x => PrimFloat.mul x x;
     Rounded.sqrt := PrimFloat.sqrt;
     Rounded.abs := PrimFloat.abs;
     Rounded.min2 := min2;
     Rounded.max2 := max2;
     Rounded.ltb := PrimFloat.ltb;
     Rounded.leb := PrimFloat.leb;
     Rounded.eqb := PrimFloat.eqb;
     Rounded.floor := floorZ |}.

End Float64.

(** ** The level-of-detail summary of a bucket, rounded *)

Module LodR.
Import Types Rounded.

(** [TimeSeriesPoint] and [LODBucket] with [y] and the statistics in
    the number type [N]. *)
Record TimeSeriesPoint (N : Type) := mkTimeSeriesPoint {
  x : Z;
  y : N;
  id : option PointId;
  seriesId : option string;
}.

Arguments mkTimeSeriesPoint {N} _ _ _ _.
Arguments x {N} _.
Arguments y {N} _.
Arguments id {N} _.
Arguments seriesId {N} _.

Record LODBucket (N : Type) := mkLODBucket {
  startTime : Z;
  endTime : Z;
  min : N;
  max : N;
  avg : N;
  count : nat;
  outliers : list (TimeSeriesPoint N);
  representative : TimeSeriesPoint N;
}.

Arguments mkLODBucket {N} _ _ _ _ _ _ _ _.
Arguments startTime {N} _.
Arguments endTime {N} _.
Arguments min {N} _.
Arguments max {N} _.
Arguments avg {N} _.
Arguments count {N} _.
Arguments outliers {N} _.
Arguments representative {N} _.

Section WithNumber.
Context {A : Number}.

Definition averagePoint (bucketIndex bucketStart bucketSize : Z) (avg : num)
    : TimeSeriesPoint num :=
  {| x := Js.date_of_half (2 * bucketStart + bucketSize);
     y := avg;
     id := Some (IdStr ("bucket-" +:+ pretty bucketIndex +:+ "-avg"));
     seriesId := None |}.

Definition moreExtreme (avg : num) (extreme current : TimeSeriesPoint num)
    : TimeSeriesPoint num :=
  if gtb (abs (sub (y current) avg)) (abs (sub (y extreme) avg)) then current
  else extreme.

(** [bucketPoints.find((p) => p.y === v) || bucketPoints[0]]. *)
Definition findByValue (bucketPoints : list (TimeSeriesPoint num)) (v : num)
    (fallback : TimeSeriesPoint num) : TimeSeriesPoint num :=
  match List.find (fun p => eqb (y p) v) bucketPoints with
  | Some p => p
  | None => hd fallback bucketPoints
  end.

(** [preserveMinMax] is [config.preserveMinMax], the one field of the
    configuration that the function reads. *)
Definition createBucketSummary (bucketPoints : list (TimeSeriesPoint num))
    (bucketIndex bucketSize startTime : Z) (outliers : list (TimeSeriesPoint num))
    (preserveMinMax : bool) : LODBucket num :=
  let values := map y bucketPoints in
  let min := min_of values in
  let max := max_of values in
  let avg := div (sum values) (of_nat (length values)) in
  let bucketStart := (startTime + bucketIndex * bucketSize)%Z in
  let bucketEnd := (bucketStart + bucketSize)%Z in
  let synthetic := averagePoint bucketIndex bucketStart bucketSize avg in
  let representative :=
    if preserveMinMax then
      let bucketOutliers :=
        List.filter (fun o => (bucketStart <=? x o)%Z && (x o <? bucketEnd)%Z) outliers in
      match bucketOutliers with
      | first :: rest => fold_left (moreExtreme avg) rest first
      | [] =>
          let range := sub max min in
          if gtb range zero && gtb (div (sub avg min) range) (lit (7 # 10)) then
            findByValue bucketPoints max synthetic
          else if gtb range zero && gtb (div (sub max avg) range) (lit (7 # 10)) then
            findByValue bucketPoints min synthetic
          else synthetic
      end
    else synthetic in
  {| startTime := bucketStart;
     endTime := bucketEnd;
     min := min;
     max := max;
     avg := avg;
     count := length bucketPoints;
     outliers := [];
     representative := representative |}.
End WithNumber.

End LodR.

(** ** Data points and series, rounded *)

Module TypesR.
Import Types.

(** [DataPoint] and [SeriesData] with [y] in the number type [N] and [x]
    in [X]: numbers or [Date] objects. *)
Record DataPoint (N X : Type) := mkDataPoint {
  dp_x : X;
  dp_y : N;
  dp_id : option PointId;
}.

Arguments mkDataPoint {N X} _ _ _.
Arguments dp_x {N X} _.
Arguments dp_y {N X} _.
Arguments dp_id {N X} _.

Record SeriesData (N X : Type) := mkSeriesData {
  s_id : string;
  s_name : string;
  s_color : string;
  s_data : list (DataPoint N X);
  visible : option bool;
}.

Arguments mkSeriesData {N X} _ _ _ _ _.
Arguments s_id {N X} _.
Arguments s_name {N X} _.
Arguments s_color {N X} _.
Arguments s_data {N X} _.
Arguments visible {N X} _.

(** [!series.visible && series.visible !== undefined]. *)
Definition skipped {N X : Type} (s : SeriesData N X) : bool :=
  let truthy := match visible s with Some b => b | None => false end in
  let isUndefined := match visible s with None => true | Some _ => false end in
  negb truthy && negb isUndefined.

End TypesR.

(** ** The three hit tests, rounded *)

Module SurfaceR.
Import Types Rounded TypesR.

Record Margin (N : Type) := mkMargin { top : N; right : N; bottom : N; left : N }.

Arguments mkMargin {N} _ _ _ _.
Arguments top {N} _.
Arguments right {N} _.
Arguments bottom {N} _.
Arguments left {N} _.

(** [RenderContext]; the d3 scales are the injected data-to-pixel maps. *)
Record RenderContext (N X : Type) := mkRenderContext {
  width : N;
  height : N;
  margin : Margin N;
  xScale : X -> N;
  yScale : N -> N;
}.

Arguments mkRenderContext {N X} _ _ _ _ _.
Arguments width {N X} _.
Arguments height {N X} _.
Arguments margin {N X} _.
Arguments xScale {N X} _.
Arguments yScale {N X} _.

Record HitTestResult (N X : Type) := mkHitTestResult {
  point : DataPoint N X;
  series : option string;
  distance : N;
  hit_x : N;
  hit_y : N;
}.

Arguments mkHitTestResult {N X} _ _ _ _ _.
Arguments point {N X} _.
Arguments series {N X} _.
Arguments distance {N X} _.
Arguments hit_x {N X} _.
Arguments hit_y {N X} _.

Section WithNumber.
Context {A : Number}.
Variable X : Type.
(** [a === b] on values of [x]: equality of numbers, identity of [Date]
    objects. *)
Variable sameX : X -> X -> bool.

(** The body of the innermost loop of every [hitTest]; the state is
    [(closest, minDistance)] and starts as [(null, Infinity)]. *)
Definition consider (radius : num) (st : option (HitTestResult num X) * num)
    (candidate : HitTestResult num X) : option (HitTestResult num X) * num :=
  if ltb (distance candidate) radius && ltb (distance candidate) (snd st)
  then (Some candidate, distance candidate)
  else st.

(** *** SVGRenderer *)

Definition svgCandidate (ctx : RenderContext num X) (dataX dataY : num)
    (s : SeriesData num X) (p : DataPoint num X) : HitTestResult num X :=
  let px := xScale ctx (dp_x p) in
  let py := yScale ctx (dp_y p) in
  let dx := sub px dataX in
  let dy := sub py dataY in
  {| point := p; series := Some (s_id s);
     distance := sqrt (add (mul dx dx) (mul dy dy));
     hit_x := px; hit_y := py |}.

Definition svgHitTest (currentContext : option (RenderContext num X))
    (currentData : list (SeriesData num X)) (x y radius : num)
    : option (HitTestResult num X) :=
  match currentContext with
  | None => None
  | Some ctx =>
      if (length currentData =? 0)%nat then None
      else
        let dataX := sub x (left (margin ctx)) in
        let dataY := sub y (top (margin ctx)) in
        fst (fold_left
               (fun st s =>
                  if skipped s then st
                  else fold_left
                         (fun st' p => consider radius st' (svgCandidate ctx dataX dataY s p))
                         (s_data s) st)
               currentData (None, infinity))
  end.

Definition svgGetPointsInRegion (currentContext : option (RenderContext num X))
    (currentData : list (SeriesData num X)) (x1 y1 x2 y2 : num)
    : list (DataPoint num X) :=
  match currentContext with
  | None => []
  | Some ctx =>
      let minX := sub (min2 x1 x2) (left (margin ctx)) in
      let maxX := sub (max2 x1 x2) (left (margin ctx)) in
      let minY := sub (min2 y1 y2) (top (margin ctx)) in
      let maxY := sub (max2 y1 y2) (top (margin ctx)) in
      fold_left
        (fun points s =>
           if skipped s then points
           else fold_left
                  (fun points' p =>
                     let px := xScale ctx (dp_x p) in
                     let py := yScale ctx (dp_y p) in
                     if geb px minX && leb px maxX && geb py minY && leb py maxY
                     then points' ++ [p] else points')
                  (s_data s) points)
        currentData []
  end.

(** *** WebGLRenderer *)

Definition webglCandidate (ctx : RenderContext num X) (worldX worldY : num)
    (s : SeriesData num X) (p : DataPoint num X) : HitTestResult num X :=
  let px := xScale ctx (dp_x p) in
  let py := sub (orZero (height ctx)) (yScale ctx (dp_y p)) in
  let dx := sub px worldX in
  let dy := sub py worldY in
  {| point := p; series := Some (s_id s);
     distance := sqrt (add (mul dx dx) (mul dy dy));
     hit_x := px; hit_y := py |}.

(** [camera] is [true] once [initialize] has set the camera. *)
Definition webglHitTest (currentContext : option (RenderContext num X)) (camera : bool)
    (currentData : list (SeriesData num X)) (x y radius : num)
    : option (HitTestResult num X) :=
  match currentContext with
  | None => None
  | Some ctx =>
      if negb camera || (length currentData =? 0)%nat then None
      else
        let worldX := sub x (left (margin ctx)) in
        let worldY := sub (orZero (height ctx)) (sub y (top (margin ctx))) in
        fst (fold_left
               (fun st s =>
                  if skipped s then st
                  else fold_left
                         (fun st' p =>
                            consider radius st' (webglCandidate ctx worldX worldY s p))
                         (s_data s) st)
               currentData (None, infinity))
  end.

(** *** CanvasRenderer *)

Definition hitTestRadius : num := lit 10.

Definition cellSize : num := mul hitTestRadius (lit 2).

(** The two numbers of a key [`${cellX},${cellY}`], as integers. *)
Definition cellOf (a : num) : Z := floor (div a cellSize).

Definition buildSpatialIndex (data : list (SeriesData num X)) (xScale : X -> num)
    (yScale : num -> num) : gmap (Z * Z) (list (DataPoint num X)) :=
  fold_left
    (fun index s =>
       if skipped s then index
       else fold_left
              (fun index' p =>
                 let x := xScale (dp_x p) in
                 let y := yScale (dp_y p) in
                 let cellKey := (cellOf x, cellOf y) in
                 <[cellKey := default [] (index' !! cellKey) ++ [p]]> index')
              (s_data s) index)
    data ∅.

(** [this.currentData.find((s) => s.data.some((p) => p.x === point.x &&
    p.y === point.y))?.id]. *)
Definition seriesOf (data : list (SeriesData num X)) (point : DataPoint num X) : option string :=
  match List.find
          (fun s => existsb (fun p => sameX (dp_x p) (dp_x point)
                                      && eqb (dp_y p) (dp_y point)) (s_data s))
          data with
  | Some s => Some (s_id s)
  | None => None
  end.

Definition canvasCandidate (currentData : list (SeriesData num X))
    (ctx : RenderContext num X) (dataX dataY : num) (p : DataPoint num X)
    : HitTestResult num X :=
  let px := xScale ctx (dp_x p) in
  let py := yScale ctx (dp_y p) in
  {| point := p; series := seriesOf currentData p;
     distance := sqrt (add (pow2 (sub px dataX)) (pow2 (sub py dataY)));
     hit_x := px; hit_y := py |}.

(** [for (let dx = -1; dx <= 1; dx++) for (let dy = -1; dy <= 1; dy++)]. *)
Definition neighbourhood (cellX cellY : Z) : list (Z * Z) :=
  dx ← [-1; 0; 1]%Z; dy ← [-1; 0; 1]%Z; [((cellX + dx)%Z, (cellY + dy)%Z)].

Definition canvasHitTest (currentContext : option (RenderContext num X))
    (currentData : list (SeriesData num X))
    (spatialIndex : gmap (Z * Z) (list (DataPoint num X)))
    (x y radius : num) : option (HitTestResult num X) :=
  match currentContext with
  | None => None
  | Some ctx =>
      if (length currentData =? 0)%nat then None
      else
        let dataX := sub x (left (margin ctx)) in
        let dataY := sub y (top (margin ctx)) in
        let cellX := cellOf dataX in
        let cellY := cellOf dataY in
        fst (fold_left
               (fun st cellKey =>
                  match spatialIndex !! cellKey with
                  | None => st
                  | Some points =>
                      fold_left
                        (fun st' p =>
                           consider radius st' (canvasCandidate currentData ctx dataX dataY p))
                        points st
                  end)
               (neighbourhood cellX cellY) (None, infinity))
  end.
End WithNumber.

Arguments consider {A X} _ _ _.
Arguments svgCandidate {A X} _ _ _ _ _.
Arguments svgHitTest {A X} _ _ _ _ _.
Arguments svgGetPointsInRegion {A X} _ _ _ _ _ _.
Arguments webglCandidate {A X} _ _ _ _ _.
Arguments webglHitTest {A X} _ _ _ _ _ _.
Arguments buildSpatialIndex {A X} _ _ _.
Arguments seriesOf {A X} _ _ _.
Arguments canvasCandidate {A X} _ _ _ _ _ _.
Arguments canvasHitTest {A X} _ _ _ _ _ _ _.

End SurfaceR.

(** ** The data summary, rounded *)

Module SummaryR.
Import Types Rounded TypesR.

Inductive Direction := up | down | stable.

(** An entry of [anomalies]; its [description] text is a rendering of
    the two fields kept here. *)
Record Anomaly (N X : Type) := mkAnomaly {
  a_series : string;
  a_point : DataPoint N X;
}.

Arguments mkAnomaly {N X} _ _.
Arguments a_series {N X} _.
Arguments a_point {N X} _.

Record Trend (N : Type) := mkTrend {
  t_series : string;
  direction : Direction;
  strength : N;
}.

Arguments mkTrend {N} _ _ _.
Arguments t_series {N} _.
Arguments direction {N} _.
Arguments strength {N} _.

Record DataSummary (N X : Type) := mkDataSummary {
  seriesCount : nat;
  totalPoints : nat;
  timeRange : option (Z * Z);
  valueRange : N * N;
  anomalies : list (Anomaly N X);
  trends : list (Trend N);
}.

Arguments mkDataSummary {N X} _ _ _ _ _ _.
Arguments seriesCount {N X} _.
Arguments totalPoints {N X} _.
Arguments timeRange {N X} _.
Arguments valueRange {N X} _.
Arguments anomalies {N X} _.
Arguments trends {N X} _.

(** The variables the loop over the series updates. *)
Record Acc (N X : Type) := mkAcc {
  acc_totalPoints : nat;
  acc_globalMin : N;
  acc_globalMax : N;
  acc_timeMin : option Z;
  acc_timeMax : option Z;
  acc_anomalies : list (Anomaly N X);
  acc_trends : list (Trend N);
}.

Arguments mkAcc {N X} _ _ _ _ _ _ _.
Arguments acc_totalPoints {N X} _.
Arguments acc_globalMin {N X} _.
Arguments acc_globalMax {N X} _.
Arguments acc_timeMin {N X} _.
Arguments acc_timeMax {N X} _.
Arguments acc_anomalies {N X} _.
Arguments acc_trends {N X} _.

Section WithNumber.
Context {A : Number}.
Variable X : Type.
(** [(p.x instanceof Date ? p.x : new Date(p.x)).getTime()]. *)
Variable timeOf : X -> Z.

(** [seriesAvg] and [std] of one series, as the loop computes them. *)
Definition seriesAvg (s : SeriesData num X) : num :=
  let values := map dp_y (s_data s) in
  div (sum values) (of_nat (length values)).

Definition seriesStd (s : SeriesData num X) : num :=
  let values := map dp_y (s_data s) in
  sqrt (div (fold_left (fun acc v => add acc (pow2 (sub v (seriesAvg s)))) values zero)
          (of_nat (length values))).

(** The loop over the points of one series. *)
Definition seriesAnomalies (s : SeriesData num X) : list (Anomaly num X) :=
  let seriesAvg := seriesAvg s in
  let std := seriesStd s in
  fold_left
    (fun found p =>
       if gtb (abs (sub (dp_y p) seriesAvg)) (mul (lit 3) std)
       then found ++ [{| a_series := s_name s; a_point := p |}]
       else found)
    (s_data s) [].

Definition seriesTrend (s : SeriesData num X) (seriesMin seriesMax : num) : list (Trend num) :=
  match s_data s, last (s_data s) with
  | firstPoint :: _ :: _, Some lastPoint =>
      let change := sub (dp_y lastPoint) (dp_y firstPoint) in
      let span := sub seriesMax seriesMin in
      (* seriesMax - seriesMin || 1 *)
      let strength :=
        div (abs change) (if eqb span span && negb (eqb span zero) then span else lit 1) in
      let direction :=
        if ltb (abs change) (mul (lit (1 # 100)) (seriesAvg s)) then stable
        else if gtb change zero then up
        else down in
      [{| t_series := s_name s; direction := direction; strength := min2 strength (lit 1) |}]
  | _, _ => []
  end.

Definition step (acc : Acc num X) (s : SeriesData num X) : Acc num X :=
  let total := (acc_totalPoints acc + length (s_data s))%nat in
  if (length (s_data s) =? 0)%nat then
    {| acc_totalPoints := total; acc_globalMin := acc_globalMin acc;
       acc_globalMax := acc_globalMax acc;
       acc_timeMin := acc_timeMin acc; acc_timeMax := acc_timeMax acc;
       acc_anomalies := acc_anomalies acc; acc_trends := acc_trends acc |}
  else
    let values := map dp_y (s_data s) in
    let seriesMin := min_of values in
    let seriesMax := max_of values in
    let times := map (fun p => timeOf (dp_x p)) (s_data s) in
    let seriesTimeMin := Js.minZ_of times in
    let seriesTimeMax := Js.maxZ_of times in
    let timeMin :=
      match acc_timeMin acc with
      | None => seriesTimeMin
      | Some t => if (seriesTimeMin <? t)%Z then seriesTimeMin else t
      end in
    let timeMax :=
      match acc_timeMax acc with
      | None => seriesTimeMax
      | Some t => if (t <? seriesTimeMax)%Z then seriesTimeMax else t
      end in
    {| acc_totalPoints := total;
       acc_globalMin := min2 (acc_globalMin acc) seriesMin;
       acc_globalMax := max2 (acc_globalMax acc) seriesMax;
       acc_timeMin := Some timeMin;
       acc_timeMax := Some timeMax;
       acc_anomalies := acc_anomalies acc ++ seriesAnomalies s;
       acc_trends := acc_trends acc ++ seriesTrend s seriesMin seriesMax |}.

Definition generateDataSummary (data : list (SeriesData num X)) : DataSummary num X :=
  if (length data =? 0)%nat then
    {| seriesCount := 0; totalPoints := 0; timeRange := None;
       valueRange := (zero, zero); anomalies := []; trends := [] |}
  else
    let acc :=
      fold_left step data
        {| acc_totalPoints := 0; acc_globalMin := infinity;
           acc_globalMax := neg_infinity; acc_timeMin := None;
           acc_timeMax := None; acc_anomalies := []; acc_trends := [] |} in
    {| seriesCount := length data;
       totalPoints := acc_totalPoints acc;
       timeRange :=
         match acc_timeMin acc, acc_timeMax acc with
         | Some lo, Some hi => Some (lo, hi)
         | _, _ => None
         end;
       valueRange := (acc_globalMin acc, acc_globalMax acc);
       anomalies := Js.slice0 10 (acc_anomalies acc);
       trends := acc_trends acc |}.
End WithNumber.

Arguments seriesAvg {A X} _.
Arguments seriesStd {A X} _.
Arguments seriesAnomalies {A X} _.
Arguments seriesTrend {A X} _ _ _.
Arguments step {A X} _ _ _.
Arguments generateDataSummary {A X} _ _.

End SummaryR.

(** ** Notions used to state the properties *)

Module Notions.
Import Types.

(** The frame metric that [recordFrameMetrics] builds for a recording
    [(now, frameTime, data)] under configuration [cfg] on tier [t]. *)
Definition metricOf (cfg : Engine.HybridRendererConfig) (t : RendererTier)
    (recording : Q * Q * list SeriesData) : Engine.FrameMetrics :=
  let '(now, frameTime, data) := recording in
  {| Engine.timestamp := now;
     Engine.frameTime := frameTime;
     Engine.renderTime := frameTime;
     Engine.pointCount := Engine.totalPointsOf data;
     Engine.tier := t;
     Engine.dropped :=
       Js.gtb frameTime (Engine.maxFrameTime (Engine.performanceBudgets cfg)) |}.

(** A series counts as shown unless its [visible] field is exactly
    [false]. *)
Definition shown (s : SeriesData) : bool :=
  match visible s with
  | Some false => false
  | _ => true
  end.

(** The renderers after [initialize] and one [render data ctx]. *)
Definition renderedSVG (data : list SeriesData) (ctx : Render.RenderContext)
    : SVGRenderer.t :=
  {| SVGRenderer.ready := true;
     SVGRenderer.currentData := data;
     SVGRenderer.currentContext := Some ctx |}.

Definition renderedWebGL (data : list SeriesData) (ctx : Render.RenderContext)
    : WebGLRenderer.t :=
  {| WebGLRenderer.ready := true;
     WebGLRenderer.currentData := data;
     WebGLRenderer.currentContext := Some ctx |}.

Definition renderedCanvas (data : list SeriesData) (ctx : Render.RenderContext)
    : CanvasRenderer.t :=
  {| CanvasRenderer.ready := true;
     CanvasRenderer.currentData := data;
     CanvasRenderer.currentContext := Some ctx;
     CanvasRenderer.spatialIndex :=
       CanvasRenderer.buildSpatialIndex data (Render.xScale ctx) (Render.yScale ctx) |}.

(** The words of the design document on anomalies: the mean of a series,
    the square of its standard deviation, and the test
    [|y - mean| > 3 * stddev], written on the squares. *)
Definition seriesMean (s : SeriesData) : Q :=
  (Js.sum (map dp_y (s_data s)) / Js.of_nat (length (s_data s)))%Q.

Definition seriesVariance (s : SeriesData) : Q :=
  (fold_left (fun a v => a + (v - seriesMean s) * (v - seriesMean s))
     (map dp_y (s_data s)) 0 / Js.of_nat (length (s_data s)))%Q.

Definition anomalous (s : SeriesData) (p : DataPoint) : Prop :=
  (9 * seriesVariance s < (dp_y p - seriesMean s) * (dp_y p - seriesMean s))%Q.

Definition severity (s : SeriesData) (p : DataPoint) : Q :=
  Qabs (dp_y p - seriesMean s).

(** The points of the series that are shown, in dataset order. *)
Definition shownPoints (data : list SeriesData) : list DataPoint :=
  flat_map s_data (List.filter shown data).

(** Two hit-test answers name the same point, or are both empty. *)
Definition samePoint (a b : option Render.HitTestResult) : Prop :=
  match a, b with
  | None, None => True
  | Some h1, Some h2 => Render.point h1 = Render.point h2
  | _, _ => False
  end.

(** The key of the grid cell that [buildSpatialIndex] files a point under. *)
Definition cellKeyOf (xs ys : Q -> Q) (p : DataPoint) : Z * Z :=
  (CanvasRenderer.cellOf (CanvasRenderer.hitTestRadius * 2) (xs (dp_x p)),
   CanvasRenderer.cellOf (CanvasRenderer.hitTestRadius * 2) (ys (dp_y p))).

(** The order of the tiers by capability. *)
Definition tierRank (t : RendererTier) : nat :=
  match t with
  | SVG => 0
  | CANVAS => 1
  | WEBGL => 2
  end.

(** The public calls of [HybridEngine] that change it, with the clock
    readings they take, and what else changes the performance history of
    the detection module, which all engines share: another engine
    recording a frame. *)
Inductive EngineCall :=
| callRegister (tier : RendererTier)
| callEvaluate (now : Q) (args : option (list SeriesData * Q * Q))
| callForce (now : Q) (tier : RendererTier)
| callRender (clock : Engine.RenderClock) (rendererThrows : bool)
    (data : list SeriesData) (width height : Q)
| otherEngineRecords (snapshot : Detection.PerformanceSnapshot).

Definition runCall (caps : Detection.DeviceCapabilities)
    (w : Engine.HybridEngine * list Detection.PerformanceSnapshot) (c : EngineCall)
    : Engine.HybridEngine * list Detection.PerformanceSnapshot :=
  match c with
  | callRegister tier => (Engine.registerRenderer (fst w) tier, snd w)
  | callEvaluate now args =>
      (fst (Engine.evaluateTierChange caps (snd w) now (fst w) args), snd w)
  | callForce now tier => (fst (Engine.forceSwitchTier caps now (fst w) tier), snd w)
  | callRender clock rendererThrows data width height =>
      fst (Engine.render caps clock rendererThrows w data width height)
  | otherEngineRecords snapshot => (fst w, Detection.recordPerformance (snd w) snapshot)
  end.

(** The recording's frame time exceeds the maximal frame time. *)
Definition overBudget (cfg : Engine.HybridRendererConfig)
    (recording : Q * Q * list SeriesData) : bool :=
  Js.gtb (snd (fst recording)) (Engine.maxFrameTime (Engine.performanceBudgets cfg)).

Definition isViolationEvent (ev : Engine.EngineEvent) : bool :=
  match ev with
  | Engine.performanceViolation _ _ => true
  | Engine.tierSwitch _ _ => false
  end.

(** What every public call keeps true of an engine created with
    configuration [cfg], whatever the history of the detection module
    holds. *)
Definition engineInvariant (cfg : Engine.HybridRendererConfig)
    (w : Engine.HybridEngine * list Detection.PerformanceSnapshot) : Prop :=
  let e := fst w in
  Engine.config e = cfg /\
  Engine.isDestroyed e = false /\
  (forall t, Engine.currentRenderer e = Some t ->
             t = Engine.currentTier (Engine.state e) /\ t ∈ Engine.renderers e) /\
  (length (Engine.frameMetrics e) <= 60)%nat /\
  Engine.droppedFrames e = Engine.performanceViolations (Engine.state e).

(** Two points with the same coordinates. *)
Definition sameCoordinates (p q : DataPoint) : Prop :=
  (dp_x p == dp_x q)%Q /\ (dp_y p == dp_y q)%Q.

(** The table row of a point of a series. *)
Definition rowOf (s : SeriesData) (p : DataPoint) : Accessibility.TableRow :=
  {| Accessibility.row_series := s_name s;
     Accessibility.row_timestamp := dp_x p;
     Accessibility.row_value := dp_y p;
     Accessibility.row_id := dp_id p |}.

(** The rows of all points of all series, hidden or shown, in dataset
    order. *)
Definition allRows (data : list SeriesData) : list Accessibility.TableRow :=
  flat_map (fun s => map (rowOf s) (s_data s)) data.

(** The values of a series and the trend entry computed from them. *)
Definition seriesValues (s : SeriesData) : list Q := map dp_y (s_data s).

Definition seriesAverage (s : SeriesData) : Q :=
  (Js.sum (seriesValues s) / Js.of_nat (length (seriesValues s)))%Q.

Definition trendOf (s : SeriesData) : list Accessibility.Trend :=
  Accessibility.seriesTrend s (Js.min_of (seriesValues s)) (Js.max_of (seriesValues s))
    (seriesAverage s).

(** What the loop of [generateDataSummary] has established after the
    series [seen]. *)
Definition summaryInvariant (acc : Accessibility.Acc) (seen : list SeriesData) : Prop :=
  let points := flat_map s_data seen in
  Accessibility.acc_totalPoints acc = length points /\
  (Accessibility.acc_range acc = None <-> points = []) /\
  (Accessibility.acc_timeMin acc = None <-> points = []) /\
  (Accessibility.acc_timeMax acc = None <-> points = []) /\
  (forall lo hi, Accessibility.acc_range acc = Some (lo, hi) ->
                 forall p, In p points -> (lo <= dp_y p <= hi)%Q) /\
  (forall lo, Accessibility.acc_timeMin acc = Some lo ->
              forall p, In p points -> (lo <= Accessibility.timeOf (dp_x p))%Z) /\
  (forall hi, Accessibility.acc_timeMax acc = Some hi ->
              forall p, In p points -> (Accessibility.timeOf (dp_x p) <= hi)%Z).

(** The last position of a brush that started at [start] and was then
    moved through [moves]. *)
Definition brushEnd (start : Q * Q) (moves : list (Q * Q)) : Q * Q :=
  default start (last moves).

End Notions.

(** ** Concrete inputs for the examples *)

Module Samples.
Import Types Lod.

Definition pt (t : Z) (v : Q) : TimeSeriesPoint :=
  {| x := t; y := v; id := None; seriesId := None |}.

(** Nineteen flat readings one second apart and a spike at the end. *)
Definition flatThenSpike : list TimeSeriesPoint :=
  map (fun i => pt (Z.of_nat i * 1000) 0) (seq 0 19) ++ [pt 19000 100].

(** Three readings at the top and one at the bottom. *)
Definition plateau : list TimeSeriesPoint :=
  [pt 0 10; pt 1000 10; pt 2000 10; pt 3000 0].

(** The same readings, not in time order. *)
Definition plateauUnordered : list TimeSeriesPoint :=
  [pt 2000 10; pt 0 10; pt 1000 10; pt 3000 0].

(** [{ preserveMinMax: false }]. *)
Definition withoutMinMax : PartialLODConfig :=
  {| p_targetPoints := None; p_outlierThreshold := None; p_outlierMethod := None;
     p_preserveMinMax := Some false; p_preserveOutliers := None;
     p_maxOutlierPercentage := None |}.

(** [{ svgToCanvas: 50, canvasToWebGL: 60 }]. *)
Definition lowThresholds : Thresholds.PartialThresholdConfig :=
  {| Thresholds.p_svgToCanvas := Some 50%Q;
     Thresholds.p_canvasToWebGL := Some 60%Q;
     Thresholds.p_pointsPerPixelSVG := None;
     Thresholds.p_pointsPerPixelCanvas := None;
     Thresholds.p_pointsPerPixelWebGL := None;
     Thresholds.p_forceRenderer := None;
     Thresholds.p_autoDetect := None |}.

(** A browser that supports the three tiers. *)
Definition allTiers : Detection.DeviceCapabilities :=
  {| Detection.webglSupported := true;
     Detection.canvasSupported := true;
     Detection.svgSupported := true |}.

(** An engine with the default configuration and a renderer registered
    for every tier, switched by hand to the Canvas tier at time 0. *)
Definition engineOnCanvas : Engine.HybridEngine :=
  let e0 := Engine.createHybridEngine Engine.DEFAULT_CONFIG in
  let e1 := Engine.registerRenderer e0 SVG in
  let e2 := Engine.registerRenderer e1 CANVAS in
  let e3 := Engine.registerRenderer e2 WEBGL in
  fst (Engine.forceSwitchTier allTiers 0 e3 CANVAS).

(** [n] frames of [frameTime] milliseconds each, recorded back to back:
    the [i]-th is stamped [i * frameTime]. *)
Definition steadyFrames (n : nat) (frameTime : Q) : list (Q * Q * list SeriesData) :=
  map (fun i => ((Js.of_nat (S i) * frameTime)%Q, frameTime, [])) (seq 0 n).

(** One series: 140 readings of 0, then ten of 1, then one of 2; [x] is
    the position of the reading. *)
Definition spikySeries : SeriesData :=
  {| s_id := "s1"; s_name := "load"; s_color := "#000";
     s_data :=
       imap (fun i v => {| dp_x := Js.of_nat i; dp_y := v; dp_id := None |})
         (repeat 0%Q 140 ++ repeat 1%Q 10 ++ [2%Q]);
     visible := Some true |}.

(** A 400 x 300 chart without margins whose scales are the identity. *)
Definition plainContext : Render.RenderContext :=
  {| Render.width := 400; Render.height := 300;
     Render.margin := {| Render.top := 0; Render.right := 0;
                         Render.bottom := 0; Render.left := 0 |};
     Render.xScale := fun v => v; Render.yScale := fun v => v;
     Render.pixelRatio := 1 |}.

(** A chart with margins of 10 on which the data point (5, 5) projects
    to the pixel (150, 100). *)
Definition marginContext : Render.RenderContext :=
  {| Render.width := 400; Render.height := 300;
     Render.margin := {| Render.top := 10; Render.right := 10;
                         Render.bottom := 10; Render.left := 10 |};
     Render.xScale := fun v => (30 * v)%Q; Render.yScale := fun v => (20 * v)%Q;
     Render.pixelRatio := 1 |}.

Definition seriesOfPoints (points : list DataPoint) : SeriesData :=
  {| s_id := "a"; s_name := "A"; s_color := "#000"; s_data := points; visible := None |}.

Definition dp (px py : Q) : DataPoint := {| dp_x := px; dp_y := py; dp_id := None |}.

End Samples.

(** ** Notions used to state the properties of the rounded embeddings *)

Module NotionsR.
Import Types Rounded TypesR SurfaceR.

(** [p] is the first element of [l], in list order, that satisfies [P]. *)
Definition firstWith {T : Type} (P : T -> Prop) (l : list T) (p : T) : Prop :=
  exists pre post, l = pre ++ p :: post /\ P p /\ Forall (fun q => ~ P q) pre.

Section WithNumber.
Context {A : Number}.
Variable X : Type.
Variable sameX : X -> X -> bool.

(** A series counts as shown unless its [visible] field is exactly
    [false]. *)
Definition shown (s : SeriesData num X) : bool :=
  match visible s with
  | Some false => false
  | _ => true
  end.

(** The points of the series that are shown, in dataset order. *)
Definition shownPoints (data : list (SeriesData num X)) : list (DataPoint num X) :=
  flat_map s_data (List.filter shown data).

(** The distance the SVG and Canvas hit tests compute between the
    projection of [p] and the query position [(x, y)], given in container
    coordinates. *)
Definition pixelDistance (ctx : RenderContext num X) (x y : num) (p : DataPoint num X) : num :=
  let dx := sub (xScale ctx (dp_x p)) (sub x (left (margin ctx))) in
  let dy := sub (yScale ctx (dp_y p)) (sub y (top (margin ctx))) in
  sqrt (add (mul dx dx) (mul dy dy)).

(** The candidates each [hitTest] runs its loop over, in loop order. *)
Definition svgCandidates (ctx : RenderContext num X) (data : list (SeriesData num X)) (x y : num)
    : list (HitTestResult num X) :=
  let dataX := sub x (left (margin ctx)) in
  let dataY := sub y (top (margin ctx)) in
  flat_map (fun s => map (svgCandidate ctx dataX dataY s) (s_data s))
    (List.filter shown data).

Definition webglCandidates (ctx : RenderContext num X) (data : list (SeriesData num X)) (x y : num)
    : list (HitTestResult num X) :=
  let worldX := sub x (left (margin ctx)) in
  let worldY := sub (orZero (height ctx)) (sub y (top (margin ctx))) in
  flat_map (fun s => map (webglCandidate ctx worldX worldY s) (s_data s))
    (List.filter shown data).

(** The test of the SVG region query on a point, for the corners
    [(x1, y1)] and [(x2, y2)] given in container coordinates. *)
Definition insideRegion (ctx : RenderContext num X) (x1 y1 x2 y2 : num)
    (p : DataPoint num X) : bool :=
  geb (xScale ctx (dp_x p)) (sub (min2 x1 x2) (left (margin ctx)))
  && leb (xScale ctx (dp_x p)) (sub (max2 x1 x2) (left (margin ctx)))
  && geb (yScale ctx (dp_y p)) (sub (min2 y1 y2) (top (margin ctx)))
  && leb (yScale ctx (dp_y p)) (sub (max2 y1 y2) (top (margin ctx))).

(** The cell of the query position. *)
Definition queryCell (ctx : RenderContext num X) (x y : num) : Z * Z :=
  (cellOf (sub x (left (margin ctx))), cellOf (sub y (top (margin ctx)))).

(** The key of the grid cell that [buildSpatialIndex] files a point under. *)
Definition cellKeyOf (ctx : RenderContext num X) (p : DataPoint num X) : Z * Z :=
  (cellOf (xScale ctx (dp_x p)), cellOf (yScale ctx (dp_y p))).

(** The spatial index that [render data ctx] leaves behind. *)
Definition renderedIndex (ctx : RenderContext num X) (data : list (SeriesData num X))
    : gmap (Z * Z) (list (DataPoint num X)) :=
  buildSpatialIndex data (xScale ctx) (yScale ctx).

Definition canvasCandidates (ctx : RenderContext num X) (data : list (SeriesData num X))
    (x y : num) : list (HitTestResult num X) :=
  let dataX := sub x (left (margin ctx)) in
  let dataY := sub y (top (margin ctx)) in
  flat_map
    (fun cellKey =>
       map (canvasCandidate sameX data ctx dataX dataY)
         (default [] (renderedIndex ctx data !! cellKey)))
    (neighbourhood (fst (queryCell ctx x y)) (snd (queryCell ctx x y))).

(** The shown points filed under one of the nine cells around the query
    position, cell by cell and, within a cell, in dataset order. *)
Definition nearbyPoints (ctx : RenderContext num X) (data : list (SeriesData num X)) (x y : num)
    : list (DataPoint num X) :=
  flat_map
    (fun cellKey =>
       List.filter (fun p => bool_decide (cellKeyOf ctx p = cellKey)) (shownPoints data))
    (neighbourhood (fst (queryCell ctx x y)) (snd (queryCell ctx x y))).

(** [h] is within the radius and no candidate within the radius is
    strictly nearer, by the distances as computed. *)
Definition nearest (radius : num) (cands : list (HitTestResult num X))
    (h : HitTestResult num X) : Prop :=
  ltb (distance h) radius = true /\
  forall c, In c cands -> ltb (distance c) radius = true ->
            ltb (distance c) (distance h) = false.

(** The answer of a hit test over the candidates [cands]: none when no
    candidate is within the radius, and otherwise the first candidate,
    in loop order, that is nearest. *)
Definition nearestAmong (radius : num) (cands : list (HitTestResult num X))
    (answer : option (HitTestResult num X)) : Prop :=
  match answer with
  | None => forall c, In c cands -> ltb (distance c) radius = false
  | Some h => firstWith (nearest radius cands) cands h
  end.

(** The test of the anomaly loop on a point of a series, with the mean
    and the standard deviation as the loop computes them. *)
Definition anomalous (s : SeriesData num X) (p : DataPoint num X) : bool :=
  gtb (abs (sub (dp_y p) (SummaryR.seriesAvg s))) (mul (lit 3) (SummaryR.seriesStd s)).

(** Every anomalous point of the dataset, series by series and, within a
    series, in data order. *)
Definition flagged (data : list (SeriesData num X)) : list (SummaryR.Anomaly num X) :=
  flat_map
    (fun s => map (SummaryR.mkAnomaly (s_name s)) (List.filter (anomalous s) (s_data s)))
    data.
End WithNumber.

Arguments shown {A X} _.
Arguments shownPoints {A X} _.
Arguments pixelDistance {A X} _ _ _ _.
Arguments svgCandidates {A X} _ _ _ _.
Arguments webglCandidates {A X} _ _ _ _.
Arguments insideRegion {A X} _ _ _ _ _ _.
Arguments queryCell {A X} _ _ _.
Arguments cellKeyOf {A X} _ _.
Arguments renderedIndex {A X} _ _.
Arguments canvasCandidates {A X} _ _ _ _ _.
Arguments nearbyPoints {A X} _ _ _ _.
Arguments nearest {A X} _ _ _.
Arguments nearestAmong {A X} _ _ _.
Arguments anomalous {A X} _ _.
Arguments flagged {A X} _.

End NotionsR.

(** ** Sample inputs in double precision *)

Module SamplesR.
Import Types Rounded TypesR SurfaceR.

(** A point with numeric coordinates given as decimal literals. *)
Definition dp (px py : Q) : DataPoint PrimFloat.float PrimFloat.float :=
  {| dp_x := Float64.lit px; dp_y := Float64.lit py;
     dp_id := None |}.

Definition seriesOf (name : string) (vis : option bool)
    (points : list (DataPoint PrimFloat.float PrimFloat.float))
    : SeriesData PrimFloat.float PrimFloat.float :=
  {| s_id := name; s_name := name; s_color := "#000"; s_data := points; visible := vis |}.

(** A 400 by [h] surface with margins [m] whose scales leave the data
    as they are. *)
Definition surface (h m : Q) : RenderContext PrimFloat.float PrimFloat.float :=
  {| width := Float64.lit 400; height := Float64.lit h;
     margin := {| top := Float64.lit m; right := Float64.lit m;
                  bottom := Float64.lit m; left := Float64.lit m |};
     xScale := fun v => v; yScale := fun v => v |}.

(** A point of a bucket, dated [t] milliseconds. *)
Definition pt (t : Z) (v : Q) : LodR.TimeSeriesPoint PrimFloat.float :=
  {| LodR.x := t; LodR.y := Float64.lit v; LodR.id := None; LodR.seriesId := None |}.
End SamplesR.

(** * Properties *)

(** ** Facts about the arithmetic helpers *)

Section JsFacts.

Lemma ltb_true (a b : Q) : Js.ltb a b = true <-> (a < b)%Q.
Proof.
  unfold Js.ltb. rewrite negb_true_iff. split.
  - intros H. apply Qnot_le_lt. intros Hle.
    apply Qle_bool_iff in Hle. congruence.
  - intros H. destruct (Qle_bool b a) eqn:E; [|reflexivity].
    apply Qle_bool_iff in E. exfalso. apply (Qlt_not_le _ _ H E).
Qed.

Lemma ltb_false (a b : Q) : Js.ltb a b = false <-> (b <= a)%Q.
Proof.
  unfold Js.ltb. rewrite negb_false_iff. apply Qle_bool_iff.
Qed.

Lemma gtb_true (a b : Q) : Js.gtb a b = true <-> (b < a)%Q.
Proof. apply ltb_true. Qed.

Lemma gtb_false (a b : Q) : Js.gtb a b = false <-> (a <= b)%Q.
Proof. apply ltb_false. Qed.

Lemma geb_true (a b : Q) : Js.geb a b = true <-> (b <= a)%Q.
Proof. apply Qle_bool_iff. Qed.

Lemma leb_true (a b : Q) : Js.leb a b = true <-> (a <= b)%Q.
Proof. apply Qle_bool_iff. Qed.

Lemma eqb_true (a b : Q) : Js.eqb a b = true <-> (a == b)%Q.
Proof. apply Qeq_bool_iff. Qed.

Lemma eqb_false (a b : Q) : Js.eqb a b = false <-> ~ (a == b)%Q.
Proof.
  split.
  - intros H E. apply eqb_true in E. congruence.
  - intros H. destruct (Js.eqb a b) eqn:E; [|reflexivity].
    apply eqb_true in E. contradiction.
Qed.

Lemma max2_ge_l (a b : Q) : (a <= Js.max2 a b)%Q.
Proof.
  unfold Js.max2. destruct (Qle_bool a b) eqn:E.
  - apply Qle_bool_iff. exact E.
  - apply Qle_refl.
Qed.

Lemma max2_ge_r (a b : Q) : (b <= Js.max2 a b)%Q.
Proof.
  unfold Js.max2. destruct (Qle_bool a b) eqn:E.
  - apply Qle_refl.
  - apply Qlt_le_weak, ltb_true. unfold Js.ltb. rewrite E. reflexivity.
Qed.

Lemma min2_le_l (a b : Q) : (Js.min2 a b <= a)%Q.
Proof.
  unfold Js.min2. destruct (Qle_bool a b) eqn:E.
  - apply Qle_refl.
  - apply Qlt_le_weak, ltb_true. unfold Js.ltb. rewrite E. reflexivity.
Qed.

Lemma min2_le_r (a b : Q) : (Js.min2 a b <= b)%Q.
Proof.
  unfold Js.min2. destruct (Qle_bool a b) eqn:E.
  - apply Qle_bool_iff. exact E.
  - apply Qle_refl.
Qed.

(** [Math.min(...vs)] is a lower bound of a non-empty list and one of
    its elements; likewise [Math.max]. *)
Lemma fold_min2_le (vs : list Q) (v0 : Q) :
  (fold_left Js.min2 vs v0 <= v0)%Q /\
  (forall v, In v vs -> (fold_left Js.min2 vs v0 <= v)%Q).
Proof.
  revert v0. induction vs as [|w vs IH]; intros v0; simpl.
  - split; [apply Qle_refl | intros v []].
  - destruct (IH (Js.min2 v0 w)) as [H0 Hin]. split.
    + eapply Qle_trans; [exact H0 | apply min2_le_l].
    + intros v [<- | Hv].
      * eapply Qle_trans; [exact H0 | apply min2_le_r].
      * apply Hin, Hv.
Qed.

Lemma fold_max2_ge (vs : list Q) (v0 : Q) :
  (v0 <= fold_left Js.max2 vs v0)%Q /\
  (forall v, In v vs -> (v <= fold_left Js.max2 vs v0)%Q).
Proof.
  revert v0. induction vs as [|w vs IH]; intros v0; simpl.
  - split; [apply Qle_refl | intros v []].
  - destruct (IH (Js.max2 v0 w)) as [H0 Hin]. split.
    + eapply Qle_trans; [apply max2_ge_l | exact H0].
    + intros v [<- | Hv].
      * eapply Qle_trans; [apply max2_ge_r | exact H0].
      * apply Hin, Hv.
Qed.

Lemma min_of_le (vs : list Q) (v : Q) : In v vs -> (Js.min_of vs <= v)%Q.
Proof.
  destruct vs as [|v0 vs]; [intros []|]. simpl.
  destruct (fold_min2_le vs v0) as [H0 Hin].
  intros [<- | Hv]; [exact H0 | apply Hin, Hv].
Qed.

Lemma max_of_ge (vs : list Q) (v : Q) : In v vs -> (v <= Js.max_of vs)%Q.
Proof.
  destruct vs as [|v0 vs]; [intros []|]. simpl.
  destruct (fold_max2_ge vs v0) as [H0 Hin].
  intros [<- | Hv]; [exact H0 | apply Hin, Hv].
Qed.

End JsFacts.

(** ** Level of detail *)

Section LodFacts.
Import Types Lod.

(** The map built by [bucketPoints]: the bucket of an index holds, in
    input order, the points whose index it is. *)
Lemma bucketPoints_fold_lookup (start bucketSize : Z) (points : list TimeSeriesPoint)
    (m : gmap Z (list TimeSeriesPoint)) (idx : Z) :
  fold_left
    (fun buckets point =>
       let bucketIndex := bucketIndexOf start bucketSize point in
       <[bucketIndex := default [] (buckets !! bucketIndex) ++ [point]]> buckets)
    points m !! idx
  = match List.filter (fun p => (bucketIndexOf start bucketSize p =? idx)%Z) points with
    | [] => m !! idx
    | l => Some (default [] (m !! idx) ++ l)
    end.
Proof.
  revert m. induction points as [|p ps IH]; intros m; simpl; [reflexivity|].
  rewrite IH. destruct (Z.eqb_spec (bucketIndexOf start bucketSize p) idx) as [E | E].
  - subst idx. rewrite lookup_insert_eq. simpl.
    destruct (List.filter _ ps) as [|q l]; [reflexivity|].
    rewrite <- app_assoc. reflexivity.
  - rewrite lookup_insert_ne by exact E. reflexivity.
Qed.

Lemma bucketPoints_lookup (points : list TimeSeriesPoint) (bucketSize : Z)
    (timeRange : Z * Z) (idx : Z) :
  bucketPoints points bucketSize timeRange !! idx
  = match List.filter
            (fun p => (bucketIndexOf (fst timeRange) bucketSize p =? idx)%Z) points with
    | [] => None
    | l => Some l
    end.
Proof.
  unfold bucketPoints. rewrite bucketPoints_fold_lookup.
  rewrite lookup_empty. reflexivity.
Qed.

(** No bucket of the map is empty, so [Math.min(...values)] and
    [bucketPoints[0]] are defined wherever [createBucketSummary] is called. *)
Lemma bucketPoints_nonempty (points : list TimeSeriesPoint) (bucketSize : Z)
    (timeRange : Z * Z) (idx : Z) (l : list TimeSeriesPoint) :
  bucketPoints points bucketSize timeRange !! idx = Some l ->
  l <> [] /\
  l = List.filter (fun p => (bucketIndexOf (fst timeRange) bucketSize p =? idx)%Z) points.
Proof.
  rewrite bucketPoints_lookup.
  destruct (List.filter _ points) as [|q l'] eqn:E; [discriminate|].
  intros [= <-]. split; [discriminate | reflexivity].
Qed.

Lemma bucketPoints_occupied (points : list TimeSeriesPoint) (bucketSize : Z)
    (timeRange : Z * Z) (p : TimeSeriesPoint) :
  In p points ->
  is_Some (bucketPoints points bucketSize timeRange
             !! bucketIndexOf (fst timeRange) bucketSize p).
Proof.
  intros Hp. rewrite bucketPoints_lookup.
  destruct (List.filter _ points) as [|q l] eqn:E; [|eexists; reflexivity].
  exfalso.
  assert (H : In p (List.filter
                      (fun p0 => (bucketIndexOf (fst timeRange) bucketSize p0
                                  =? bucketIndexOf (fst timeRange) bucketSize p)%Z)
                      points)).
  { apply List.filter_In. split; [exact Hp | apply Z.eqb_refl]. }
  rewrite E in H. exact H.
Qed.

Lemma sort_int_elem (l : list Z) (i : Z) : i ∈ Js.sort_int l <-> i ∈ l.
Proof. unfold Js.sort_int. rewrite merge_sort_Permutation. reflexivity. Qed.

Lemma sortedIndices_elem (m : gmap Z (list TimeSeriesPoint)) (i : Z) :
  i ∈ Js.sort_int (elements (dom m)) <-> is_Some (m !! i).
Proof. rewrite sort_int_elem, elem_of_elements, elem_of_dom. reflexivity. Qed.

Lemma calculateBucketSize_zero_target (timeRange : Z * Z) :
  calculateBucketSize timeRange 0 = 1%Z.
Proof.
  unfold calculateBucketSize. destruct timeRange as [start end_].
  destruct (end_ - start =? 0)%Z; reflexivity.
Qed.

(** Every bucket of every result carries an empty [outliers] list. *)
Lemma applyLOD_outliers_nil (points : list TimeSeriesPoint) (targetPoints : nat)
    (timeRange : option (Z * Z)) (config : option PartialLODConfig) :
  Forall (fun b => outliers b = []) (buckets (applyLOD points targetPoints timeRange config)).
Proof.
  unfold applyLOD. destruct (length points <=? targetPoints)%nat; cbn [buckets].
  - apply List.Forall_forall. intros b Hb. apply List.in_map_iff in Hb.
    destruct Hb as [p [<- _]]. reflexivity.
  - apply List.Forall_forall. intros b Hb. apply List.in_map_iff in Hb.
    destruct Hb as [i [<- _]]. reflexivity.
Qed.

End LodFacts.


(** ** Level of detail: the claims *)

Section LodClaims.
Import Types Lod Notions Samples.

(** C5.  When the input has no more points than the target, [applyLOD]
    returns one bucket per input point, in order, whose representative is
    that point, with level FULL (4) and compression ratio 1. *)
Theorem applyLOD_fast_path (points : list TimeSeriesPoint) (targetPoints : nat)
    (timeRange : option (Z * Z)) (config : option PartialLODConfig) :
  (length points <= targetPoints)%nat ->
  let r := applyLOD points targetPoints timeRange config in
  Forall2 (fun p b => representative b = p /\ count b = 1%nat) points (buckets r) /\
  length (buckets r) = length points /\
  level r = FULL /\ LODLevel_value (level r) = 4%Z /\
  compressionRatio r = 1%Q /\
  sampledPoints r = length points.
Proof.
  intros Hle r. subst r. unfold applyLOD.
  apply Nat.leb_le in Hle. rewrite Hle. cbn [buckets level compressionRatio sampledPoints].
  split; [|split; [apply length_map | repeat split; reflexivity]].
  clear Hle. induction points as [|p ps IH]; [constructor|].
  cbn [map]. constructor; [split; reflexivity | exact IH].
Qed.

Lemma applyLOD_fast_path_witness :
  let points := [pt 0 1; pt 1000 2; pt 2000 (3 # 2)] in
  Forall2 (fun p b => representative b = p /\ count b = 1%nat) points
    (buckets (applyLOD points 1000 None None)) /\
  level (applyLOD points 1000 None None) = FULL.
Proof.
  intros points.
  destruct (applyLOD_fast_path points 1000 None None) as (H1 & _ & H3 & _).
  - simpl. lia.
  - split; [exact H1 | exact H3].
Defined.

(** C1, at a failing input.  With the default configuration the spike of
    [flatThenSpike] is flagged by the z-score test and survives the cap
    (it is the one capped outlier, and [outlierCount] reports it), yet no
    bucket of the result lists it: every [outliers] list is empty. *)
Theorem applyLOD_outlier_not_listed :
  let r := applyLOD flatThenSpike 5 None None in
  cappedOutliersOf flatThenSpike (mergeConfig None 5) = [pt 19000 100] /\
  outlierCount r = 1%nat /\
  length (buckets r) = 4%nat /\
  Forall (fun b => ~ In (pt 19000 100) (outliers b)) (buckets r).
Proof.
  intros r. split; [vm_compute; reflexivity|].
  split; [vm_compute; reflexivity|].
  split; [vm_compute; reflexivity|].
  apply List.Forall_forall. intros b Hb.
  pose proof (applyLOD_outliers_nil flatThenSpike 5 None None) as H.
  rewrite List.Forall_forall in H. rewrite (H b Hb). intros [].
Qed.

(** C6, as stated, fails: with target 0 and one input point the result
    has a bucket. *)
Lemma applyLOD_zero_target_counterexample :
  (0%nat = 0%nat \/ [pt 5 1] = []) /\
  buckets (applyLOD [pt 5 1] 0 None None) <> [] /\
  length (buckets (applyLOD [pt 5 1] 0 None None)) = 1%nat.
Proof.
  split; [left; reflexivity|]. split.
  - vm_compute. discriminate.
  - vm_compute. reflexivity.
Qed.

(** C6, amended.  An empty input gives an empty result with level FULL,
    whatever the target.  With target 0 and a non-empty input the points
    are bucketed with width 1 and the result has at least one bucket.  On
    every input each bucket of the result summarises at least one point, so
    no step of [applyLOD] reads a missing bucket or an empty array. *)
Theorem applyLOD_empty_or_zero_target (points : list TimeSeriesPoint)
    (targetPoints : nat) (timeRange : option (Z * Z))
    (config : option PartialLODConfig) :
  let r := applyLOD points targetPoints timeRange config in
  (points = [] ->
   buckets r = [] /\ level r = FULL /\ totalPoints r = 0%nat /\ sampledPoints r = 0%nat) /\
  (targetPoints = 0%nat -> points <> [] ->
   buckets r <> [] /\
   Forall (fun b => endTime b = (startTime b + 1)%Z) (buckets r) /\
   totalPoints r = length points) /\
  Forall (fun b => (1 <= count b)%nat) (buckets r).
Proof.
  intros r. subst r. split; [|split].
  - intros ->. unfold applyLOD. cbn [length Nat.leb]. repeat split; reflexivity.
  - intros -> Hne. destruct points as [|p ps]; [congruence|].
    unfold applyLOD. cbn [length Nat.leb buckets totalPoints].
    rewrite calculateBucketSize_zero_target.
    set (range := timeRangeOf (p :: ps) timeRange).
    set (m := bucketPoints (p :: ps) 1 range).
    split; [|split; [|reflexivity]].
    + assert (Hin : bucketIndexOf (fst range) 1 p ∈ Js.sort_int (elements (dom m))).
      { apply sortedIndices_elem. apply bucketPoints_occupied. left. reflexivity. }
      intros Hnil. apply (f_equal (@length _)) in Hnil.
      rewrite length_map in Hnil.
      destruct (Js.sort_int (elements (dom m))); [|discriminate].
      inversion Hin.
    + apply List.Forall_forall. intros b Hb. apply List.in_map_iff in Hb.
      destruct Hb as [i [<- Hi]]. reflexivity.
  - unfold applyLOD. destruct (length points <=? targetPoints)%nat; cbn [buckets].
    + apply List.Forall_forall. intros b Hb. apply List.in_map_iff in Hb.
      destruct Hb as [p [<- _]]. cbn [count singletonBucket]. lia.
    + apply List.Forall_forall. intros b Hb. apply List.in_map_iff in Hb.
      destruct Hb as [i [<- Hi]]. cbn [count createBucketSummary].
      apply list_elem_of_In in Hi. apply sortedIndices_elem in Hi.
      destruct Hi as [l Hl]. rewrite Hl. simpl default.
      apply bucketPoints_nonempty in Hl. destruct Hl as [Hne _].
      destruct l; [congruence | cbn [length]; lia].
Qed.

Lemma applyLOD_empty_or_zero_target_witness :
  buckets (applyLOD [pt 5 1; pt 7 2] 0 None None) <> [] /\
  buckets (applyLOD [] 3 None None) = [].
Proof.
  split.
  - apply (proj1 (proj2 (applyLOD_empty_or_zero_target [pt 5 1; pt 7 2] 0 None None))).
    + reflexivity.
    + discriminate.
  - apply (proj1 (applyLOD_empty_or_zero_target [] 3 None None)). reflexivity.
Defined.

(** C7, as stated, fails twice.  With [preserveMinMax] off a bucket whose
    envelope position is above 0.7 still gets the synthetic average point;
    and with it on, the point chosen among those achieving the maximum is
    the first in input order, which is not the earliest in time when the
    input is not in time order. *)
Lemma createBucketSummary_representative_counterexample :
  let b := createBucketSummary plateau 0 5000 0 [] (mergeConfig (Some withoutMinMax) 1) in
  let b' := createBucketSummary plateauUnordered 0 5000 0 [] (mergeConfig None 1) in
  (buckets (applyLOD plateau 1 (Some (0, 5000)%Z) (Some withoutMinMax)) = [b] /\
   (min b < max b)%Q /\
   (7 # 10 < (avg b - min b) / (max b - min b))%Q /\
   ~ In (representative b) plateau) /\
  (buckets (applyLOD plateauUnordered 1 (Some (0, 5000)%Z) None) = [b'] /\
   (min b' < max b')%Q /\
   (7 # 10 < (avg b' - min b') / (max b' - min b'))%Q /\
   representative b' = pt 2000 10 /\
   In (pt 0 10) plateauUnordered /\ (y (pt 0 10) == max b')%Q /\
   (x (pt 0 10) < x (representative b'))%Z).
Proof.
  intros b b'. split.
  - split; [vm_compute; reflexivity|].
    split; [vm_compute; reflexivity|].
    split; [vm_compute; reflexivity|].
    vm_compute. intros [H | [H | [H | [H | []]]]]; discriminate.
  - split; [vm_compute; reflexivity|].
    split; [vm_compute; reflexivity|].
    split; [vm_compute; reflexivity|].
    split; [vm_compute; reflexivity|].
    split; [right; left; reflexivity|].
    split; vm_compute; reflexivity.
Qed.

End LodClaims.


(** ** Threshold validation *)

Section ThresholdClaims.
Import Types Thresholds Samples.

Lemma validateThresholds_svgToCanvas_floor (config : PartialThresholdConfig) :
  (100 <= svgToCanvas (validateThresholds config))%Q.
Proof. unfold validateThresholds. cbn [svgToCanvas]. apply max2_ge_l. Qed.

Lemma validateThresholds_order_when_floor_met (config : PartialThresholdConfig) :
  (100 <= nullish (p_svgToCanvas config) (svgToCanvas DEFAULT_THRESHOLDS))%Q ->
  (svgToCanvas (validateThresholds config) <= canvasToWebGL (validateThresholds config))%Q.
Proof.
  intros H. unfold validateThresholds. cbn [svgToCanvas canvasToWebGL].
  set (raw := nullish (p_svgToCanvas config) (svgToCanvas DEFAULT_THRESHOLDS)) in *.
  eapply Qle_trans; [|apply max2_ge_l].
  unfold Js.max2. destruct (Qle_bool 100 raw) eqn:E; [apply Qle_refl|].
  apply Qle_bool_iff in H. congruence.
Qed.

(** C4, at a failing input.  For [{ svgToCanvas: 50, canvasToWebGL: 60 }]
    the validated [svgToCanvas] is clamped to 100 but [canvasToWebGL] is
    compared with the unclamped 50 and stays 60, below [svgToCanvas]. *)
Theorem validateThresholds_order_violated :
  let t := validateThresholds lowThresholds in
  (svgToCanvas t == 100)%Q /\ (canvasToWebGL t == 60)%Q /\
  (100 <= svgToCanvas t)%Q /\ ~ (svgToCanvas t <= canvasToWebGL t)%Q.
Proof.
  intros t. split; [reflexivity|]. split; [reflexivity|].
  split; [apply validateThresholds_svgToCanvas_floor|].
  vm_compute. intros H. apply H. reflexivity.
Qed.
End ThresholdClaims.

(** ** The engine: frame metrics and degradation *)

Section EngineClaims.
Import Types Thresholds Detection Engine Notions Samples.

Lemma recordFrameMetrics_spec (now : Q) (e : HybridEngine)
    (h : list PerformanceSnapshot) (ft : Q) (data : list SeriesData) :
  let e' := fst (recordFrameMetrics now (e, h) ft data) in
  config e' = config e /\
  currentTier (state e') = currentTier (state e) /\
  frameMetrics e' =
    let pushed := frameMetrics e ++ [metricOf (config e) (currentTier (state e)) (now, ft, data)] in
    if (60 <? length pushed)%nat then tail pushed else pushed.
Proof.
  unfold recordFrameMetrics. cbv zeta.
  destruct (Js.gtb ft (maxFrameTime (performanceBudgets (config e))) &&
            (degradeFrameThreshold (performanceBudgets (config e)) <=?
             (if Js.gtb ft (maxFrameTime (performanceBudgets (config e)))
              then S (performanceViolations (state e))
              else performanceViolations (state e)))%nat) eqn:E;
    cbn [fst emitEvent config state currentTier frameMetrics]; repeat split.
Qed.

Lemma recordAll_ring (recordings : list (Q * Q * list SeriesData))
    (e : HybridEngine) (h : list PerformanceSnapshot) :
  (length (frameMetrics e) <= 60)%nat ->
  let e' := fst (recordAll (e, h) recordings) in
  let all := frameMetrics e ++ map (metricOf (config e) (currentTier (state e))) recordings in
  frameMetrics e' = drop (length all - 60) all.
Proof.
  revert e h. induction recordings as [|[[now ft] data] recs IH]; intros e h Hlen.
  - cbn [recordAll fold_left fst map]. rewrite app_nil_r.
    replace (length (frameMetrics e) - 60)%nat with 0%nat by lia. reflexivity.
  - unfold recordAll. cbn [fold_left]. fold (recordAll (recordFrameMetrics now (e, h) ft data) recs).
    destruct (recordFrameMetrics now (e, h) ft data) as [e1 h1] eqn:E1.
    pose proof (recordFrameMetrics_spec now e h ft data) as Hspec.
    rewrite E1 in Hspec. cbn [fst] in Hspec. destruct Hspec as (Hcfg & Htier & Hfm).
    cbv zeta in Hfm.
    set (m := metricOf (config e) (currentTier (state e)) (now, ft, data)) in *.
    assert (Hfm' : frameMetrics e1 =
                   drop (length (frameMetrics e ++ [m]) - 60) (frameMetrics e ++ [m])).
    { rewrite Hfm. rewrite length_app. cbn [length].
      destruct (Nat.ltb_spec 60 (length (frameMetrics e) + 1)) as [Hgt | Hle].
      - replace (length (frameMetrics e) + 1 - 60)%nat with 1%nat by lia.
        destruct (frameMetrics e ++ [m]); reflexivity.
      - replace (length (frameMetrics e) + 1 - 60)%nat with 0%nat by lia. reflexivity. }
    assert (Hlen1 : (length (frameMetrics e1) <= 60)%nat).
    { rewrite Hfm', length_drop. rewrite length_app. cbn [length]. lia. }
    specialize (IH e1 h1 Hlen1). cbv zeta in IH |- *. rewrite IH.
    rewrite Hcfg, Htier. cbn [map]. fold m.
    rewrite Hfm'.
    replace (frameMetrics e ++ m :: map (metricOf (config e) (currentTier (state e))) recs)
      with ((frameMetrics e ++ [m]) ++ map (metricOf (config e) (currentTier (state e))) recs)
      by (rewrite <- app_assoc; reflexivity).
    set (P := frameMetrics e ++ [m]) in *.
    set (R := map (metricOf (config e) (currentTier (state e))) recs).
    assert (HP : (length P <= 61)%nat).
    { unfold P. rewrite length_app. cbn [length]. lia. }
    rewrite <- (drop_app_le P R (length P - 60)) by lia.
    rewrite drop_drop. f_equal.
    rewrite length_drop. rewrite !length_app. lia.
Qed.

(** C9.  After more than 60 recordings into a new engine the ring of
    frame metrics holds exactly 60 entries: the metrics of the last 60
    recordings, in recording order. *)
Theorem frameMetrics_ring_capacity (recordings : list (Q * Q * list SeriesData))
    (cfg : HybridRendererConfig) (h : list PerformanceSnapshot) :
  (60 < length recordings)%nat ->
  let e := fst (recordAll (createHybridEngine cfg, h) recordings) in
  length (frameMetrics e) = 60%nat /\
  frameMetrics e = drop (length recordings - 60) (map (metricOf cfg SVG) recordings).
Proof.
  intros Hk e.
  assert (H : frameMetrics e
              = drop (length recordings - 60) (map (metricOf cfg SVG) recordings)).
  { subst e. rewrite recordAll_ring by (cbn; lia).
    cbn [createHybridEngine frameMetrics config state createInitialState currentTier app].
    rewrite length_map. reflexivity. }
  split; [|exact H].
  rewrite H, length_drop, length_map. lia.
Qed.

Lemma frameMetrics_ring_capacity_witness :
  let recordings := steadyFrames 61 20 in
  let e := fst (recordAll (createHybridEngine DEFAULT_CONFIG, []) recordings) in
  length (frameMetrics e) = 60%nat /\
  frameMetrics e = drop 1 (map (metricOf DEFAULT_CONFIG SVG) recordings).
Proof.
  intros recordings e.
  apply (frameMetrics_ring_capacity recordings DEFAULT_CONFIG []).
  vm_compute. lia.
Defined.

(** A degradation recommended by [shouldDegradeTier] is the next tier
    down: it never moves up and never skips a tier. *)
Lemma shouldDegradeTier_one_step (caps : DeviceCapabilities)
    (h : list PerformanceSnapshot) (now : Q) (t : RendererTier) (budgetMs : Q)
    (threshold : nat) (windowMs : Q) (t' : RendererTier) :
  shouldDegradeTier caps h now t budgetMs threshold windowMs = Some t' ->
  (t = WEBGL /\ t' = CANVAS) \/ (t = CANVAS /\ t' = SVG).
Proof.
  unfold shouldDegradeTier.
  destruct (threshold <=? countPerformanceViolations h now budgetMs windowMs)%nat;
    [|discriminate].
  destruct caps as [webgl canvas svg]. destruct t; vm_compute.
  - discriminate.
  - destruct svg; [|discriminate]. intros [= <-]. right. split; reflexivity.
  - destruct canvas; [|discriminate]. intros [= <-]. left. split; reflexivity.
Qed.

(** The degradation test counts the frames of the last second that
    exceed the budget it is given. *)
Lemma shouldDegradeTier_fires (caps : DeviceCapabilities)
    (h : list PerformanceSnapshot) (now : Q) (t t' : RendererTier) (budgetMs : Q)
    (threshold : nat) (windowMs : Q) :
  (threshold <= countPerformanceViolations h now budgetMs windowMs)%nat ->
  (t = WEBGL /\ t' = CANVAS) \/ (t = CANVAS /\ t' = SVG) ->
  isTierAvailable caps t' = true ->
  shouldDegradeTier caps h now t budgetMs threshold windowMs = Some t'.
Proof.
  intros Hc Ht Ha. unfold shouldDegradeTier.
  apply Nat.leb_le in Hc. rewrite Hc.
  destruct caps as [webgl canvas svg].
  destruct Ht as [[-> ->] | [-> ->]]; cbn in Ha; subst; reflexivity.
Qed.

(** C3, at a failing input.  An engine on the Canvas tier, with the
    default budgets and all tiers available and registered, records ten
    consecutive frames of 200 ms (each above [maxFrameTime]); the
    degradation test only counts the frames stamped within the last
    second, finds six, and [evaluateTierChange] leaves the tier at Canvas. *)
Theorem evaluateTierChange_slow_frames_keep_tier :
  let w := recordAll (engineOnCanvas, []) (steadyFrames 10 200) in
  let e := fst w in
  let performanceHistory := snd w in
  currentTier (state engineOnCanvas) = CANVAS /\
  length (frameMetrics e) = 10%nat /\
  Forall (fun m => (maxFrameTime (performanceBudgets DEFAULT_CONFIG) < frameTime m)%Q
                   /\ dropped m = true) (frameMetrics e) /\
  performanceViolations (state e) = 10%nat /\
  countPerformanceViolations performanceHistory 2000
    (targetFrameTime (performanceBudgets DEFAULT_CONFIG)) 1000 = 6%nat /\
  evaluateTierChange allTiers performanceHistory 2000 e None = (e, None) /\
  currentTier (state (fst (evaluateTierChange allTiers performanceHistory 2000 e None)))
    = CANVAS.
Proof.
  intros w e performanceHistory.
  split; [vm_compute; reflexivity|].
  split; [vm_compute; reflexivity|].
  split.
  { vm_compute. repeat constructor. }
  split; [vm_compute; reflexivity|].
  split; [vm_compute; reflexivity|].
  split; vm_compute; reflexivity.
Qed.

(** Ten frames of 20 ms, none above [maxFrameTime], do degrade the tier:
    the test is given [targetFrameTime] as its budget. *)
Example evaluateTierChange_degrades_below_maxFrameTime :
  let w := recordAll (engineOnCanvas, []) (steadyFrames 10 20) in
  Forall (fun m => dropped m = false) (frameMetrics (fst w)) /\
  currentTier (state (fst (evaluateTierChange allTiers (snd w) 200 (fst w) None))) = SVG.
Proof.
  intros w. split.
  - vm_compute. repeat constructor.
  - vm_compute. reflexivity.
Qed.

End EngineClaims.


(** ** Series visibility *)

Section VisibilityFacts.
Import Types Render Notions.

Lemma skipped_shown (s : SeriesData) : skipped s = negb (shown s).
Proof. unfold skipped, shown. destruct (visible s) as [[|]|]; reflexivity. Qed.

(** A loop over the series that passes over the skipped ones is the same
    loop over the shown series only, and does not tell an undefined
    [visible] from [true]. *)
Lemma skip_loop_shown {S} (body : S -> SeriesData -> S) (data : list SeriesData) (init : S) :
  fold_left (fun st s => if skipped s then st else body st s) data init
  = fold_left body (List.filter shown data) init.
Proof.
  revert init. induction data as [|s data IH]; intros init; [reflexivity|].
  cbn [fold_left List.filter]. rewrite skipped_shown.
  destruct (shown s); cbn [negb fold_left]; apply IH.
Qed.

Lemma fold_left_pointwise {A B} (f g : A -> B -> A) (l : list B) (a : A) :
  (forall a' b, f a' b = g a' b) -> fold_left f l a = fold_left g l a.
Proof.
  intros H. revert a. induction l as [|b l IH]; intros a; [reflexivity|].
  cbn [fold_left]. rewrite H. apply IH.
Qed.
End VisibilityFacts.


(** ** The accessibility summary *)

Section AccessibilityClaims.
Import Types Accessibility Notions Samples.


End AccessibilityClaims.


(** ** Hit testing *)

Section HitFacts.
Import Types Render Notions.

Lemma fold_left_flat_map {A B S} (f : S -> B -> S) (g : A -> list B) (l : list A) (init : S) :
  fold_left (fun st a => fold_left f (g a) st) l init = fold_left f (flat_map g l) init.
Proof.
  revert init. induction l as [|a l IH]; intros init; [reflexivity|].
  cbn [fold_left flat_map]. rewrite fold_left_app. apply IH.
Qed.

Lemma fold_left_map_arg {A B S} (f : S -> B -> S) (g : A -> B) (l : list A) (init : S) :
  fold_left (fun st a => f st (g a)) l init = fold_left f (map g l) init.
Proof.
  revert init. induction l as [|a l IH]; intros init; [reflexivity|].
  cbn [fold_left map]. apply IH.
Qed.

(** Grouping by a key with [Map.get]/[push]: the entry of a key holds,
    in order, the elements with that key. *)
Lemma group_fold_lookup {K} `{Countable K} {A} (key : A -> K) (l : list A)
    (m : gmap K (list A)) (k : K) :
  fold_left (fun m' a => <[key a := default [] (m' !! key a) ++ [a]]> m') l m !! k
  = match List.filter (fun a => bool_decide (key a = k)) l with
    | [] => m !! k
    | l' => Some (default [] (m !! k) ++ l')
    end.
Proof.
  revert m. induction l as [|a l IH]; intros m; cbn [fold_left List.filter]; [reflexivity|].
  rewrite IH. destruct (decide (key a = k)) as [E | E].
  - rewrite (bool_decide_eq_true_2 _ E). subst k. rewrite lookup_insert_eq. simpl.
    destruct (List.filter _ l) as [|q l']; [reflexivity|].
    rewrite <- app_assoc. reflexivity.
  - rewrite (bool_decide_eq_false_2 _ E). rewrite lookup_insert_ne by exact E. reflexivity.
Qed.

Lemma buildSpatialIndex_lookup (data : list SeriesData) (xs ys : Q -> Q) (k : Z * Z) :
  CanvasRenderer.buildSpatialIndex data xs ys !! k
  = match List.filter (fun p => bool_decide (cellKeyOf xs ys p = k)) (shownPoints data) with
    | [] => None
    | l => Some l
    end.
Proof.
  unfold CanvasRenderer.buildSpatialIndex, shownPoints.
  rewrite skip_loop_shown. rewrite fold_left_flat_map.
  rewrite (group_fold_lookup (cellKeyOf xs ys)). rewrite lookup_empty. reflexivity.
Qed.
End HitFacts.


(** ** Hit testing: the claims *)

Section HitClaims.
Import Types Render Notions Samples.


Example hitTest_scenario :
  let data := [seriesOfPoints [dp 5 5]] in
  option_map point (SVGRenderer.hitTest (renderedSVG data marginContext) 160 110 10)
    = Some (dp 5 5) /\
  option_map point (CanvasRenderer.hitTest (renderedCanvas data marginContext) 160 110 10)
    = Some (dp 5 5) /\
  option_map point (WebGLRenderer.hitTest (renderedWebGL data marginContext) 160 110 10)
    = Some (dp 5 5) /\
  SVGRenderer.hitTest (renderedSVG data marginContext) 200 200 10 = None /\
  CanvasRenderer.hitTest (renderedCanvas data marginContext) 200 200 10 = None /\
  WebGLRenderer.hitTest (renderedWebGL data marginContext) 200 200 10 = None.
Proof. intros data. repeat split; vm_compute; reflexivity. Qed.
End HitClaims.

Section LodExtras.
Import Types Lod Notions Samples.

Lemma of_nat_pos (n : nat) : (0 < n)%nat -> (0 < Js.of_nat n)%Q.
Proof.
  intros H. unfold Js.of_nat. change 0%Q with (inject_Z 0). rewrite <- Zlt_Qlt. lia.
Qed.

Lemma of_nat_le (n m : nat) : (n <= m)%nat -> (Js.of_nat n <= Js.of_nat m)%Q.
Proof. intros H. unfold Js.of_nat. rewrite <- Zle_Qle. lia. Qed.

Lemma calculateBucketSize_pos (timeRange : Z * Z) (targetPoints : nat) :
  (1 <= calculateBucketSize timeRange targetPoints)%Z.
Proof.
  unfold calculateBucketSize. destruct timeRange as [start end_].
  destruct ((end_ - start =? 0)%Z || (targetPoints =? 0)%nat); [lia|].
  destruct (fold_left _ intervals _) as [closest d]. lia.
Qed.

Lemma bucket_of_index (points : list TimeSeriesPoint) (bucketSize : Z)
    (timeRange : Z * Z) (idx : Z) :
  default [] (bucketPoints points bucketSize timeRange !! idx)
  = List.filter (fun p => (bucketIndexOf (fst timeRange) bucketSize p =? idx)%Z) points.
Proof.
  rewrite bucketPoints_lookup. destruct (List.filter _ points); reflexivity.
Qed.

(** The buckets of a result, in both branches of [applyLOD]. *)
Lemma applyLOD_buckets (points : list TimeSeriesPoint) (targetPoints : nat)
    (timeRange : option (Z * Z)) (config : option PartialLODConfig) :
  buckets (applyLOD points targetPoints timeRange config)
  = if (length points <=? targetPoints)%nat then map singletonBucket points
    else
      let range := timeRangeOf points timeRange in
      let bucketSize := calculateBucketSize range targetPoints in
      map (fun index =>
             createBucketSummary
               (List.filter (fun p => (bucketIndexOf (fst range) bucketSize p =? index)%Z)
                  points)
               index bucketSize (fst range)
               (cappedOutliersOf points (mergeConfig config targetPoints))
               (mergeConfig config targetPoints))
          (Js.sort_int (elements (dom (bucketPoints points bucketSize range)))).
Proof.
  unfold applyLOD. destruct (length points <=? targetPoints)%nat; [reflexivity|].
  cbn [buckets]. cbv zeta. apply List.map_ext. intros index.
  rewrite bucket_of_index. reflexivity.
Qed.

Lemma sortedIndices_occupied (points : list TimeSeriesPoint) (bucketSize : Z)
    (timeRange : Z * Z) (idx : Z) :
  In idx (Js.sort_int (elements (dom (bucketPoints points bucketSize timeRange)))) <->
  exists p, In p points /\ bucketIndexOf (fst timeRange) bucketSize p = idx.
Proof.
  rewrite <- list_elem_of_In, sortedIndices_elem, bucketPoints_lookup. split.
  - intros [l Hl]. destruct (List.filter _ points) as [|p l'] eqn:E; [discriminate|].
    assert (Hp : In p (List.filter
                         (fun p0 => (bucketIndexOf (fst timeRange) bucketSize p0 =? idx)%Z)
                         points)) by (rewrite E; left; reflexivity).
    apply List.filter_In in Hp. destruct Hp as [Hp Hi]. exists p. split; [exact Hp | lia].
  - intros (p & Hp & Hi).
    assert (Hf : In p (List.filter
                         (fun p0 => (bucketIndexOf (fst timeRange) bucketSize p0 =? idx)%Z)
                         points)).
    { apply List.filter_In. split; [exact Hp | lia]. }
    destruct (List.filter _ points); [destruct Hf | eexists; reflexivity].
Qed.

Lemma bucketIndexOf_bounds (start bucketSize : Z) (p : TimeSeriesPoint) :
  (1 <= bucketSize)%Z ->
  (start + bucketIndexOf start bucketSize p * bucketSize <= x p
   < start + bucketIndexOf start bucketSize p * bucketSize + bucketSize)%Z.
Proof.
  intros Hs. unfold bucketIndexOf. rewrite <- Zdiv_Qdiv.
  pose proof (Z.mul_div_le (x p - start) bucketSize) as H1.
  pose proof (Z.mul_succ_div_gt (x p - start) bucketSize) as H2.
  nia.
Qed.

(** X2.  Every input point of applyLOD is covered by a returned bucket:
    its value lies between the bucket's min and max and its time between
    the bucket's start and end. *)
Theorem applyLOD_covers_points (points : list TimeSeriesPoint) (targetPoints : nat)
    (timeRange : option (Z * Z)) (config : option PartialLODConfig) (p : TimeSeriesPoint) :
  In p points ->
  exists b, In b (buckets (applyLOD points targetPoints timeRange config)) /\
            (min b <= y p <= max b)%Q /\ (startTime b <= x p <= endTime b)%Z.
Proof.
  intros Hp. rewrite applyLOD_buckets.
  destruct (length points <=? targetPoints)%nat.
  - exists (singletonBucket p). split; [apply List.in_map; exact Hp|].
    cbn [min max startTime endTime singletonBucket].
    split; [split; apply Qle_refl | lia].
  - cbv zeta.
    set (range := timeRangeOf points timeRange).
    set (size := calculateBucketSize range targetPoints).
    set (idx := bucketIndexOf (fst range) size p).
    eexists. split.
    + apply List.in_map_iff. exists idx. split; [reflexivity|].
      apply sortedIndices_occupied. exists p. split; [exact Hp | reflexivity].
    + cbn [min max startTime endTime createBucketSummary].
      assert (Hf : In (y p) (map y (List.filter
                         (fun p0 => (bucketIndexOf (fst range) size p0 =? idx)%Z) points))).
      { apply List.in_map. apply List.filter_In. split; [exact Hp | apply Z.eqb_refl]. }
      split; [split; [apply min_of_le | apply max_of_ge]; exact Hf|].
      pose proof (bucketIndexOf_bounds (fst range) size p
                    (calculateBucketSize_pos range targetPoints)) as Hb.
      fold idx in Hb. lia.
Qed.

Lemma StronglySorted_strict (l : list Z) :
  StronglySorted Z.le l -> NoDup l -> StronglySorted Z.lt l.
Proof.
  induction l as [|a l IH]; intros Hs Hn; [constructor|].
  apply StronglySorted_inv in Hs. destruct Hs as [Hs Hall].
  apply NoDup_cons in Hn. destruct Hn as [Ha Hn].
  constructor; [apply IH; assumption|].
  rewrite List.Forall_forall in Hall |- *. intros b Hb.
  specialize (Hall b Hb).
  assert (a <> b) by (intros ->; apply Ha, list_elem_of_In, Hb). lia.
Qed.

Lemma StronglySorted_map {A B} (R : A -> A -> Prop) (R' : B -> B -> Prop) (f : A -> B)
    (l : list A) :
  (forall a b, R a b -> R' (f a) (f b)) ->
  StronglySorted R l -> StronglySorted R' (map f l).
Proof.
  intros HR. induction 1 as [|a l Hs IH Hall]; cbn [map]; constructor; [exact IH|].
  rewrite List.Forall_forall in Hall |- *. intros b Hb.
  apply List.in_map_iff in Hb. destruct Hb as (b' & <- & Hb'). apply HR, Hall, Hb'.
Qed.

Lemma sortedIndices_increasing (m : gmap Z (list TimeSeriesPoint)) :
  StronglySorted Z.lt (Js.sort_int (elements (dom m))) /\
  NoDup (Js.sort_int (elements (dom m))).
Proof.
  assert (Hn : NoDup (Js.sort_int (elements (dom m)))).
  { unfold Js.sort_int. rewrite merge_sort_Permutation. apply NoDup_elements. }
  split; [|exact Hn].
  apply StronglySorted_strict; [|exact Hn].
  unfold Js.sort_int. apply StronglySorted_merge_sort; apply _.
Qed.

Lemma applyLOD_covers_points_witness :
  exists b, In b (buckets (applyLOD flatThenSpike 5 None None)) /\
            (min b <= 100 <= max b)%Q /\ (startTime b <= 19000 <= endTime b)%Z.
Proof.
  apply (applyLOD_covers_points flatThenSpike 5 None None (pt 19000 100)).
  unfold flatThenSpike. apply in_or_app. right. left. reflexivity.
Defined.



Lemma filter_disjoint_length {A} (f g : A -> bool) (l : list A) :
  (forall a, f a = true -> g a = true -> False) ->
  (length (List.filter f l) + length (List.filter g l)
   = length (List.filter (fun a => f a || g a) l))%nat.
Proof.
  intros Hd. induction l as [|a l IH]; [reflexivity|]. cbn [List.filter].
  destruct (f a) eqn:Ef, (g a) eqn:Eg; cbn [orb length]; try lia.
  exfalso. exact (Hd a Ef Eg).
Qed.

Lemma list_sum_cons (a : nat) (l : list nat) : list_sum (a :: l) = (a + list_sum l)%nat.
Proof. reflexivity. Qed.

Lemma partition_count {A} (key : A -> Z) (l : list A) (keys : list Z) :
  NoDup keys ->
  list_sum (map (fun i => length (List.filter (fun a => (key a =? i)%Z) l)) keys)
  = length (List.filter (fun a => bool_decide (key a ∈ keys)) l).
Proof.
  induction 1 as [|i keys Hi Hn IH]; cbn [map]; [|rewrite list_sum_cons].
  - change (list_sum []) with 0%nat. induction l as [|a l IHl]; [reflexivity|]. cbn [List.filter].
    rewrite bool_decide_eq_false_2 by (apply not_elem_of_nil). exact IHl.
  - rewrite IH. rewrite filter_disjoint_length.
    + f_equal. apply List.filter_ext. intros a.
      destruct (Z.eqb_spec (key a) i) as [E | E].
      * subst i. cbn [orb]. symmetry. apply bool_decide_eq_true_2. left.
      * cbn [orb]. apply bool_decide_ext. rewrite elem_of_cons. tauto.
    + intros a Ha Hb. apply Z.eqb_eq in Ha. apply bool_decide_eq_true in Hb.
      subst i. contradiction.
Qed.

Lemma filter_all {A} (f : A -> bool) (l : list A) :
  (forall a, In a l -> f a = true) -> List.filter f l = l.
Proof.
  intros H. induction l as [|a l IH]; [reflexivity|]. cbn [List.filter].
  rewrite (H a) by (left; reflexivity). f_equal. apply IH.
  intros b Hb. apply H. right. exact Hb.
Qed.

Lemma list_sum_ge_length (l : list nat) :
  Forall (fun n => (1 <= n)%nat) l -> (length l <= list_sum l)%nat.
Proof. induction 1; [cbn; lia|]. rewrite list_sum_cons. cbn [length]. lia. Qed.

Lemma applyLOD_counts (points : list TimeSeriesPoint) (targetPoints : nat)
    (timeRange : option (Z * Z)) (config : option PartialLODConfig) :
  list_sum (map count (buckets (applyLOD points targetPoints timeRange config)))
    = length points /\
  Forall (fun n => (1 <= n)%nat)
    (map count (buckets (applyLOD points targetPoints timeRange config))).
Proof.
  rewrite applyLOD_buckets. destruct (length points <=? targetPoints)%nat.
  - rewrite List.map_map. cbn [count singletonBucket]. split.
    + induction points as [|p ps IH]; [reflexivity|].
      cbn [map length]. rewrite list_sum_cons, IH. reflexivity.
    + apply List.Forall_forall. intros n Hn. apply List.in_map_iff in Hn.
      destruct Hn as (p & <- & _). lia.
  - cbv zeta. rewrite List.map_map. cbn [count createBucketSummary].
    set (range := timeRangeOf points timeRange).
    set (size := calculateBucketSize range targetPoints).
    split.
    + rewrite (partition_count (bucketIndexOf (fst range) size))
        by (apply sortedIndices_increasing).
      f_equal. apply filter_all. intros p Hp. apply bool_decide_eq_true_2.
      apply list_elem_of_In. apply sortedIndices_occupied. exists p. split; [exact Hp | reflexivity].
    + apply List.Forall_forall. intros n Hn. apply List.in_map_iff in Hn.
      destruct Hn as (idx & <- & Hidx).
      apply sortedIndices_occupied in Hidx. destruct Hidx as (p & Hp & Hi).
      assert (Hf : In p (List.filter
                           (fun p0 => (bucketIndexOf (fst range) size p0 =? idx)%Z) points)).
      { apply List.filter_In. split; [exact Hp | lia]. }
      destruct (List.filter _ points); [destruct Hf | cbn [length]; lia].
Qed.

Lemma applyLOD_sampledPoints (points : list TimeSeriesPoint) (targetPoints : nat)
    (timeRange : option (Z * Z)) (config : option PartialLODConfig) :
  sampledPoints (applyLOD points targetPoints timeRange config)
  = length (buckets (applyLOD points targetPoints timeRange config)).
Proof.
  unfold applyLOD. destruct (length points <=? targetPoints)%nat;
    cbn [sampledPoints buckets]; [symmetry; apply length_map | reflexivity].
Qed.

(** X4.  The bucket counts of an applyLOD result add up to the number of
    input points; totalPoints is that number, sampledPoints is the number
    of buckets and never exceeds it, and the compression ratio is at least
    1. *)
Theorem applyLOD_partition (points : list TimeSeriesPoint) (targetPoints : nat)
    (timeRange : option (Z * Z)) (config : option PartialLODConfig) :
  let r := applyLOD points targetPoints timeRange config in
  list_sum (map count (buckets r)) = length points /\
  totalPoints r = length points /\
  sampledPoints r = length (buckets r) /\
  (sampledPoints r <= totalPoints r)%nat /\
  (1 <= compressionRatio r)%Q.
Proof.
  intros r. destruct (applyLOD_counts points targetPoints timeRange config) as [Hsum Hpos].
  fold r in Hsum, Hpos.
  assert (Hlen : (length (buckets r) <= length points)%nat).
  { rewrite <- Hsum, <- (length_map count). apply list_sum_ge_length, Hpos. }
  assert (Htot : totalPoints r = length points).
  { subst r. unfold applyLOD. destruct (length points <=? targetPoints)%nat; reflexivity. }
  assert (Hsam : sampledPoints r = length (buckets r)).
  { subst r. unfold applyLOD. destruct (length points <=? targetPoints)%nat; cbn [sampledPoints buckets].
    - symmetry. apply length_map.
    - reflexivity. }
  split; [exact Hsum|]. split; [exact Htot|]. split; [exact Hsam|].
  split; [lia|].
  assert (Hratio : compressionRatio r = 1%Q \/
                   ((0 < length points)%nat /\
                    compressionRatio r
                    = (Js.of_nat (length points) / Js.of_nat (length (buckets r)))%Q)).
  { subst r. unfold applyLOD. destruct (length points <=? targetPoints)%nat eqn:E.
    - left. reflexivity.
    - right. apply Nat.leb_gt in E. split; [lia | reflexivity]. }
  destruct Hratio as [-> | [Hn ->]]; [apply Qle_refl|].
  assert (Hk : (0 < length (buckets r))%nat).
  { destruct (buckets r); [cbn in Hsum; lia | cbn; lia]. }
  apply Qle_shift_div_l; [apply of_nat_pos; exact Hk|].
  rewrite Qmult_1_l. apply of_nat_le. exact Hlen.
Qed.

Lemma filter_sublist {A} (f : A -> bool) (l : list A) : List.filter f l `sublist_of` l.
Proof.
  induction l as [|a l IH]; [constructor|]. cbn [List.filter].
  destruct (f a); [apply sublist_skip | apply sublist_cons]; exact IH.
Qed.

Lemma detectOutliers_sublist (points : list TimeSeriesPoint) (config : LODConfig) :
  detectOutliers points config `sublist_of` points.
Proof.
  unfold detectOutliers, detectOutliersZScore, detectOutliersIQR, detectOutliersMAD.
  destruct (negb (preserveOutliers config) || (length points <? 3)%nat);
    [apply sublist_nil_l|].
  destruct (outlierMethod config).
  - destruct (length points <? 3)%nat; [apply sublist_nil_l|].
    destruct (Js.eqb _ 0); [apply sublist_nil_l | apply filter_sublist].
  - destruct (length points <? 4)%nat; [apply sublist_nil_l | apply filter_sublist].
  - destruct (length points <? 3)%nat; [apply sublist_nil_l|].
    destruct (Js.eqb _ 0); [apply sublist_nil_l | apply filter_sublist].
Qed.

Lemma slice0_sublist {A} (e : Z) (l : list A) : Js.slice0 e l `sublist_of` l.
Proof. unfold Js.slice0. destruct (0 <=? e)%Z; apply sublist_take. Qed.

(** X5.  Whatever maxOutlierPercentage is, the outliers that applyLOD
    keeps after the cap are a subsequence of the detected outliers, which
    are a subsequence of the input points; outlierCount is the number of
    kept outliers when there are more points than the target and 0
    otherwise, so it never exceeds the number of input points. *)
Theorem applyLOD_outlier_cap (points : list TimeSeriesPoint) (targetPoints : nat)
    (timeRange : option (Z * Z)) (config : option PartialLODConfig) :
  let fullConfig := mergeConfig config targetPoints in
  let capped := cappedOutliersOf points fullConfig in
  let r := applyLOD points targetPoints timeRange config in
  capped `sublist_of` detectOutliers points fullConfig /\
  detectOutliers points fullConfig `sublist_of` points /\
  outlierCount r = (if (length points <=? targetPoints)%nat then 0%nat else length capped) /\
  (outlierCount r <= length points)%nat.
Proof.
  intros fullConfig capped r.
  assert (Hcap : capped `sublist_of` detectOutliers points fullConfig)
    by apply slice0_sublist.
  assert (Hdet : detectOutliers points fullConfig `sublist_of` points)
    by apply detectOutliers_sublist.
  assert (Hcount : outlierCount r
                   = if (length points <=? targetPoints)%nat then 0%nat else length capped).
  { subst r. unfold applyLOD. destruct (length points <=? targetPoints)%nat; reflexivity. }
  split; [exact Hcap|]. split; [exact Hdet|]. split; [exact Hcount|].
  rewrite Hcount. destruct (length points <=? targetPoints)%nat; [lia|].
  apply sublist_length. etransitivity; [exact Hcap | exact Hdet].
Qed.

Lemma reduce_moreExtreme (avg : Q) (rest : list TimeSeriesPoint) (first : TimeSeriesPoint) :
  let res := fold_left (moreExtreme avg) rest first in
  res = first \/ In res rest.
Proof.
  revert first. induction rest as [|c rest IH]; intros first; cbn [fold_left].
  - left. reflexivity.
  - destruct (IH (moreExtreme avg first c)) as [E | Hin]; [|right; right; exact Hin].
    rewrite E. unfold moreExtreme. destruct (Js.gtb _ _); [right; left | left]; reflexivity.
Qed.

Lemma findByValue_In (l : list TimeSeriesPoint) (v : Q) (fallback : TimeSeriesPoint) :
  l <> [] -> In (findByValue l v fallback) l.
Proof.
  intros Hne. unfold findByValue. destruct (List.find _ l) as [p|] eqn:E.
  - apply List.find_some in E. apply E.
  - destruct l; [congruence | left; reflexivity].
Qed.

(** X7.  For a bucket of positive size whose midpoint time is not negative
    and whose points all lie in its time range, the representative chosen
    by createBucketSummary has a time inside the range [startTime,
    endTime). *)
Theorem createBucketSummary_representative_in_range (bucketPoints : list TimeSeriesPoint)
    (bucketIndex bucketSize startTime : Z) (outliers : list TimeSeriesPoint)
    (config : LODConfig) :
  let b := createBucketSummary bucketPoints bucketIndex bucketSize startTime outliers config in
  (1 <= bucketSize)%Z ->
  (0 <= 2 * Types.startTime b + bucketSize)%Z ->
  bucketPoints <> [] ->
  (forall p, In p bucketPoints -> (Types.startTime b <= x p < endTime b)%Z) ->
  (Types.startTime b <= x (representative b) < endTime b)%Z.
Proof.
  intros b Hsize Hmid Hne Hpts.
  set (s := (startTime + bucketIndex * bucketSize)%Z).
  assert (Hs : Types.startTime b = s) by reflexivity.
  assert (He : endTime b = (s + bucketSize)%Z) by reflexivity.
  rewrite Hs, He in *.
  assert (Hsyn : forall a, (s <= x (averagePoint bucketIndex s bucketSize a) < s + bucketSize)%Z).
  { intros a. cbn [x averagePoint]. unfold Js.date_of_half.
    rewrite Z.quot_div_nonneg by lia.
    pose proof (Z.mul_div_le (2 * s + bucketSize) 2).
    pose proof (Z.mul_succ_div_gt (2 * s + bucketSize) 2). lia. }
  assert (Hfind : forall v a, (s <= x (findByValue bucketPoints v a) < s + bucketSize)%Z).
  { intros v a. apply Hpts. apply findByValue_In. exact Hne. }
  subst b. unfold createBucketSummary. cbn [representative]. fold s.
  destruct (preserveMinMax config); [|apply Hsyn].
  destruct (List.filter _ outliers) as [|first rest] eqn:E.
  - destruct (_ && _); [apply Hfind|]. destruct (_ && _); [apply Hfind | apply Hsyn].
  - unfold Js.reduce1.
    pose proof (reduce_moreExtreme
                  (Js.sum (map y bucketPoints) / Js.of_nat (length (map y bucketPoints)))
                  rest first) as Hin.
    cbv zeta in Hin.
    assert (Hl : In (fold_left
                       (moreExtreme (Js.sum (map y bucketPoints)
                                     / Js.of_nat (length (map y bucketPoints)))) rest first)
                    (first :: rest)).
    { destruct Hin as [-> | Hin]; [left; reflexivity | right; exact Hin]. }
    rewrite <- E in Hl. apply List.filter_In in Hl. destruct Hl as [_ Hl]. lia.
Qed.

Lemma createBucketSummary_representative_in_range_witness :
  (0 <= x (representative (createBucketSummary plateau 0 5000 0 [] DEFAULT_LOD_CONFIG))
   < 5000)%Z.
Proof.
  apply (createBucketSummary_representative_in_range plateau 0 5000 0 [] DEFAULT_LOD_CONFIG).
  - lia.
  - vm_compute. discriminate.
  - discriminate.
  - intros p Hp. cbn in Hp.
    destruct Hp as [<- | [<- | [<- | [<- | []]]]]; vm_compute; split; congruence.
Defined.

Lemma applyLOD_small (points : list TimeSeriesPoint) (targetPoints : nat)
    (timeRange : option (Z * Z)) (config : option PartialLODConfig) :
  (length points <= targetPoints)%nat ->
  applyLOD points targetPoints timeRange config
  = {| buckets := map singletonBucket points;
       totalPoints := length points;
       sampledPoints := length points;
       compressionRatio := 1;
       level := FULL;
       outlierCount := 0 |}.
Proof.
  intros H. apply Nat.leb_le in H. unfold applyLOD. rewrite H. reflexivity.
Qed.

Lemma applyLOD_totalPoints (points : list TimeSeriesPoint) (targetPoints : nat)
    (timeRange : option (Z * Z)) (config : option PartialLODConfig) :
  totalPoints (applyLOD points targetPoints timeRange config) = length points.
Proof. unfold applyLOD. destruct (_ <=? _)%nat; reflexivity. Qed.

(** X8.  When the zoom window holds at most twice the target number of
    points, applyLODWithZoom returns exactly the points of the window, in
    input order, at level FULL; none of them lies outside the window. *)
Theorem applyLODWithZoom_full_detail (points : list TimeSeriesPoint) (targetPoints : nat)
    (zoomDomain fullDomain : Z * Z) (config : option PartialLODConfig) :
  let visible :=
    List.filter (fun p => (fst zoomDomain <=? x p)%Z && (x p <=? snd zoomDomain)%Z) points in
  let r := applyLODWithZoom points targetPoints zoomDomain fullDomain config in
  (length visible <= 2 * targetPoints)%nat ->
  extractRepresentativePoints r = visible /\
  level r = FULL /\ totalPoints r = length visible /\
  Forall (fun p => In p points /\ (fst zoomDomain <= x p <= snd zoomDomain)%Z)
    (extractRepresentativePoints r).
Proof.
  intros visible r Hlen.
  assert (Hr : r = applyLOD visible (length visible) (Some zoomDomain) config).
  { subst r. unfold applyLODWithZoom. fold visible. f_equal. lia. }
  rewrite Hr, applyLOD_small by lia.
  unfold extractRepresentativePoints. cbn [buckets level totalPoints].
  assert (Hmap : map representative (map singletonBucket visible) = visible).
  { rewrite List.map_map. cbn [representative singletonBucket]. apply List.map_id. }
  rewrite Hmap. repeat split.
  apply List.Forall_forall. intros p Hp. apply List.filter_In in Hp.
  destruct Hp as [Hp Hw]. split; [exact Hp | lia].
Qed.

Lemma applyLODWithZoom_full_detail_witness :
  extractRepresentativePoints
    (applyLODWithZoom flatThenSpike 2 (1000, 4000)%Z (0, 19000)%Z None)
  = [pt 1000 0; pt 2000 0; pt 3000 0; pt 4000 0].
Proof.
  apply (applyLODWithZoom_full_detail flatThenSpike 2 (1000, 4000)%Z (0, 19000)%Z None).
  vm_compute. lia.
Defined.

Lemma insert_by_Permutation {A} (key : A -> Z) (a : A) (l : list A) :
  Js.insert_by key a l ≡ₚ a :: l.
Proof.
  induction l as [|b l IH]; cbn [Js.insert_by]; [reflexivity|].
  destruct (key a <=? key b)%Z; [reflexivity|].
  rewrite IH. apply Permutation_swap.
Qed.

Lemma sort_by_Permutation {A} (key : A -> Z) (l : list A) : Js.sort_by key l ≡ₚ l.
Proof.
  unfold Js.sort_by. induction l as [|a l IH]; cbn [foldr]; [reflexivity|].
  rewrite insert_by_Permutation, IH. reflexivity.
Qed.

Lemma insert_by_sorted {A} (key : A -> Z) (a : A) (l : list A) :
  StronglySorted (fun p q => (key p <= key q)%Z) l ->
  StronglySorted (fun p q => (key p <= key q)%Z) (Js.insert_by key a l).
Proof.
  induction 1 as [|b l Hs IH Hall]; cbn [Js.insert_by].
  - constructor; constructor.
  - destruct (Z.leb_spec (key a) (key b)) as [Hle | Hgt].
    + constructor; [constructor; assumption|].
      constructor; [exact Hle|].
      eapply List.Forall_impl; [|exact Hall]. intros c Hc. cbn beta in Hc |- *. lia.
    + constructor; [exact IH|].
      rewrite (insert_by_Permutation key a l). constructor; [lia | exact Hall].
Qed.

Lemma sort_by_sorted {A} (key : A -> Z) (l : list A) :
  StronglySorted (fun p q => (key p <= key q)%Z) (Js.sort_by key l).
Proof.
  unfold Js.sort_by. induction l as [|a l IH]; cbn [foldr]; [constructor|].
  apply insert_by_sorted, IH.
Qed.

(** X9.  On a result of applyLOD the includeOutliers flag of
    extractAllSignificantPoints changes nothing: the answer is always the
    representatives of the buckets, sorted by time, as many as
    sampledPoints. *)
Theorem extractAllSignificantPoints_of_applyLOD (points : list TimeSeriesPoint)
    (targetPoints : nat) (timeRange : option (Z * Z)) (config : option PartialLODConfig)
    (includeOutliers : bool) :
  let r := applyLOD points targetPoints timeRange config in
  extractAllSignificantPoints r includeOutliers = extractAllSignificantPoints r false /\
  extractAllSignificantPoints r includeOutliers ≡ₚ extractRepresentativePoints r /\
  StronglySorted (fun p q => (x p <= x q)%Z) (extractAllSignificantPoints r includeOutliers) /\
  length (extractAllSignificantPoints r includeOutliers) = sampledPoints r.
Proof.
  intros r.
  assert (Hnil : forall acc,
             fold_left (fun acc bucket => acc ++ outliers bucket) (buckets r) acc = acc).
  { pose proof (applyLOD_outliers_nil points targetPoints timeRange config) as H.
    fold r in H. induction H as [|b bs Hb _ IH]; intros acc; cbn [fold_left]; [reflexivity|].
    rewrite Hb, app_nil_r. apply IH. }
  assert (Heq : extractAllSignificantPoints r includeOutliers
                = Js.sort_by x (map representative (buckets r))).
  { unfold extractAllSignificantPoints. destruct includeOutliers; [|reflexivity].
    rewrite Hnil. reflexivity. }
  split; [rewrite Heq; reflexivity|]. rewrite Heq.
  split; [apply sort_by_Permutation|]. split; [apply sort_by_sorted|].
  rewrite sort_by_Permutation, length_map.
  symmetry. apply applyLOD_sampledPoints.
Qed.

Lemma fold_closer (bucketMs : Q) (l : list Z) (st : Z * Q) :
  snd st = Qabs (bucketMs - inject_Z (fst st)) ->
  let st' := fold_left (closer bucketMs) l st in
  snd st' = Qabs (bucketMs - inject_Z (fst st')) /\
  (fst st' = fst st \/ In (fst st') l) /\
  (snd st' <= snd st)%Q /\
  (forall i, In i l -> (snd st' <= Qabs (bucketMs - inject_Z i))%Q).
Proof.
  revert st. induction l as [|i l IH]; intros st Hst; cbn [fold_left].
  - split; [exact Hst|]. split; [left; reflexivity|]. split; [apply Qle_refl | intros i []].
  - assert (Hstep : snd (closer bucketMs st i) = Qabs (bucketMs - inject_Z (fst (closer bucketMs st i)))
                    /\ (fst (closer bucketMs st i) = fst st \/ fst (closer bucketMs st i) = i)
                    /\ (snd (closer bucketMs st i) <= snd st)%Q
                    /\ (snd (closer bucketMs st i) <= Qabs (bucketMs - inject_Z i))%Q).
    { unfold closer. destruct (Js.ltb _ (snd st)) eqn:E; cbn [fst snd].
      - apply ltb_true in E. split; [reflexivity|]. split; [right; reflexivity|].
        split; [lra | apply Qle_refl].
      - apply ltb_false in E. split; [exact Hst|]. split; [left; reflexivity|].
        split; [apply Qle_refl | exact E]. }
    destruct Hstep as (H1 & H2 & H3 & H4).
    destruct (IH (closer bucketMs st i) H1) as (G1 & G2 & G3 & G4).
    split; [exact G1|]. split; [|split].
    + destruct G2 as [G2 | G2]; [|right; right; exact G2].
      rewrite G2. destruct H2 as [H2 | H2]; [left | right; left]; congruence.
    + eapply Qle_trans; [exact G3 | exact H3].
    + intros j [<- | Hj]; [eapply Qle_trans; [exact G3 | exact H4] | apply G4, Hj].
Qed.

Lemma intervals_pos (i : Z) : In i intervals -> (1 <= i)%Z.
Proof.
  assert (H : Forall (fun j => (1 <= j)%Z) intervals).
  { unfold intervals. repeat constructor; lia. }
  rewrite List.Forall_forall in H. apply H.
Qed.

(** X10.  calculateBucketSize always answers one of the fixed interval
    sizes; for a non-empty time range and a non-zero target it is one that
    is nearest to duration / targetPoints. *)
Theorem calculateBucketSize_nearest (start end_ : Z) (targetPoints : nat) :
  let bucketSize := calculateBucketSize (start, end_) targetPoints in
  In bucketSize intervals /\
  (end_ <> start -> targetPoints <> 0%nat ->
   let bucketMs := (inject_Z (end_ - start) / Js.of_nat targetPoints)%Q in
   forall i, In i intervals ->
             (Qabs (bucketMs - inject_Z bucketSize) <= Qabs (bucketMs - inject_Z i))%Q).
Proof.
  intros bucketSize. subst bucketSize. unfold calculateBucketSize.
  destruct (Z.eqb_spec (end_ - start) 0) as [Ed | Ed]; cbn [orb].
  - split; [left; reflexivity | intros; lia].
  - destruct (Nat.eqb_spec targetPoints 0) as [Et | Et].
    + split; [left; reflexivity | intros; congruence].
    + set (bucketMs := (inject_Z (end_ - start) / Js.of_nat targetPoints)%Q).
      pose proof (fold_closer bucketMs intervals (1%Z, Qabs (bucketMs - inject_Z 1)) eq_refl)
        as (G1 & G2 & _ & G4).
      destruct (fold_left (closer bucketMs) intervals (1%Z, Qabs (bucketMs - inject_Z 1)))
        as [closest d]. cbn [fst snd] in *.
      assert (Hin : In closest intervals).
      { destruct G2 as [-> | G2]; [left; reflexivity | exact G2]. }
      rewrite Z.max_r by (apply intervals_pos; exact Hin).
      split; [exact Hin|]. intros _ _ i Hi. rewrite <- G1. apply G4, Hi.
Qed.

Lemma calculateBucketSize_nearest_witness :
  calculateBucketSize (0, 19000)%Z 5 = 5000%Z /\
  (Qabs (3800 - inject_Z (calculateBucketSize (0, 19000)%Z 5)) <= Qabs (3800 - inject_Z 1000))%Q.
Proof.
  split; [vm_compute; reflexivity|].
  refine (proj2 (calculateBucketSize_nearest 0 19000 5) _ _ 1000%Z _).
  - lia.
  - lia.
  - unfold intervals. cbn. tauto.
Defined.
End LodExtras.

(** ** Thresholds and tier detection: further properties *)

Section DetectionExtras.
Import Types Thresholds Detection Engine Notions Samples.

(** X11.  validateThresholds never returns svgToCanvas below 100 or a
    points-per-pixel threshold below 0.1, never lowers a supplied
    svgToCanvas or canvasToWebGL, and keeps svgToCanvas <= canvasToWebGL
    whenever the svgToCanvas it starts from is at least 100. *)
Theorem validateThresholds_floors (config : PartialThresholdConfig) :
  let t := validateThresholds config in
  (100 <= svgToCanvas t)%Q /\
  ((1 # 10) <= pointsPerPixelSVG t)%Q /\
  ((1 # 10) <= pointsPerPixelCanvas t)%Q /\
  ((1 # 10) <= pointsPerPixelWebGL t)%Q /\
  (forall v, p_svgToCanvas config = Some v ->
             (v <= svgToCanvas t)%Q /\ (v <= canvasToWebGL t)%Q) /\
  (forall v, p_canvasToWebGL config = Some v -> (v <= canvasToWebGL t)%Q) /\
  ((100 <= nullish (p_svgToCanvas config) (svgToCanvas DEFAULT_THRESHOLDS))%Q ->
   (svgToCanvas t <= canvasToWebGL t)%Q).
Proof.
  intros t. subst t. unfold validateThresholds.
  cbn [svgToCanvas canvasToWebGL pointsPerPixelSVG pointsPerPixelCanvas pointsPerPixelWebGL].
  split; [apply max2_ge_l|]. split; [apply max2_ge_l|].
  split; [apply max2_ge_l|]. split; [apply max2_ge_l|].
  split; [|split].
  - intros v ->. cbn [nullish default]. split; [apply max2_ge_r | apply max2_ge_l].
  - intros v ->. cbn [nullish default]. apply max2_ge_r.
  - intros H. apply (validateThresholds_order_when_floor_met config H).
Qed.

Lemma validateThresholds_floors_witness :
  (svgToCanvas (validateThresholds
                  {| p_svgToCanvas := Some 200%Q; p_canvasToWebGL := Some 150%Q;
                     p_pointsPerPixelSVG := None; p_pointsPerPixelCanvas := None;
                     p_pointsPerPixelWebGL := None; p_forceRenderer := None;
                     p_autoDetect := None |})
   <= canvasToWebGL (validateThresholds
                       {| p_svgToCanvas := Some 200%Q; p_canvasToWebGL := Some 150%Q;
                          p_pointsPerPixelSVG := None; p_pointsPerPixelCanvas := None;
                          p_pointsPerPixelWebGL := None; p_forceRenderer := None;
                          p_autoDetect := None |}))%Q.
Proof.
  apply validateThresholds_floors. vm_compute. discriminate.
Defined.

Lemma getFallbackTier_cases (caps : DeviceCapabilities) (preferred : RendererTier) :
  let t := getFallbackTier caps preferred in
  (tierRank t <= tierRank preferred)%nat /\
  (isTierAvailable caps preferred = true -> t = preferred) /\
  (t <> SVG -> isTierAvailable caps t = true) /\
  (isTierAvailable caps t = false ->
   forall t', (tierRank t' <= tierRank preferred)%nat -> isTierAvailable caps t' = false).
Proof.
  destruct caps as [w c s]. destruct preferred, w, c, s; vm_compute;
    (split; [lia|]); (split; [intros; congruence|]); (split; [intros; congruence|]);
    intros H t' Ht'; try discriminate; destruct t'; vm_compute in Ht' |- *;
    try reflexivity; lia.
Qed.

(** X12.  getFallbackTier never answers a tier above the preferred one; it
    answers the preferred tier when that is available, answers an
    unavailable tier only as the last resort SVG, and then no tier at or
    below the preferred one is available. *)
Theorem getFallbackTier_never_upgrades (caps : DeviceCapabilities)
    (preferred : RendererTier) :
  let t := getFallbackTier caps preferred in
  (tierRank t <= tierRank preferred)%nat /\
  (isTierAvailable caps preferred = true -> t = preferred) /\
  (t <> SVG -> isTierAvailable caps t = true) /\
  (isTierAvailable caps t = false ->
   forall t', (tierRank t' <= tierRank preferred)%nat -> isTierAvailable caps t' = false).
Proof.
  intros t. subst t. destruct caps as [webgl canvas svg].
  split; [destruct preferred, webgl, canvas, svg; vm_compute; lia|].
  split; [destruct preferred, webgl, canvas, svg; vm_compute; congruence|].
  split; [destruct preferred, webgl, canvas, svg; vm_compute; congruence|].
  intros Hnone t' Ht'.
  destruct preferred, webgl, canvas, svg; vm_compute in Hnone; try discriminate;
    destruct t'; vm_compute in Ht' |- *; try reflexivity; lia.
Qed.

Lemma getFallbackTier_never_upgrades_witness :
  getFallbackTier {| webglSupported := false; canvasSupported := true;
                     svgSupported := true |} CANVAS = CANVAS.
Proof.
  destruct (getFallbackTier_never_upgrades
              {| webglSupported := false; canvasSupported := true; svgSupported := true |}
              CANVAS) as (_ & H & _).
  apply H. reflexivity.
Defined.

Lemma shouldDegradeTier_available (caps : DeviceCapabilities)
    (h : list PerformanceSnapshot) (now : Q) (t : RendererTier) (budgetMs : Q)
    (threshold : nat) (windowMs : Q) (t' : RendererTier) :
  shouldDegradeTier caps h now t budgetMs threshold windowMs = Some t' ->
  isTierAvailable caps t' = true /\
  (threshold <= countPerformanceViolations h now budgetMs windowMs)%nat.
Proof.
  unfold shouldDegradeTier.
  destruct (Nat.leb_spec threshold (countPerformanceViolations h now budgetMs windowMs))
    as [Hle | Hgt]; [|discriminate].
  destruct (indexOf tiers t <? length tiers - 1)%nat; [|discriminate].
  destruct (tiers !! (indexOf tiers t + 1)%nat) as [nextTier|]; [|discriminate].
  destruct (isTierAvailable caps nextTier) eqn:Ea; [|discriminate].
  intros [= <-]. split; [exact Ea | exact Hle].
Qed.

(** What [evaluateTierChange] relies on: a recommended tier is supported
    by the device unless it is the last-resort fallback. *)
Lemma getTierRecommendation_target (caps : DeviceCapabilities)
    (h : list PerformanceSnapshot) (now : Q) (data : list SeriesData) (width height : Q)
    (thresholds : ThresholdConfig) :
  let r := getTierRecommendation caps h now data width height thresholds in
  Detection.reason r <> manual /\
  (isTierAvailable caps (recommended r) = true \/
   (recommended r = SVG /\ Detection.reason r = fallback)).
Proof.
  intros r. subst r. unfold getTierRecommendation. cbv zeta.
  set (optimal := detectOptimalTier (calculateDensityMetrics data width height) thresholds).
  destruct (isTierAvailable caps optimal) eqn:Ea; cbn [negb].
  - destruct (shouldDegradeTier caps h now optimal (1000 / 60) 10 1000) as [d|] eqn:Ed.
    + destruct (decide (d <> optimal)); cbn [recommended Detection.reason].
      * split; [discriminate|]. left.
        apply (shouldDegradeTier_available _ _ _ _ _ _ _ _ Ed).
      * split; [discriminate|]. left. exact Ea.
    + cbn [recommended Detection.reason]. split; [discriminate|]. left. exact Ea.
  - cbn [recommended Detection.reason]. split; [discriminate|].
    destruct (getFallbackTier_cases caps optimal) as (_ & _ & Hav & _).
    destruct (decide (getFallbackTier caps optimal = SVG)) as [Hs | Hs].
    + right. split; [exact Hs | reflexivity].
    + left. apply Hav. exact Hs.
Qed.

(** X13.  getTierRecommendation never recommends a tier above the density-
    optimal one: reason 'fallback' is given exactly when the optimal tier
    is unavailable, 'density' means the optimal tier itself, 'performance'
    means the available tier one step below it after at least 10 recent
    over-budget frames, and 'manual' is never given. *)
Theorem getTierRecommendation_never_above_optimal (caps : DeviceCapabilities)
    (h : list PerformanceSnapshot) (now : Q) (data : list SeriesData) (width height : Q)
    (thresholds : ThresholdConfig) :
  let r := getTierRecommendation caps h now data width height thresholds in
  let optimal := detectOptimalTier (calculateDensityMetrics data width height) thresholds in
  (tierRank (recommended r) <= tierRank optimal)%nat /\
  (Detection.reason r = fallback <-> isTierAvailable caps optimal = false) /\
  (Detection.reason r = density -> recommended r = optimal /\ alternative r = None) /\
  (Detection.reason r = performance ->
   S (tierRank (recommended r)) = tierRank optimal /\
   isTierAvailable caps (recommended r) = true /\
   (10 <= countPerformanceViolations h now (1000 / 60) 1000)%nat) /\
  Detection.reason r <> manual /\
  (recommended r <> SVG -> isTierAvailable caps (recommended r) = true).
Proof.
  intros r optimal. subst r. unfold getTierRecommendation. cbv zeta. fold optimal.
  destruct (isTierAvailable caps optimal) eqn:Ea; cbn [negb].
  - destruct (shouldDegradeTier caps h now optimal (1000 / 60) 10 1000) as [d|] eqn:Ed.
    + destruct (shouldDegradeTier_one_step _ _ _ _ _ _ _ _ Ed) as [[Ho Hd'] | [Ho Hd']];
        destruct (shouldDegradeTier_available _ _ _ _ _ _ _ _ Ed) as [Hav Hcnt];
        rewrite Hd', Ho in *;
        (destruct (decide _) as [Hne | Heq]; [|exfalso; apply Heq; discriminate]);
        cbn [recommended Detection.reason alternative tierRank];
        (split; [lia|]); (split; [split; discriminate|]); (split; [discriminate|]);
        (split; [intros _; split; [reflexivity | split; [exact Hav | exact Hcnt]]|]);
        (split; [discriminate|]); intros _; exact Hav.
    + cbn [recommended Detection.reason alternative].
      split; [lia|]. split; [split; discriminate|]. split; [intros _; split; reflexivity|].
      split; [discriminate|]. split; [discriminate|]. intros _; exact Ea.
  - cbn [recommended Detection.reason alternative].
    destruct (getFallbackTier_cases caps optimal) as (Hrank & _ & Hav & _).
    split; [exact Hrank|]. split; [split; reflexivity|]. split; [discriminate|].
    split; [discriminate|]. split; [discriminate|]. exact Hav.
Qed.

Lemma ring_fold {A} (f : list A -> A -> list A) (cap : nat) :
  (forall l a, f l a = let pushed := l ++ [a] in
                       if (cap <? length pushed)%nat then tail pushed else pushed) ->
  forall (items l : list A),
    (length l <= cap)%nat ->
    fold_left f items l = drop (length (l ++ items) - cap) (l ++ items).
Proof.
  intros Hf items. induction items as [|a items IH]; intros l Hlen.
  - cbn [fold_left]. rewrite app_nil_r.
    replace (length l - cap)%nat with 0%nat by lia. reflexivity.
  - cbn [fold_left]. rewrite Hf. cbv zeta.
    assert (Hstep : (if (cap <? length (l ++ [a]))%nat then tail (l ++ [a]) else l ++ [a])
                    = drop (length (l ++ [a]) - cap) (l ++ [a])).
    { rewrite length_app. cbn [length].
      destruct (Nat.ltb_spec cap (length l + 1)) as [Hgt | Hle].
      - replace (length l + 1 - cap)%nat with 1%nat by lia.
        destruct (l ++ [a]); reflexivity.
      - replace (length l + 1 - cap)%nat with 0%nat by lia. reflexivity. }
    rewrite Hstep. rewrite IH.
    + replace (l ++ a :: items) with ((l ++ [a]) ++ items)
        by (rewrite <- app_assoc; reflexivity).
      set (P := l ++ [a]).
      assert (HP : (length P <= cap + 1)%nat).
      { unfold P. rewrite length_app. cbn [length]. lia. }
      rewrite <- (drop_app_le P items (length P - cap)) by lia.
      rewrite drop_drop. f_equal.
      rewrite length_drop. rewrite !length_app. lia.
    + rewrite length_drop, length_app. cbn [length]. lia.
Qed.

(** X14.  A performance history of at most 60 snapshots, after any number
    of recordPerformance calls, holds the last 60 snapshots in recording
    order; so no count of violations ever exceeds 60. *)
Theorem recordPerformance_window (h snapshots : list PerformanceSnapshot) :
  (length h <= 60)%nat ->
  let h' := fold_left recordPerformance snapshots h in
  h' = drop (length (h ++ snapshots) - 60) (h ++ snapshots) /\
  (length h' <= 60)%nat /\
  (forall now budgetMs windowMs,
      countPerformanceViolations h' now budgetMs windowMs <= 60)%nat.
Proof.
  intros Hlen h'.
  assert (H : h' = drop (length (h ++ snapshots) - 60) (h ++ snapshots)).
  { subst h'. apply (ring_fold recordPerformance 60); [|exact Hlen].
    intros l a. reflexivity. }
  assert (Hl : (length h' <= 60)%nat).
  { rewrite H, length_drop. lia. }
  split; [exact H|]. split; [exact Hl|].
  intros now b w. unfold countPerformanceViolations. cbv zeta.
  etransitivity; [apply filter_length_le|exact Hl].
Qed.

Lemma recordPerformance_window_witness :
  let snap (i : nat) :=
    {| Detection.timestamp := Js.of_nat i; Detection.frameTime := 20; fps := Some 50%Q;
       Detection.droppedFrames := 0; Detection.tier := SVG |} in
  let snapshots := map snap (seq 0 61) in
  fold_left recordPerformance snapshots [] = drop 1 snapshots.
Proof.
  intros snap snapshots.
  destruct (recordPerformance_window [] snapshots) as (H & _).
  - cbn [length]. lia.
  - exact H.
Defined.
End DetectionExtras.

(** ** The engine: further properties *)

Section EngineExtras.
Import Types Thresholds Detection Engine Notions Samples.

Lemma recordFrameMetrics_fields (now : Q) (e : HybridEngine)
    (h : list PerformanceSnapshot) (ft : Q) (data : list SeriesData) :
  let w := recordFrameMetrics now (e, h) ft data in
  let over := Js.gtb ft (maxFrameTime (performanceBudgets (config e))) in
  let e' := fst w in
  config e' = config e /\
  currentTier (state e') = currentTier (state e) /\
  renderers e' = renderers e /\
  currentRenderer e' = currentRenderer e /\
  isDestroyed e' = isDestroyed e /\
  frameCount e' = frameCount e /\
  dataDensity (state e') = totalPointsOf data /\
  droppedFrames e' = (if over then S (droppedFrames e) else droppedFrames e) /\
  performanceViolations (state e') =
    (if over then S (performanceViolations (state e)) else performanceViolations (state e)) /\
  emitted e' =
    (if over && (degradeFrameThreshold (performanceBudgets (config e))
                 <=? S (performanceViolations (state e)))%nat
     then emitted e ++ [performanceViolation
                          (metricOf (config e) (currentTier (state e)) (now, ft, data)) now]
     else emitted e) /\
  snd w = recordPerformance h
            {| Detection.timestamp := now; Detection.frameTime := ft;
               fps := if Js.eqb ft 0 then None else Some (1000 / ft)%Q;
               Detection.droppedFrames := droppedFrames e';
               Detection.tier := currentTier (state e) |}.
Proof.
  unfold recordFrameMetrics. cbv zeta.
  destruct (Js.gtb ft (maxFrameTime (performanceBudgets (config e)))) eqn:Eo;
    cbn [andb];
    [destruct (degradeFrameThreshold (performanceBudgets (config e))
               <=? S (performanceViolations (state e)))%nat|];
    cbn [fst snd emitEvent config state currentTier frameMetrics renderers currentRenderer
         isDestroyed frameCount dataDensity droppedFrames performanceViolations emitted
         metricOf];
    rewrite ?Eo; repeat split.
Qed.

(** X15.  Over any run of recordFrameMetrics calls, droppedFrames and
    performanceViolations both grow by the number of frames over
    maxFrameTime (they are never reset or windowed), and a
    performanceViolation event is emitted for every over-budget frame from
    the one that brings the counter to degradeFrameThreshold onwards. *)
Theorem recordAll_counters (recordings : list (Q * Q * list SeriesData))
    (e : HybridEngine) (h : list PerformanceSnapshot) :
  let e' := fst (recordAll (e, h) recordings) in
  let k := length (List.filter (overBudget (config e)) recordings) in
  let silent :=
    (degradeFrameThreshold (performanceBudgets (config e)) - 1
     - performanceViolations (state e))%nat in
  droppedFrames e' = (droppedFrames e + k)%nat /\
  performanceViolations (state e') = (performanceViolations (state e) + k)%nat /\
  length (List.filter isViolationEvent (emitted e'))
    = (length (List.filter isViolationEvent (emitted e)) + (k - silent))%nat.
Proof.
  revert e h. induction recordings as [|[[now ft] data] recs IH]; intros e h.
  - cbn. repeat split; lia.
  - unfold recordAll. cbn [fold_left].
    fold (recordAll (recordFrameMetrics now (e, h) ft data) recs).
    pose proof (recordFrameMetrics_fields now e h ft data) as Hf. cbv zeta in Hf.
    destruct (recordFrameMetrics now (e, h) ft data) as [e1 h1].
    cbn [fst snd] in Hf.
    destruct Hf as (Hcfg & _ & _ & _ & _ & _ & _ & Hd & Hv & Hem & _).
    specialize (IH e1 h1). cbv zeta in IH |- *. rewrite Hcfg in IH.
    cbn [List.filter].
    change (overBudget (config e) (now, ft, data))
      with (Js.gtb ft (maxFrameTime (performanceBudgets (config e)))).
    set (k' := length (List.filter (overBudget (config e)) recs)) in *.
    destruct IH as (IH1 & IH2 & IH3).
    rewrite IH1, IH2, IH3, Hd, Hv, Hem. clear IH1 IH2 IH3 Hd Hv Hem.
    destruct (Js.gtb ft (maxFrameTime (performanceBudgets (config e)))); cbn [andb length];
      fold k'.
    + destruct (Nat.leb_spec (degradeFrameThreshold (performanceBudgets (config e)))
                  (S (performanceViolations (state e)))) as [Hle | Hgt].
      * rewrite List.filter_app, length_app. cbn [List.filter isViolationEvent length].
        repeat split; lia.
      * repeat split; lia.
    + repeat split; lia.
Qed.

Lemma switchTier_cases (now : Q) (e : HybridEngine) (t : RendererTier) (why : Reason) :
  let r := switchTier now e t why in
  (snd r = None /\ fst r = e) \/
  (exists ev, snd r = Some ev /\
     from ev = currentTier (state e) /\ to ev = t /\ reason ev = why /\
     t <> currentTier (state e) /\ t ∈ renderers e /\
     currentTier (state (fst r)) = t /\
     currentRenderer (fst r) = Some t /\
     emitted (fst r) = emitted e ++ [tierSwitch ev now] /\
     config (fst r) = config e /\
     renderers (fst r) = renderers e /\
     frameMetrics (fst r) = frameMetrics e /\
     frameCount (fst r) = frameCount e /\
     isDestroyed (fst r) = isDestroyed e /\
     droppedFrames (fst r) = droppedFrames e /\
     performanceViolations (state (fst r)) = performanceViolations (state e) /\
     dataDensity (state (fst r)) = dataDensity (state e)).
Proof.
  unfold switchTier. cbv zeta.
  destruct (decide (t = currentTier (state e))) as [Heq | Hne];
    [left; split; reflexivity|].
  destruct (bool_decide (t ∈ renderers e)) eqn:Hin; cbn [negb];
    [|left; split; reflexivity].
  apply bool_decide_eq_true in Hin.
  right. eexists. cbn [fst snd emitEvent]. split; [reflexivity|].
  cbn [from to reason state currentTier currentRenderer emitted config renderers
       frameMetrics frameCount isDestroyed droppedFrames performanceViolations dataDensity].
  repeat split; assumption.
Qed.

Lemma switchTier_invariant (cfg : HybridRendererConfig) (now : Q) (e : HybridEngine)
    (h : list PerformanceSnapshot) (t : RendererTier) (why : Reason) :
  engineInvariant cfg (e, h) -> engineInvariant cfg (fst (switchTier now e t why), h).
Proof.
  intros Hinv.
  destruct (switchTier_cases now e t why) as [[_ ->] | (ev & _ & H)]; [exact Hinv|].
  destruct H as (_ & _ & _ & _ & Hin & Ht & Hr & _ & Hc & Hrs & Hfm & _ & Hdes & Hd & Hv & _).
  destruct Hinv as (I1 & I2 & I3 & I4 & I5). cbn [fst snd] in *.
  unfold engineInvariant. cbn [fst snd].
  rewrite Hc, Hdes, Hr, Ht, Hrs, Hfm, Hd, Hv.
  split; [assumption|]. split; [assumption|].
  split; [intros t' [= <-]; split; [reflexivity | exact Hin]|].
  split; assumption.
Qed.

Lemma registerRenderer_invariant (cfg : HybridRendererConfig) (e : HybridEngine)
    (h : list PerformanceSnapshot) (t : RendererTier) :
  engineInvariant cfg (e, h) -> engineInvariant cfg (registerRenderer e t, h).
Proof.
  intros (I1 & I2 & I3 & I4 & I5). cbn [fst snd] in *.
  unfold engineInvariant, registerRenderer. cbn [fst snd config isDestroyed currentRenderer
    state renderers frameMetrics droppedFrames].
  split; [assumption|]. split; [assumption|].
  split; [|split; assumption].
  intros t'. destruct (currentRenderer e) as [r|] eqn:Er.
  - intros [= <-]. destruct (I3 r eq_refl) as [Heq Hin]. split; [exact Heq|].
    destruct (bool_decide (t ∈ renderers e)); [exact Hin|].
    apply elem_of_app. left. exact Hin.
  - destruct (decide (t = currentTier (state e))) as [Heq|]; [|discriminate].
    intros [= <-]. split; [exact Heq|].
    destruct (bool_decide (t ∈ renderers e)) eqn:Eb.
    + apply bool_decide_eq_true in Eb. exact Eb.
    + apply elem_of_app. right. apply list_elem_of_singleton. reflexivity.
Qed.

Lemma evaluateTierChange_switches (caps : DeviceCapabilities)
    (h : list PerformanceSnapshot) (now : Q) (e : HybridEngine)
    (args : option (list SeriesData * Q * Q)) :
  evaluateTierChange caps h now e args = (e, None) \/
  exists t why, evaluateTierChange caps h now e args = switchTier now e t why.
Proof.
  unfold evaluateTierChange.
  destruct (forceRenderer (thresholds (config e))) as [forced|].
  - destruct (bool_decide (forced <> currentTier (state e)) && isTierAvailable caps forced);
      [right; eauto | left; reflexivity].
  - cbv zeta.
    assert (Hd : (if autoDegrade (performanceBudgets (config e))
                  then match shouldDegradeTier caps h now (currentTier (state e))
                               (targetFrameTime (performanceBudgets (config e)))
                               (degradeFrameThreshold (performanceBudgets (config e))) 1000 with
                       | Some degraded => switchTier now e degraded performance
                       | None => (e, None)
                       end
                  else (e, None)) = (e, None) \/
                 exists t why,
                   (if autoDegrade (performanceBudgets (config e))
                    then match shouldDegradeTier caps h now (currentTier (state e))
                                 (targetFrameTime (performanceBudgets (config e)))
                                 (degradeFrameThreshold (performanceBudgets (config e))) 1000 with
                         | Some degraded => switchTier now e degraded performance
                         | None => (e, None)
                         end
                    else (e, None)) = switchTier now e t why).
    { destruct (autoDegrade (performanceBudgets (config e))); [|left; reflexivity].
      destruct (shouldDegradeTier _ _ _ _ _ _ _); [right; eauto | left; reflexivity]. }
    destruct args as [[[data width] height]|]; [|exact Hd].
    destruct (negb (Js.eqb width 0) && negb (Js.eqb height 0)); [|exact Hd].
    destruct (decide _); [right; eauto | exact Hd].
Qed.

Lemma evaluateTierChange_invariant (cfg : HybridRendererConfig) (caps : DeviceCapabilities)
    (h h' : list PerformanceSnapshot) (now : Q) (e : HybridEngine)
    (args : option (list SeriesData * Q * Q)) :
  engineInvariant cfg (e, h) ->
  engineInvariant cfg (fst (evaluateTierChange caps h' now e args), h).
Proof.
  intros Hinv.
  destruct (evaluateTierChange_switches caps h' now e args) as [-> | (t & why & ->)];
    [exact Hinv | apply switchTier_invariant; exact Hinv].
Qed.

Lemma forceSwitchTier_invariant (cfg : HybridRendererConfig) (caps : DeviceCapabilities)
    (h : list PerformanceSnapshot) (now : Q) (e : HybridEngine) (t : RendererTier) :
  engineInvariant cfg (e, h) -> engineInvariant cfg (fst (forceSwitchTier caps now e t), h).
Proof.
  intros Hinv. unfold forceSwitchTier.
  destruct (negb (isTierAvailable caps t)); apply switchTier_invariant; exact Hinv.
Qed.

Lemma shouldReevaluateTier_fields (e : HybridEngine) (data : list SeriesData) :
  let e' := fst (shouldReevaluateTier e data) in
  config e' = config e /\ state e' = state e /\ renderers e' = renderers e /\
  currentRenderer e' = currentRenderer e /\ frameCount e' = S (frameCount e) /\
  droppedFrames e' = droppedFrames e /\ isDestroyed e' = isDestroyed e /\
  frameMetrics e' = frameMetrics e /\ emitted e' = emitted e.
Proof.
  unfold shouldReevaluateTier. cbv zeta. cbn [frameCount].
  destruct (S (frameCount e) mod 30 =? 0)%nat; cbn [fst]; repeat split.
Qed.

Lemma shouldReevaluateTier_invariant (cfg : HybridRendererConfig) (e : HybridEngine)
    (h : list PerformanceSnapshot) (data : list SeriesData) :
  engineInvariant cfg (e, h) -> engineInvariant cfg (fst (shouldReevaluateTier e data), h).
Proof.
  intros (I1 & I2 & I3 & I4 & I5). cbn [fst snd] in *.
  destruct (shouldReevaluateTier_fields e data)
    as (H1 & H2 & H3 & H4 & H5 & H6 & H7 & H8 & H9).
  unfold engineInvariant. cbn [fst snd]. rewrite H1, H2, H3, H4, H6, H7, H8.
  split; [assumption|]. split; [assumption|]. split; [exact I3|].
  split; assumption.
Qed.

Lemma tail_length_pred {A} (l : list A) : length (tail l) = (length l - 1)%nat.
Proof. destruct l; cbn [tail length]; lia. Qed.

Lemma recordFrameMetrics_invariant (cfg : HybridRendererConfig) (now ft : Q)
    (e : HybridEngine) (h : list PerformanceSnapshot) (data : list SeriesData) :
  engineInvariant cfg (e, h) -> engineInvariant cfg (recordFrameMetrics now (e, h) ft data).
Proof.
  intros (I1 & I2 & I3 & I4 & I5). cbn [fst snd] in *.
  pose proof (recordFrameMetrics_fields now e h ft data) as Hf. cbv zeta in Hf.
  pose proof (recordFrameMetrics_spec now e h ft data) as Hs. cbv zeta in Hs.
  destruct (recordFrameMetrics now (e, h) ft data) as [e1 h1]. cbn [fst snd] in *.
  destruct Hf as (Hc & Ht & Hrs & Hr & Hdes & _ & _ & Hd & Hv & _ & Hh).
  destruct Hs as (_ & _ & Hfm).
  unfold engineInvariant. cbn [fst snd].
  rewrite Hc, Hdes, Hr, Ht, Hrs, Hd, Hv, I5.
  split; [assumption|]. split; [assumption|]. split; [exact I3|].
  split; [|reflexivity].
  rewrite Hfm. rewrite length_app. cbn [length].
  destruct (Nat.ltb_spec 60 (length (frameMetrics e) + 1)) as [Hgt | Hle].
  - rewrite tail_length_pred, length_app. cbn [length]. lia.
  - rewrite length_app. cbn [length]. lia.
Qed.

(** The invariant says nothing of the shared history. *)
Lemma engineInvariant_history (cfg : HybridRendererConfig) (e : HybridEngine)
    (h h' : list PerformanceSnapshot) :
  engineInvariant cfg (e, h) -> engineInvariant cfg (e, h').
Proof. intros H. exact H. Qed.

Lemma render_invariant (cfg : HybridRendererConfig) (caps : DeviceCapabilities)
    (clock : RenderClock) (rendererThrows : bool)
    (w : HybridEngine * list PerformanceSnapshot)
    (data : list SeriesData) (width height : Q) :
  engineInvariant cfg w ->
  engineInvariant cfg (fst (render caps clock rendererThrows w data width height)).
Proof.
  destruct w as [e h]. intros Hinv. unfold render.
  destruct (isDestroyed e); [exact Hinv|].
  pose proof (shouldReevaluateTier_invariant cfg e h data Hinv) as H1.
  destruct (shouldReevaluateTier e data) as [e1 re]. cbn [fst] in H1.
  set (e2 := if re then _ else e1).
  assert (H2 : engineInvariant cfg (e2, h)).
  { subst e2. destruct re; [apply evaluateTierChange_invariant|]; exact H1. }
  clearbody e2.
  set (e3 := match currentRenderer e2 with Some _ => e2 | None => _ end).
  assert (H3 : engineInvariant cfg (e3, h)).
  { subst e3. destruct (currentRenderer e2); [exact H2|].
    unfold switchToFallbackTier. apply switchTier_invariant. exact H2. }
  clearbody e3.
  destruct (currentRenderer e3); [|exact H3].
  destruct rendererThrows; [exact H3|].
  cbn [fst]. apply recordFrameMetrics_invariant. exact H3.
Qed.

(** X16.  After any sequence of registerRenderer, evaluateTierChange,
    forceSwitchTier and render calls on a new engine, whatever the shared
    performance history holds at the start, whatever other engines record
    into it in between and whichever render calls end with the renderer
    throwing, the configuration is unchanged, a current renderer was
    registered for the tier that is current and that tier still has a
    renderer registered, the ring of frame metrics holds at most 60
    entries, and droppedFrames equals performanceViolations. *)
Theorem engine_calls_invariant (cfg : HybridRendererConfig) (caps : DeviceCapabilities)
    (performanceHistory : list PerformanceSnapshot) (calls : list EngineCall) :
  let w := fold_left (runCall caps) calls (createHybridEngine cfg, performanceHistory) in
  let e := fst w in
  config e = cfg /\
  (forall t, currentRenderer e = Some t -> t = currentTier (state e) /\ t ∈ renderers e) /\
  (length (frameMetrics e) <= 60)%nat /\
  droppedFrames e = performanceViolations (state e).
Proof.
  assert (H : forall w0, engineInvariant cfg w0 ->
                         engineInvariant cfg (fold_left (runCall caps) calls w0)).
  { induction calls as [|c calls IH]; intros w0 H0; [exact H0|].
    cbn [fold_left]. apply IH. destruct w0 as [e h].
    destruct c; cbn [runCall fst snd].
    - apply registerRenderer_invariant. exact H0.
    - apply evaluateTierChange_invariant. exact H0.
    - apply forceSwitchTier_invariant. exact H0.
    - apply render_invariant. exact H0.
    - exact (engineInvariant_history cfg e h _ H0). }
  intros w e.
  destruct (H (createHybridEngine cfg, performanceHistory)) as (I1 & I2 & I3 & I4 & I5).
  - unfold engineInvariant. cbn.
    split; [reflexivity|]. split; [reflexivity|]. split; [discriminate|].
    split; [lia | reflexivity].
  - split; [assumption|]. split; [exact I3|]. split; assumption.
Qed.

Lemma evaluateTierChange_target (caps : DeviceCapabilities)
    (h : list PerformanceSnapshot) (now : Q) (e : HybridEngine)
    (args : option (list SeriesData * Q * Q)) :
  evaluateTierChange caps h now e args = (e, None) \/
  exists t why,
    evaluateTierChange caps h now e args = switchTier now e t why /\
    (isTierAvailable caps t = true \/ (t = SVG /\ why = fallback)) /\
    (forall forced, forceRenderer (thresholds (config e)) = Some forced ->
                    t = forced /\ why = manual) /\
    (forceRenderer (thresholds (config e)) = None -> why <> manual).
Proof.
  unfold evaluateTierChange.
  destruct (forceRenderer (thresholds (config e))) as [forced|].
  - destruct (bool_decide (forced <> currentTier (state e))); cbn [andb];
      [|left; reflexivity].
    destruct (isTierAvailable caps forced) eqn:Ea; [|left; reflexivity].
    right. exists forced, manual. split; [reflexivity|]. split; [left; exact Ea|].
    split; [intros f [= <-]; split; reflexivity | discriminate].
  - cbv zeta.
    set (degradeCheck :=
           if autoDegrade (performanceBudgets (config e))
           then match shouldDegradeTier caps h now (currentTier (state e))
                        (targetFrameTime (performanceBudgets (config e)))
                        (degradeFrameThreshold (performanceBudgets (config e))) 1000 with
                | Some degraded => switchTier now e degraded performance
                | None => (e, None)
                end
           else (e, None)).
    assert (Hd : degradeCheck = (e, None) \/
                 exists t why,
                   degradeCheck = switchTier now e t why /\
                   (isTierAvailable caps t = true \/ (t = SVG /\ why = fallback)) /\
                   (forall forced, @None RendererTier = Some forced ->
                                   t = forced /\ why = manual) /\
                   (@None RendererTier = None -> why <> manual)).
    { subst degradeCheck.
      destruct (autoDegrade (performanceBudgets (config e))); [|left; reflexivity].
      destruct (shouldDegradeTier _ _ _ _ _ _ _) as [d|] eqn:Ed; [|left; reflexivity].
      right. exists d, performance. split; [reflexivity|].
      split; [left; apply (shouldDegradeTier_available _ _ _ _ _ _ _ _ Ed)|].
      split; [discriminate | discriminate]. }
    destruct args as [[[data width] height]|]; [|exact Hd].
    destruct (negb (Js.eqb width 0) && negb (Js.eqb height 0)); [|exact Hd].
    destruct (decide _) as [Hne | Heq]; [|exact Hd].
    right. eexists _, _. split; [reflexivity|].
    destruct (getTierRecommendation_target caps h now data width height
                (thresholds (config e))) as [Hman Hav].
    split; [exact Hav|]. split; [discriminate | intros _; exact Hman].
Qed.

(** X17.  evaluateTierChange either returns null and leaves the engine as
    it was, or returns an event from the current tier to a different,
    registered tier that the device supports (SVG as the last-resort
    fallback excepted), makes that tier and its renderer current and emits
    exactly one tierSwitch event; with a forced renderer the target is the
    forced tier and the reason 'manual'. *)
Theorem evaluateTierChange_event (caps : DeviceCapabilities)
    (h : list PerformanceSnapshot) (now : Q) (e : HybridEngine)
    (args : option (list SeriesData * Q * Q)) :
  let r := evaluateTierChange caps h now e args in
  match snd r with
  | None => fst r = e
  | Some ev =>
      from ev = currentTier (state e) /\
      to ev <> currentTier (state e) /\
      to ev ∈ renderers e /\
      (isTierAvailable caps (to ev) = true \/ (to ev = SVG /\ reason ev = fallback)) /\
      (forall forced, forceRenderer (thresholds (config e)) = Some forced ->
                      to ev = forced /\ reason ev = manual) /\
      currentTier (state (fst r)) = to ev /\
      currentRenderer (fst r) = Some (to ev) /\
      emitted (fst r) = emitted e ++ [tierSwitch ev now] /\
      frameMetrics (fst r) = frameMetrics e
  end.
Proof.
  intros r. subst r.
  destruct (evaluateTierChange_target caps h now e args)
    as [-> | (t & why & -> & Hav & Hforced & _)]; [reflexivity|].
  destruct (switchTier_cases now e t why) as [[-> ->] | (ev & -> & H)]; [reflexivity|].
  destruct H as (Hfrom & Hto & Hwhy & Hne & Hin & Ht & Hr & Hem & _ & _ & Hfm & _).
  rewrite Hto, Hwhy.
  split; [exact Hfrom|]. split; [exact Hne|]. split; [exact Hin|]. split; [exact Hav|].
  split; [exact Hforced|]. split; [exact Ht|]. split; [exact Hr|]. split; [exact Hem|].
  exact Hfm.
Qed.

(** forceSwitchTier moves to the tier asked for when the device supports
    it (reason 'manual') and otherwise to its fallback (reason
    'fallback'), never to a higher tier; it returns null and changes
    nothing when that tier is the current one or has no renderer. *)
Lemma forceSwitchTier_event (caps : DeviceCapabilities) (now : Q) (e : HybridEngine)
    (tier : RendererTier) :
  let r := forceSwitchTier caps now e tier in
  match snd r with
  | None => fst r = e
  | Some ev =>
      from ev = currentTier (state e) /\
      to ev = getFallbackTier caps tier /\
      (tierRank (to ev) <= tierRank tier)%nat /\
      (reason ev = manual <-> isTierAvailable caps tier = true) /\
      (reason ev = fallback <-> isTierAvailable caps tier = false) /\
      to ev <> currentTier (state e) /\
      to ev ∈ renderers e /\
      currentTier (state (fst r)) = to ev /\
      currentRenderer (fst r) = Some (to ev) /\
      emitted (fst r) = emitted e ++ [tierSwitch ev now]
  end.
Proof.
  intros r. subst r. unfold forceSwitchTier.
  destruct (getFallbackTier_cases caps tier) as (Hrank & Hsame & _).
  destruct (isTierAvailable caps tier) eqn:Ea; cbn [negb].
  - destruct (switchTier_cases now e tier manual) as [[-> ->] | (ev & -> & H)];
      [reflexivity|].
    destruct H as (Hfrom & Hto & Hwhy & Hne & Hin & Ht & Hr & Hem & _).
    rewrite Hto, Hwhy, (Hsame eq_refl).
    split; [exact Hfrom|]. split; [reflexivity|]. split; [lia|].
    split; [split; reflexivity|]. split; [split; discriminate|].
    split; [exact Hne|]. split; [exact Hin|]. split; [exact Ht|]. split; [exact Hr|].
    exact Hem.
  - destruct (switchTier_cases now e (getFallbackTier caps tier) fallback)
      as [[-> ->] | (ev & -> & H)]; [reflexivity|].
    destruct H as (Hfrom & Hto & Hwhy & Hne & Hin & Ht & Hr & Hem & _).
    rewrite Hto, Hwhy.
    split; [exact Hfrom|]. split; [reflexivity|]. split; [exact Hrank|].
    split; [split; discriminate|]. split; [split; reflexivity|].
    split; [exact Hne|]. split; [exact Hin|]. split; [exact Ht|]. split; [exact Hr|].
    exact Hem.
Qed.

Lemma last_tail_snoc {A} (l : list A) (a : A) (n : nat) :
  last (let pushed := l ++ [a] in if (S n <? length pushed)%nat then tail pushed else pushed)
  = Some a.
Proof.
  cbv zeta. destruct (S n <? length (l ++ [a]))%nat eqn:E; [|apply last_snoc].
  destruct l as [|b l]; [cbn in E; discriminate|].
  cbn [app tail]. apply last_snoc.
Qed.

(** X18.  A render call on a live engine with a current renderer, on a
    frame that is not a 30th frame or whose point count differs from the
    last recorded one by at most 1000, keeps the tier and the renderer,
    advances the frame counter by one and emits no tier switch.  When the
    renderer draws without throwing, the call returns and the newest frame
    metric is the frame just drawn, stamped with the clock reading of
    recordFrameMetrics; when the renderer throws, the exception leaves the
    call and neither a frame metric nor a performance snapshot is
    recorded. *)
Theorem render_keeps_tier (caps : DeviceCapabilities) (clock : RenderClock)
    (rendererThrows : bool) (e : HybridEngine) (h : list PerformanceSnapshot)
    (data : list SeriesData) (width height : Q) (t : RendererTier) :
  isDestroyed e = false ->
  currentRenderer e = Some t ->
  (S (frameCount e) mod 30 <> 0)%nat \/
  (Z.abs (Z.of_nat (totalPointsOf data) - Z.of_nat (dataDensity (state e))) <= 1000)%Z ->
  let r := render caps clock rendererThrows (e, h) data width height in
  let e' := fst (fst r) in
  currentTier (state e') = currentTier (state e) /\
  currentRenderer e' = Some t /\
  frameCount e' = S (frameCount e) /\
  List.filter (fun ev => negb (isViolationEvent ev)) (emitted e')
    = List.filter (fun ev => negb (isViolationEvent ev)) (emitted e) /\
  (rendererThrows = false ->
     snd r = Returned /\
     dataDensity (state e') = totalPointsOf data /\
     last (frameMetrics e')
       = Some (metricOf (config e) (currentTier (state e))
                 (atRecord clock, (atEnd clock - atStart clock)%Q, data))) /\
  (rendererThrows = true ->
     snd r = Threw /\
     dataDensity (state e') = dataDensity (state e) /\
     frameMetrics e' = frameMetrics e /\
     snd (fst r) = h).
Proof.
  intros Hdes Hcur Hquiet r e'. subst e' r. unfold render. rewrite Hdes.
  pose proof (shouldReevaluateTier_fields e data) as Hf. cbv zeta in Hf.
  assert (Hre : snd (shouldReevaluateTier e data) = false).
  { unfold shouldReevaluateTier. cbv zeta. cbn [frameCount].
    destruct (Nat.eqb_spec (S (frameCount e) mod 30) 0) as [Hz | Hnz]; [|reflexivity].
    cbn [snd]. destruct Hquiet as [Hq | Hq]; [contradiction|].
    apply Z.ltb_ge. exact Hq. }
  destruct (shouldReevaluateTier e data) as [e1 re]. cbn [fst snd] in Hf, Hre. subst re.
  destruct Hf as (H1 & H2 & H3 & H4 & H5 & H6 & H7 & H8 & H9).
  rewrite H4, Hcur. rewrite H4, Hcur.
  destruct rendererThrows.
  - cbn [fst snd]. rewrite H2, H4, H5, H8, H9, Hcur.
    split; [reflexivity|]. split; [reflexivity|]. split; [reflexivity|].
    split; [reflexivity|]. split; [discriminate|].
    intros _. repeat split.
  - pose proof (recordFrameMetrics_fields (atRecord clock) e1 h
                  (atEnd clock - atStart clock) data) as Hr.
    pose proof (recordFrameMetrics_spec (atRecord clock) e1 h
                  (atEnd clock - atStart clock) data) as Hs.
    cbv zeta in Hr, Hs.
    destruct (recordFrameMetrics (atRecord clock) (e1, h) (atEnd clock - atStart clock) data)
      as [e2 h2].
    cbn [fst snd] in *.
    destruct Hr as (Rc & Rt & _ & Rr & _ & Rf & Rd & _ & _ & Rem & _).
    destruct Hs as (_ & _ & Rfm).
    rewrite Rt, Rr, Rf, Rd, H2, H4, H5, Hcur.
    split; [reflexivity|]. split; [reflexivity|]. split; [reflexivity|].
    split; [|split; [|discriminate]].
    + rewrite Rem, H9.
      destruct (_ && _); [|reflexivity].
      rewrite List.filter_app. cbn [List.filter isViolationEvent negb].
      apply app_nil_r.
    + intros _. split; [reflexivity|]. split; [reflexivity|].
      rewrite Rfm, H1, H2. apply (last_tail_snoc _ _ 59).
Qed.

Lemma render_keeps_tier_witness :
  let clock := {| atStart := 0; atEvaluate := 1; atFallback := 2; atEnd := 20;
                  atRecord := 21 |} in
  let r := render allTiers clock false (engineOnCanvas, []) [seriesOfPoints [dp 1 2]]
             800 600 in
  currentTier (state (fst (fst r))) = CANVAS /\
  option_map timestamp (last (frameMetrics (fst (fst r)))) = Some 21%Q.
Proof.
  intros clock r.
  destruct (render_keeps_tier allTiers clock false engineOnCanvas []
              [seriesOfPoints [dp 1 2]] 800 600 CANVAS)
    as (Ht & _ & _ & _ & Hok & _).
  - reflexivity.
  - reflexivity.
  - left. vm_compute. discriminate.
  - split; [exact Ht|].
    destruct (Hok eq_refl) as (_ & _ & Hlast).
    subst r. rewrite Hlast. reflexivity.
Defined.
End EngineExtras.

(** ** Hit testing and region queries: further properties *)

Section RendererExtras.
Import Types Render Notions Samples.

Lemma collect_fold {A} (t : A -> bool) (l init : list A) :
  fold_left (fun acc p => if t p then acc ++ [p] else acc) l init
  = init ++ List.filter t l.
Proof.
  revert init. induction l as [|a l IH]; intros init; cbn [fold_left List.filter].
  - rewrite app_nil_r. reflexivity.
  - rewrite IH. destruct (t a); [|reflexivity].
    rewrite <- app_assoc. reflexivity.
Qed.

Lemma collect_groups {A B} (t : A -> bool) (g : B -> list A) (l : list B) (init : list A) :
  fold_left (fun acc b => fold_left (fun acc' p => if t p then acc' ++ [p] else acc') (g b) acc)
    l init
  = init ++ List.filter t (flat_map g l).
Proof.
  rewrite fold_left_flat_map. apply collect_fold.
Qed.

Lemma SVG_getPointsInRegion_filter (data : list SeriesData) (ctx : RenderContext)
    (x1 y1 x2 y2 : Q) :
  SVGRenderer.getPointsInRegion (renderedSVG data ctx) x1 y1 x2 y2
  = List.filter
      (fun p =>
         Js.geb (xScale ctx (dp_x p)) (Js.min2 x1 x2 - left (margin ctx))
         && Js.leb (xScale ctx (dp_x p)) (Js.max2 x1 x2 - left (margin ctx))
         && Js.geb (yScale ctx (dp_y p)) (Js.min2 y1 y2 - top (margin ctx))
         && Js.leb (yScale ctx (dp_y p)) (Js.max2 y1 y2 - top (margin ctx)))
      (shownPoints data).
Proof.
  unfold SVGRenderer.getPointsInRegion, renderedSVG, shownPoints.
  cbn [SVGRenderer.currentContext SVGRenderer.currentData]. cbv zeta.
  rewrite skip_loop_shown.
  rewrite (collect_groups _ s_data). reflexivity.
Qed.

Lemma filter_pointwise {A} (f g : A -> bool) (l : list A) :
  (forall a, In a l -> f a = g a) -> List.filter f l = List.filter g l.
Proof.
  induction l as [|a l IH]; intros H; [reflexivity|]. cbn [List.filter].
  rewrite (H a (or_introl eq_refl)), IH; [reflexivity|].
  intros b Hb. apply H. right. exact Hb.
Qed.

Lemma cellOf_mono (a b : Q) :
  (a <= b)%Q -> (CanvasRenderer.cellOf 20 a <= CanvasRenderer.cellOf 20 b)%Z.
Proof.
  intros H. unfold CanvasRenderer.cellOf. apply Qfloor_resp_le.
  assert (Ea : (a / 20 == a * (1 # 20))%Q) by field.
  assert (Eb : (b / 20 == b * (1 # 20))%Q) by field.
  lra.
Qed.

Lemma cellRange_In (lo hi c : Z) : In c (CanvasRenderer.cellRange lo hi) <-> (lo <= c <= hi)%Z.
Proof.
  unfold CanvasRenderer.cellRange. rewrite <- list_elem_of_In, elem_of_seqZ. lia.
Qed.

Lemma cells_In (lx hx ly hy cx cy : Z) :
  In (cx, cy)
     (a ← CanvasRenderer.cellRange lx hx; b ← CanvasRenderer.cellRange ly hy; [(a, b)])
  <-> (lx <= cx <= hx)%Z /\ (ly <= cy <= hy)%Z.
Proof.
  rewrite <- list_elem_of_In, list_elem_of_bind. split.
  - intros (a & Hab & Ha). apply list_elem_of_bind in Hab. destruct Hab as (b & Hb & Hb').
    apply list_elem_of_singleton in Hb. injection Hb as -> ->.
    apply list_elem_of_In, cellRange_In in Ha. apply list_elem_of_In, cellRange_In in Hb'.
    split; assumption.
  - intros [Hx Hy]. exists cx. split.
    + apply list_elem_of_bind. exists cy. split; [apply list_elem_of_singleton; reflexivity|].
      apply list_elem_of_In, cellRange_In. exact Hy.
    + apply list_elem_of_In, cellRange_In. exact Hx.
Qed.

Lemma cells_NoDup (lx hx ly hy : Z) :
  NoDup (a ← CanvasRenderer.cellRange lx hx; b ← CanvasRenderer.cellRange ly hy; [(a, b)]).
Proof.
  unfold CanvasRenderer.cellRange.
  apply NoDup_bind.
  - intros a1 a2 c _ _ H1 H2.
    apply list_elem_of_bind in H1. destruct H1 as (b1 & H1 & _).
    apply list_elem_of_bind in H2. destruct H2 as (b2 & H2 & _).
    apply list_elem_of_singleton in H1, H2. congruence.
  - intros a _. apply NoDup_bind.
    + intros b1 b2 c _ _ H1 H2. apply list_elem_of_singleton in H1, H2. congruence.
    + intros b _. apply NoDup_singleton.
    + apply NoDup_seqZ.
  - apply NoDup_seqZ.
Qed.

(** Grouping a list by a key and reading the groups of distinct keys
    back gives the elements with one of these keys, each once. *)
Lemma groups_Permutation {A K} `{EqDecision K} (key : A -> K) (keys : list K) (l : list A) :
  NoDup keys ->
  Permutation
    (flat_map (fun k => List.filter (fun a => bool_decide (key a = k)) l) keys)
    (List.filter (fun a => bool_decide (key a ∈ keys)) l).
Proof.
  intros Hnd. induction l as [|a l IH].
  - cbn [List.filter]. clear Hnd. induction keys as [|k keys IHk]; [reflexivity|].
    cbn [flat_map app]. exact IHk.
  - cbn [List.filter].
    assert (Hsplit : forall ks, NoDup ks ->
               Permutation
                 (flat_map (fun k => List.filter (fun a' => bool_decide (key a' = k)) (a :: l)) ks)
                 ((if bool_decide (key a ∈ ks) then [a] else [])
                  ++ flat_map (fun k => List.filter (fun a' => bool_decide (key a' = k)) l) ks)).
    { clear IH Hnd. induction ks as [|k ks IHk]; intros Hnd.
      - cbn. rewrite bool_decide_eq_false_2 by apply not_elem_of_nil. reflexivity.
      - apply NoDup_cons in Hnd. destruct Hnd as [Hnotin Hnd'].
        cbn [flat_map List.filter]. rewrite (IHk Hnd').
        destruct (decide (key a = k)) as [E | E].
        + rewrite (bool_decide_eq_true_2 _ E).
          rewrite (bool_decide_eq_true_2 (key a ∈ k :: ks))
            by (rewrite E; apply list_elem_of_here).
          rewrite (bool_decide_eq_false_2 (key a ∈ ks)) by (rewrite E; exact Hnotin).
          cbn [app]. reflexivity.
        + rewrite (bool_decide_eq_false_2 _ E).
          destruct (decide (key a ∈ ks)) as [Hin | Hin].
          * rewrite (bool_decide_eq_true_2 _ Hin).
            rewrite (bool_decide_eq_true_2 (key a ∈ k :: ks))
              by (apply list_elem_of_further; exact Hin).
            cbn [app]. apply Permutation_sym, Permutation_middle.
          * rewrite (bool_decide_eq_false_2 _ Hin).
            rewrite (bool_decide_eq_false_2 (key a ∈ k :: ks))
              by (rewrite elem_of_cons; intros [? | ?]; [apply E; congruence | contradiction]).
            reflexivity. }
    rewrite (Hsplit keys Hnd).
    destruct (bool_decide (key a ∈ keys)); cbn [app].
    + apply Permutation_cons; [reflexivity | exact IH].
    + exact IH.
Qed.

Lemma filter_Permutation_list {A} (t : A -> bool) (l1 l2 : list A) :
  Permutation l1 l2 -> Permutation (List.filter t l1) (List.filter t l2).
Proof.
  induction 1 as [|a l1 l2 _ IH|a b l|l1 l2 l3 _ IH1 _ IH2]; cbn [List.filter].
  - reflexivity.
  - destruct (t a); [apply Permutation_cons; [reflexivity | exact IH] | exact IH].
  - destruct (t a), (t b); try reflexivity. apply perm_swap.
  - etransitivity; eassumption.
Qed.

Lemma filter_filter_list {A} (f g : A -> bool) (l : list A) :
  List.filter f (List.filter g l) = List.filter (fun a => g a && f a) l.
Proof.
  induction l as [|a l IH]; [reflexivity|]. cbn [List.filter].
  destruct (g a); cbn [List.filter andb]; rewrite IH; reflexivity.
Qed.

(** X21.  CanvasRenderer.getPointsInRegion, which walks the cells of the
    spatial index, returns the same points as the SVG renderer, each as
    often, though possibly in another order. *)
Theorem Canvas_getPointsInRegion_same_points (data : list SeriesData) (ctx : RenderContext)
    (x1 y1 x2 y2 : Q) :
  Permutation
    (CanvasRenderer.getPointsInRegion (renderedCanvas data ctx) x1 y1 x2 y2)
    (SVGRenderer.getPointsInRegion (renderedSVG data ctx) x1 y1 x2 y2).
Proof.
  rewrite SVG_getPointsInRegion_filter.
  unfold CanvasRenderer.getPointsInRegion.
  cbn [renderedCanvas CanvasRenderer.currentContext CanvasRenderer.spatialIndex]. cbv zeta.
  change (CanvasRenderer.hitTestRadius * 2)%Q with 20%Q.
  set (minX := (Js.min2 x1 x2 - left (margin ctx))%Q).
  set (maxX := (Js.max2 x1 x2 - left (margin ctx))%Q).
  set (minY := (Js.min2 y1 y2 - top (margin ctx))%Q).
  set (maxY := (Js.max2 y1 y2 - top (margin ctx))%Q).
  set (t := fun p : DataPoint =>
              Js.geb (xScale ctx (dp_x p)) minX && Js.leb (xScale ctx (dp_x p)) maxX
              && Js.geb (yScale ctx (dp_y p)) minY && Js.leb (yScale ctx (dp_y p)) maxY).
  set (cells := (cx ← CanvasRenderer.cellRange (CanvasRenderer.cellOf 20 minX)
                        (CanvasRenderer.cellOf 20 maxX);
                 cy ← CanvasRenderer.cellRange (CanvasRenderer.cellOf 20 minY)
                        (CanvasRenderer.cellOf 20 maxY);
                 [(cx, cy)])).
  set (index := CanvasRenderer.buildSpatialIndex data (xScale ctx) (yScale ctx)).
  match goal with
  | |- Permutation ?L _ =>
      assert (Hfold :
                L = List.filter t
                      (flat_map
                         (fun k => List.filter
                                     (fun p => bool_decide
                                                 (cellKeyOf (xScale ctx) (yScale ctx) p = k))
                                     (shownPoints data)) cells))
  end.
  { set (g := fun k => List.filter
                         (fun p => bool_decide (cellKeyOf (xScale ctx) (yScale ctx) p = k))
                         (shownPoints data)).
    transitivity ([] ++ List.filter t (flat_map g cells)); [|reflexivity].
    rewrite <- (collect_groups t g cells []). subst g.
    apply fold_left_pointwise. intros acc k. subst index.
    rewrite buildSpatialIndex_lookup.
    destruct (List.filter _ (shownPoints data)); reflexivity. }
  etransitivity; [rewrite Hfold; reflexivity|].
  etransitivity.
  - apply filter_Permutation_list. apply groups_Permutation. apply cells_NoDup.
  - rewrite filter_filter_list.
    erewrite filter_pointwise; [reflexivity|].
    intros p _. cbv beta.
    destruct (t p) eqn:Et; [|apply andb_false_r].
    rewrite andb_true_r. apply bool_decide_eq_true_2.
    unfold t in Et. rewrite !andb_true_iff in Et. destruct Et as [[[H1 H2] H3] H4].
    apply geb_true in H1, H3. apply leb_true in H2, H4.
    unfold cellKeyOf. change (CanvasRenderer.hitTestRadius * 2)%Q with 20%Q.
    apply list_elem_of_In, cells_In. split; split; apply cellOf_mono; assumption.
Qed.

Lemma cellOf_iff (a : Q) (c : Z) :
  CanvasRenderer.cellOf 20 a = c <-> (20 * inject_Z c <= a < 20 * inject_Z c + 20)%Q.
Proof.
  unfold CanvasRenderer.cellOf.
  assert (Ea : (a / 20 == a * (1 # 20))%Q) by field.
  pose proof (Qfloor_le (a / 20)) as H1. pose proof (Qlt_floor (a / 20)) as H2.
  rewrite inject_Z_plus in H2. change (inject_Z 1) with 1%Q in H2.
  split.
  - intros <-. split; lra.
  - intros [Hlo Hhi].
    assert (Hc1 : (inject_Z c < inject_Z (Qfloor (a / 20) + 1))%Q).
    { rewrite inject_Z_plus. change (inject_Z 1) with 1%Q. lra. }
    assert (Hc2 : (inject_Z (Qfloor (a / 20)) < inject_Z (c + 1))%Q).
    { rewrite inject_Z_plus. change (inject_Z 1) with 1%Q. lra. }
    rewrite <- Zlt_Qlt in Hc1, Hc2. lia.
Qed.

(** X24.  The spatial index of the Canvas renderer files under cell (cx,
    cy) exactly the points of the shown series that project into the
    square [20cx, 20cx + 20) x [20cy, 20cy + 20), in dataset order, and
    never holds an empty cell. *)
Theorem buildSpatialIndex_cells (data : list SeriesData) (xs ys : Q -> Q) (cx cy : Z) :
  let index := CanvasRenderer.buildSpatialIndex data xs ys in
  index !! (cx, cy) <> Some [] /\
  exists keep : DataPoint -> bool,
    default [] (index !! (cx, cy)) = List.filter keep (shownPoints data) /\
    forall p, keep p = true <->
              (20 * inject_Z cx <= xs (dp_x p) < 20 * inject_Z cx + 20)%Q /\
              (20 * inject_Z cy <= ys (dp_y p) < 20 * inject_Z cy + 20)%Q.
Proof.
  intros index. subst index. rewrite buildSpatialIndex_lookup.
  split.
  - destruct (List.filter _ (shownPoints data)); discriminate.
  - exists (fun p => bool_decide (cellKeyOf xs ys p = (cx, cy))). split.
    + destruct (List.filter _ (shownPoints data)); reflexivity.
    + intros p. rewrite bool_decide_eq_true. unfold cellKeyOf.
      change (CanvasRenderer.hitTestRadius * 2)%Q with 20%Q.
      rewrite <- !cellOf_iff. split.
      * intros [= <- <-]. split; reflexivity.
      * intros [<- <-]. reflexivity.
Qed.
End RendererExtras.

(** ** The accessibility fallbacks: further properties *)

Section AccessibilityExtras.
Import Types Accessibility Notions Samples.

Lemma table_loop_stuck (maxRows : Q) (items : list TableRow) (rows : list TableRow)
    (count : nat) :
  fold_left
    (fun '(rows, truncated, count) r =>
       if (truncated : bool) then (rows, truncated, count)
       else if Js.geb (Js.of_nat count) maxRows then (rows, true, count)
       else (rows ++ [r], false, S count))
    items (rows, true, count)
  = (rows, true, count).
Proof. induction items as [|r items IH]; [reflexivity|]. cbn [fold_left]. exact IH. Qed.

Lemma table_loop_spec (maxRows : Q) (items : list TableRow) (rows : list TableRow) :
  exists j truncated,
    fold_left
      (fun '(rows, truncated, count) r =>
         if (truncated : bool) then (rows, truncated, count)
         else if Js.geb (Js.of_nat count) maxRows then (rows, true, count)
         else (rows ++ [r], false, S count))
      items (rows, false, length rows)
    = (rows ++ take j items, truncated, (length rows + j)%nat) /\
    (j <= length items)%nat /\
    (truncated = true <-> (j < length items)%nat) /\
    (truncated = true -> (maxRows <= Js.of_nat (length rows + j))%Q) /\
    (forall i, (length rows <= i < length rows + j)%nat -> (Js.of_nat i < maxRows)%Q).
Proof.
  revert rows. induction items as [|r items IH]; intros rows.
  - exists 0%nat, false. cbn [fold_left take length]. rewrite app_nil_r, Nat.add_0_r.
    split; [reflexivity|]. split; [lia|]. split; [split; [discriminate | lia]|].
    split; [discriminate|]. intros i Hi. lia.
  - cbn [fold_left].
    destruct (Js.geb (Js.of_nat (length rows)) maxRows) eqn:E.
    + rewrite table_loop_stuck. exists 0%nat, true.
      cbn [take length]. rewrite app_nil_r, Nat.add_0_r.
      split; [reflexivity|]. split; [lia|]. split; [split; [lia | reflexivity]|].
      split; [intros _; apply geb_true in E; exact E|]. intros i Hi. lia.
    + destruct (IH (rows ++ [r])) as (j & t & Hfold & Hj & Ht & Hmax & Hidx).
      rewrite length_app in Hfold, Hmax, Hidx. cbn [length] in Hfold, Hmax, Hidx.
      replace (S (length rows)) with (length rows + 1)%nat by lia.
      exists (S j), t. cbn [take length].
      split.
      { rewrite Hfold. rewrite <- app_assoc. cbn [app].
        replace (length rows + 1 + j)%nat with (length rows + S j)%nat by lia.
        reflexivity. }
      split; [lia|]. split; [rewrite Ht; lia|].
      split.
      { intros Htt. specialize (Hmax Htt).
        replace (length rows + S j)%nat with (length rows + 1 + j)%nat by lia. exact Hmax. }
      intros i Hi. destruct (Nat.eq_dec i (length rows)) as [-> | Hne].
      * apply Qnot_le_lt. intros Hle. apply geb_true in Hle. congruence.
      * apply Hidx. lia.
Qed.

Lemma generateDataTable_loop (data : list SeriesData) (maxRows : Q) :
  fold_left
    (fun '(rows, truncated, count) series =>
       if (truncated : bool) then (rows, truncated, count)
       else
         fold_left
           (fun '(rows, truncated, count) point =>
              if (truncated : bool) then (rows, truncated, count)
              else if Js.geb (Js.of_nat count) maxRows then (rows, true, count)
              else
                (rows ++ [{| row_series := s_name series;
                             row_timestamp := dp_x point;
                             row_value := dp_y point;
                             row_id := dp_id point |}],
                 false, S count))
           (s_data series) (rows, truncated, count))
    data ([], false, 0%nat)
  = fold_left
      (fun '(rows, truncated, count) r =>
         if (truncated : bool) then (rows, truncated, count)
         else if Js.geb (Js.of_nat count) maxRows then (rows, true, count)
         else (rows ++ [r], false, S count))
      (allRows data) ([], false, 0%nat).
Proof.
  unfold allRows. rewrite <- fold_left_flat_map.
  apply fold_left_pointwise. intros [[rows truncated] count] s.
  rewrite <- fold_left_map_arg.
  destruct truncated.
  - clear. induction (s_data s) as [|p l IH]; [reflexivity|]. cbn [fold_left]. exact IH.
  - apply fold_left_pointwise. intros [[rows' truncated'] count'] p. reflexivity.
Qed.

(** X25.  The rows of generateDataTable are a prefix of the rows of all
    points of all series (hidden ones included) in dataset order, and
    truncated is set exactly when points are left out; for a whole number
    maxRows the rows are the first maxRows points. *)
Theorem generateDataTable_prefix (data : list SeriesData) (maxRows : Q) :
  let table := generateDataTable data maxRows in
  let rows := snd (fst table) in
  let truncated := snd table in
  rows = take (length rows) (allRows data) /\
  (truncated = true <-> (length rows < length (allRows data))%nat) /\
  (truncated = true -> (maxRows <= Js.of_nat (length rows))%Q) /\
  (forall i, (i < length rows)%nat -> (Js.of_nat i < maxRows)%Q) /\
  (forall n : nat, (maxRows == Js.of_nat n)%Q ->
                   rows = take n (allRows data) /\
                   truncated = (n <? length (allRows data))%nat).
Proof.
  intros table rows truncated.
  assert (H : exists j, rows = take j (allRows data) /\
                        (j <= length (allRows data))%nat /\
                        (truncated = true <-> (j < length (allRows data))%nat) /\
                        (truncated = true -> (maxRows <= Js.of_nat j)%Q) /\
                        (forall i, (i < j)%nat -> (Js.of_nat i < maxRows)%Q)).
  { subst rows truncated table. unfold generateDataTable.
    destruct data as [|s data].
    - exists 0%nat. cbn. split; [reflexivity|]. split; [lia|].
      split; [split; [discriminate | lia]|]. split; [discriminate|]. intros i Hi. lia.
    - cbn [length Nat.eqb]. rewrite generateDataTable_loop.
      destruct (table_loop_spec maxRows (allRows (s :: data)) [])
        as (j & t & Hfold & Hj & Ht & Hmax & Hidx).
      cbn [length app Nat.add] in Hfold, Hmax, Hidx. rewrite Hfold. cbn [fst snd].
      exists j. split; [reflexivity|]. split; [exact Hj|]. split; [exact Ht|].
      split; [exact Hmax|]. intros i Hi. apply Hidx. lia. }
  destruct H as (j & Hrows & Hj & Ht & Hmax & Hidx).
  assert (Hlen : length rows = j).
  { rewrite Hrows, length_take. lia. }
  rewrite Hlen. clear Hlen. split; [exact Hrows|]. split; [exact Ht|]. split; [exact Hmax|].
  split; [exact Hidx|].
  intros n Hn.
  assert (Hjn : (j <= n)%nat).
  { destruct j as [|j']; [lia|].
    assert (Hi : (Js.of_nat j' < maxRows)%Q) by (apply Hidx; lia).
    rewrite Hn in Hi. unfold Js.of_nat in Hi. rewrite <- Zlt_Qlt in Hi. lia. }
  destruct truncated eqn:Et.
  - assert (Hnj : (n <= j)%nat).
    { specialize (Hmax eq_refl). rewrite Hn in Hmax. unfold Js.of_nat in Hmax.
      rewrite <- Zle_Qle in Hmax. lia. }
    assert (j = n) by lia. subst j. split; [exact Hrows|].
    symmetry. apply Nat.ltb_lt. apply Ht. reflexivity.
  - assert (Hall : ~ (j < length (allRows data))%nat).
    { intros Hlt. apply Ht in Hlt. discriminate. }
    assert (j = length (allRows data)) by lia. subst j.
    split.
    + rewrite Hrows. rewrite !firstn_all2 by lia. reflexivity.
    + symmetry. apply Nat.ltb_ge. lia.
Qed.

Lemma generateDataTable_prefix_witness :
  let data := [seriesOfPoints [dp 1 10; dp 2 20; dp 3 30]] in
  snd (fst (generateDataTable data 2)) = take 2 (allRows data) /\
  snd (generateDataTable data 2) = true.
Proof.
  intros data.
  destruct (generateDataTable_prefix data 2) as (_ & _ & _ & _ & H).
  apply (H 2%nat). reflexivity.
Defined.

Lemma fold_Zmin_le (vs : list Z) (v0 : Z) :
  (fold_left Z.min vs v0 <= v0)%Z /\
  (forall v, In v vs -> (fold_left Z.min vs v0 <= v)%Z).
Proof.
  revert v0. induction vs as [|w vs IH]; intros v0; cbn [fold_left].
  - split; [lia | intros v []].
  - destruct (IH (Z.min v0 w)) as [H0 Hin]. split; [lia|].
    intros v [<- | Hv]; [lia | apply Hin, Hv].
Qed.

Lemma fold_Zmax_ge (vs : list Z) (v0 : Z) :
  (v0 <= fold_left Z.max vs v0)%Z /\
  (forall v, In v vs -> (v <= fold_left Z.max vs v0)%Z).
Proof.
  revert v0. induction vs as [|w vs IH]; intros v0; cbn [fold_left].
  - split; [lia | intros v []].
  - destruct (IH (Z.max v0 w)) as [H0 Hin]. split; [lia|].
    intros v [<- | Hv]; [lia | apply Hin, Hv].
Qed.

Lemma minZ_of_le (vs : list Z) (v : Z) : In v vs -> (Js.minZ_of vs <= v)%Z.
Proof.
  destruct vs as [|v0 vs]; [intros []|]. cbn [Js.minZ_of].
  destruct (fold_Zmin_le vs v0) as [H0 Hin].
  intros [<- | Hv]; [exact H0 | apply Hin, Hv].
Qed.

Lemma maxZ_of_ge (vs : list Z) (v : Z) : In v vs -> (v <= Js.maxZ_of vs)%Z.
Proof.
  destruct vs as [|v0 vs]; [intros []|]. cbn [Js.maxZ_of].
  destruct (fold_Zmax_ge vs v0) as [H0 Hin].
  intros [<- | Hv]; [exact H0 | apply Hin, Hv].
Qed.

Lemma step_summaryInvariant (acc : Acc) (seen : list SeriesData) (s : SeriesData) :
  summaryInvariant acc seen -> summaryInvariant (step acc s) (seen ++ [s]).
Proof.
  intros (Itot & Ir & Itmin & Itmax & Irange & Imin & Imax).
  unfold summaryInvariant. cbv zeta in *.
  rewrite List.flat_map_app. cbn [flat_map]. rewrite app_nil_r.
  unfold step. cbv zeta.
  destruct (s_data s) as [|p0 ps] eqn:Ed.
  - cbn [length Nat.eqb acc_totalPoints acc_range acc_timeMin acc_timeMax].
    rewrite app_nil_r, Nat.add_0_r.
    split; [exact Itot|]. split; [exact Ir|]. split; [exact Itmin|]. split; [exact Itmax|].
    split; [exact Irange|]. split; [exact Imin | exact Imax].
  - rewrite <- Ed.
    assert (Hne : (length (s_data s) =? 0)%nat = false) by (rewrite Ed; reflexivity).
    rewrite Hne. cbn [acc_totalPoints acc_range acc_timeMin acc_timeMax].
    assert (Hnil : flat_map s_data seen ++ s_data s <> []).
    { rewrite Ed. intros H. apply app_eq_nil in H. destruct H; discriminate. }
    split; [rewrite length_app, Itot; reflexivity|].
    split; [split; [discriminate | intros H; contradiction]|].
    split; [split; [discriminate | intros H; contradiction]|].
    split; [split; [discriminate | intros H; contradiction]|].
    split; [|split].
    + intros lo hi Hrange q Hq.
      assert (Hs : forall q', In q' (s_data s) ->
                     (Js.min_of (map dp_y (s_data s)) <= dp_y q'
                      <= Js.max_of (map dp_y (s_data s)))%Q).
      { intros q' Hq'. split; [apply min_of_le | apply max_of_ge];
          apply List.in_map; exact Hq'. }
      destruct (acc_range acc) as [[gmin gmax]|] eqn:Ea.
      * injection Hrange as <- <-.
        pose proof (min2_le_l gmin (Js.min_of (map dp_y (s_data s)))).
        pose proof (min2_le_r gmin (Js.min_of (map dp_y (s_data s)))).
        pose proof (max2_ge_l gmax (Js.max_of (map dp_y (s_data s)))).
        pose proof (max2_ge_r gmax (Js.max_of (map dp_y (s_data s)))).
        apply in_app_or in Hq. destruct Hq as [Hq | Hq].
        -- pose proof (Irange gmin gmax eq_refl q Hq). lra.
        -- pose proof (Hs q Hq). lra.
      * injection Hrange as <- <-.
        apply in_app_or in Hq. destruct Hq as [Hq | Hq]; [|apply Hs; exact Hq].
        destruct Ir as [Ir _]. rewrite (Ir eq_refl) in Hq. destruct Hq.
    + intros lo Hlo q Hq.
      assert (Hs : forall q', In q' (s_data s) ->
                     (Js.minZ_of (map (fun p => timeOf (dp_x p)) (s_data s))
                      <= timeOf (dp_x q'))%Z).
      { intros q' Hq'. apply minZ_of_le.
        apply (List.in_map (fun p => timeOf (dp_x p))). exact Hq'. }
      destruct (acc_timeMin acc) as [t|] eqn:Ea.
      * apply in_app_or in Hq.
        destruct (Z.ltb_spec (Js.minZ_of (map (fun p => timeOf (dp_x p)) (s_data s))) t);
          injection Hlo as <-; destruct Hq as [Hq | Hq];
          try (pose proof (Imin t eq_refl q Hq)); try (pose proof (Hs q Hq)); lia.
      * injection Hlo as <-.
        apply in_app_or in Hq. destruct Hq as [Hq | Hq]; [|apply Hs; exact Hq].
        destruct Itmin as [It _]. rewrite (It eq_refl) in Hq. destruct Hq.
    + intros hi Hhi q Hq.
      assert (Hs : forall q', In q' (s_data s) ->
                     (timeOf (dp_x q')
                      <= Js.maxZ_of (map (fun p => timeOf (dp_x p)) (s_data s)))%Z).
      { intros q' Hq'. apply maxZ_of_ge.
        apply (List.in_map (fun p => timeOf (dp_x p))). exact Hq'. }
      destruct (acc_timeMax acc) as [t|] eqn:Ea.
      * apply in_app_or in Hq.
        destruct (Z.ltb_spec t (Js.maxZ_of (map (fun p => timeOf (dp_x p)) (s_data s))));
          injection Hhi as <-; destruct Hq as [Hq | Hq];
          try (pose proof (Imax t eq_refl q Hq)); try (pose proof (Hs q Hq)); lia.
      * injection Hhi as <-.
        apply in_app_or in Hq. destruct Hq as [Hq | Hq]; [|apply Hs; exact Hq].
        destruct Itmax as [It _]. rewrite (It eq_refl) in Hq. destruct Hq.
Qed.

Lemma fold_step_summaryInvariant (data seen : list SeriesData) (acc : Acc) :
  summaryInvariant acc seen -> summaryInvariant (fold_left step data acc) (seen ++ data).
Proof.
  revert seen acc. induction data as [|s data IH]; intros seen acc H; cbn [fold_left].
  - rewrite app_nil_r. exact H.
  - replace (seen ++ s :: data) with ((seen ++ [s]) ++ data)
      by (rewrite <- app_assoc; reflexivity).
    apply IH. apply step_summaryInvariant. exact H.
Qed.

(** X26.  generateDataSummary counts all series and all their points,
    reports at most 10 anomalies, and its value and time ranges bound the
    value and the time of every point; for a non-empty dataset the ranges
    are unset exactly when no series has a point. *)
Theorem generateDataSummary_ranges (data : list SeriesData) :
  let summary := generateDataSummary data in
  let points := flat_map s_data data in
  seriesCount summary = length data /\
  totalPoints summary = length points /\
  (length (anomalies summary) <= 10)%nat /\
  (data <> [] -> (valueRange summary = None <-> points = []) /\
                 (timeRange summary = None <-> points = [])) /\
  (forall lo hi, valueRange summary = Some (lo, hi) ->
                 forall p, In p points -> (lo <= dp_y p <= hi)%Q) /\
  (forall lo hi, timeRange summary = Some (lo, hi) ->
                 forall p, In p points -> (lo <= timeOf (dp_x p) <= hi)%Z).
Proof.
  intros summary points. subst summary points. unfold generateDataSummary.
  destruct data as [|s data].
  - cbn. split; [reflexivity|]. split; [reflexivity|]. split; [lia|].
    split; [intros H; congruence|]. split; intros lo hi _ p [].
  - cbn [length Nat.eqb].
    set (acc0 := {| acc_totalPoints := 0; acc_range := None; acc_timeMin := None;
                    acc_timeMax := None; acc_anomalies := []; acc_trends := [] |}).
    assert (H0 : summaryInvariant acc0 []).
    { unfold summaryInvariant. cbn. split; [reflexivity|].
      split; [split; reflexivity|]. split; [split; reflexivity|].
      split; [split; reflexivity|]. split; [discriminate|]. split; discriminate. }
    pose proof (fold_step_summaryInvariant (s :: data) [] acc0 H0) as H.
    cbn [app] in H. unfold summaryInvariant in H. cbv zeta in H.
    destruct H as (Itot & Ir & Itmin & Itmax & Irange & Imin & Imax).
    cbn [seriesCount totalPoints anomalies valueRange timeRange].
    split; [reflexivity|]. split; [exact Itot|].
    split; [unfold Js.slice0; change (0 <=? 10)%Z with true; cbv iota;
            change (Z.to_nat 10) with 10%nat; rewrite length_take; lia|].
    split; [intros _; split; [exact Ir|]|split; [exact Irange|]].
    + destruct (acc_timeMin (fold_left step (s :: data) acc0)) as [lo|] eqn:E1,
               (acc_timeMax (fold_left step (s :: data) acc0)) as [hi|] eqn:E2.
      * split; [discriminate|]. intros Hp. apply Itmin in Hp. discriminate.
      * split; [intros _; apply Itmax; reflexivity | reflexivity].
      * split; [intros _; apply Itmin; reflexivity | reflexivity].
      * split; [intros _; apply Itmin; reflexivity | reflexivity].
    + intros lo hi Ht p Hp.
      destruct (acc_timeMin (fold_left step (s :: data) acc0)) as [lo'|] eqn:E1;
        [|discriminate].
      destruct (acc_timeMax (fold_left step (s :: data) acc0)) as [hi'|] eqn:E2;
        [|discriminate].
      injection Ht as <- <-. split; [apply (Imin lo' eq_refl p Hp) | apply (Imax hi' eq_refl p Hp)].
Qed.

Lemma generateDataSummary_ranges_witness :
  (10 <= dp_y (dp 2 20) <= 30)%Q.
Proof.
  destruct (generateDataSummary_ranges [seriesOfPoints [dp 1 10; dp 2 20; dp 3 30]])
    as (_ & _ & _ & _ & H & _).
  apply (H 10%Q 30%Q); [reflexivity|]. right. left. reflexivity.
Defined.

Lemma step_trends (acc : Acc) (s : SeriesData) :
  acc_trends (step acc s) = acc_trends acc ++ trendOf s.
Proof.
  unfold step, trendOf, seriesAverage, seriesValues. cbv zeta.
  destruct (s_data s) as [|p0 ps] eqn:Ed.
  - cbn [length Nat.eqb acc_trends]. unfold seriesTrend. rewrite Ed.
    rewrite app_nil_r. reflexivity.
  - cbn [length Nat.eqb acc_trends]. reflexivity.
Qed.

Lemma fold_step_trends (data : list SeriesData) (acc : Acc) :
  acc_trends (fold_left step data acc) = acc_trends acc ++ flat_map trendOf data.
Proof.
  revert acc. induction data as [|s data IH]; intros acc; cbn [fold_left flat_map].
  - rewrite app_nil_r. reflexivity.
  - rewrite IH, step_trends, <- app_assoc. reflexivity.
Qed.

End AccessibilityExtras.

(** ** The interaction bridge *)

Section InteractionExtras.
Import Types Render InteractionBridge Notions Samples.

Lemma sameXY_iff (point p : DataPoint) : sameXY point p = true <-> sameCoordinates p point.
Proof. unfold sameXY. rewrite andb_true_iff, !eqb_true. reflexivity. Qed.

Lemma findIndex_None {A} (f : A -> bool) (l : list A) :
  findIndex f l = None <-> forall a, In a l -> f a = false.
Proof.
  induction l as [|a l IH]; cbn [findIndex].
  - split; [intros _ a [] | reflexivity].
  - destruct (f a) eqn:E.
    + split; [discriminate|]. intros H. specialize (H a (or_introl eq_refl)). congruence.
    + destruct (findIndex f l) as [i|]; cbn [option_map].
      * split; [discriminate|]. intros H. exfalso.
        assert (Hn : Some i = None).
        { apply (proj2 IH). intros b Hb. apply H. right. exact Hb. }
        discriminate Hn.
      * split; [|reflexivity]. intros _ b [<- | Hb]; [exact E|].
        exact (proj1 IH eq_refl b Hb).
Qed.

Lemma findIndex_snoc {A} (f : A -> bool) (l : list A) (a : A) :
  (forall b, In b l -> f b = false) -> f a = true ->
  findIndex f (l ++ [a]) = Some (length l).
Proof.
  intros Hl Ha. induction l as [|b l IH]; cbn [app findIndex length].
  - rewrite Ha. reflexivity.
  - rewrite (Hl b (or_introl eq_refl)). rewrite IH; [reflexivity|].
    intros c Hc. apply Hl. right. exact Hc.
Qed.

Lemma delete_snoc {A} (l : list A) (a : A) : delete (length l) (l ++ [a]) = l.
Proof.
  induction l as [|b l IH]; [reflexivity|]. cbn [app length].
  change (delete (S (length l)) (b :: l ++ [a])) with (b :: delete (length l) (l ++ [a])).
  rewrite IH. reflexivity.
Qed.

(** X28.  Clicking a point that is not selected selects it; a second click
    at the same place deselects it again when it comes no sooner than
    doubleClickThresholdMs after the first, and is ignored altogether when
    it comes sooner. *)
Theorem handleClick_toggle (b : t) (r : Renderer) (h : HitTestResult) (x y : Q)
    (now1 now2 : Z) :
  renderer b = Some r ->
  lastClick b = None ->
  hitTest r x y (selectionRadius (config b)) = Some h ->
  (forall p, In p (selection b) -> ~ sameCoordinates p (point h)) ->
  let b1 := handleClick b x y now1 in
  let b2 := handleClick b1 x y now2 in
  selection b1 = selection b ++ [point h] /\
  ((doubleClickThresholdMs (config b) <= inject_Z (now2 - now1))%Q ->
   selection b2 = selection b) /\
  ((inject_Z (now2 - now1) < doubleClickThresholdMs (config b))%Q -> b2 = b1).
Proof.
  intros Hr Hlast Hhit Hfresh b1 b2.
  assert (Hnone : findIndex (sameXY (point h)) (selection b) = None).
  { apply findIndex_None. intros p Hp. apply not_true_is_false.
    intros E. apply sameXY_iff in E. apply (Hfresh p Hp E). }
  assert (Hb1 : b1 = set_selection
                       (set_lastClick b (Some {| time := now1; click_x := x; click_y := y |}))
                       (selection b ++ [point h])).
  { subst b1. unfold handleClick. rewrite Hr, Hlast. cbv zeta. cbv iota.
    rewrite Hhit. cbn [set_lastClick selection]. rewrite Hnone. reflexivity. }
  split; [rewrite Hb1; reflexivity|].
  assert (Hnear : Js.ltb (Qabs (x - x)) 5 = true).
  { apply ltb_true. assert (E : (x - x == 0)%Q) by ring. rewrite E. reflexivity. }
  assert (Hnear' : Js.ltb (Qabs (y - y)) 5 = true).
  { apply ltb_true. assert (E : (y - y == 0)%Q) by ring. rewrite E. reflexivity. }
  split.
  - intros Hslow. subst b2. rewrite Hb1. unfold handleClick.
    cbn [set_selection set_lastClick renderer lastClick config time click_x click_y selection].
    rewrite Hr. cbv zeta.
    assert (Ht : Js.ltb (inject_Z (now2 - now1)) (doubleClickThresholdMs (config b)) = false).
    { apply ltb_false. exact Hslow. }
    rewrite Ht. cbn [andb]. rewrite Hhit.
    rewrite findIndex_snoc.
    + cbn [set_selection selection]. apply delete_snoc.
    + apply findIndex_None. exact Hnone.
    + apply sameXY_iff. split; reflexivity.
  - intros Hfast. subst b2. rewrite Hb1. unfold handleClick.
    cbn [set_selection set_lastClick renderer lastClick config time click_x click_y selection].
    rewrite Hr. cbv zeta.
    assert (Ht : Js.ltb (inject_Z (now2 - now1)) (doubleClickThresholdMs (config b)) = true).
    { apply ltb_true. exact Hfast. }
    rewrite Ht, Hnear, Hnear'. reflexivity.
Qed.

Lemma handleClick_toggle_witness :
  let r := ofSVG (renderedSVG [seriesOfPoints [dp 5 5]] marginContext) in
  let b := attach (createInteractionBridge DEFAULT_INTERACTION_CONFIG) r in
  selection (handleClick (handleClick b 160 110 1000) 160 110 2000) = [] /\
  selection (handleClick (handleClick b 160 110 1000) 160 110 1100) = [dp 5 5].
Proof.
  intros r b.
  assert (Hhit : exists h, hitTest r 160 110 (selectionRadius (config b)) = Some h /\
                           point h = dp 5 5).
  { eexists. split; [vm_compute; reflexivity | reflexivity]. }
  destruct Hhit as (h & Hhit & Hp).
  split.
  - destruct (handleClick_toggle b r h 160 110 1000 2000) as (_ & H & _);
      [reflexivity | reflexivity | exact Hhit | intros p [] |].
    apply H. vm_compute. discriminate.
  - destruct (handleClick_toggle b r h 160 110 1000 1100) as (H1 & _ & H);
      [reflexivity | reflexivity | exact Hhit | intros p [] |].
    rewrite H; [|vm_compute; reflexivity]. rewrite H1, Hp. reflexivity.
Defined.

Lemma fold_updateBrush (moves : list (Q * Q)) (b : t) (start : Q * Q) :
  isBrushing b = true -> brushStart b = Some start ->
  forall current, brushCurrent b = Some current ->
  let b' := fold_left (fun b0 '(x, y) => updateBrush b0 x y) moves b in
  isBrushing b' = true /\ brushStart b' = Some start /\
  brushCurrent b' = Some (brushEnd current moves) /\
  renderer b' = renderer b /\ selection b' = selection b /\ config b' = config b /\
  lastClick b' = lastClick b.
Proof.
  revert b. induction moves as [|[x y] moves IH]; intros b Hb Hs current Hc; cbn [fold_left].
  - repeat split; assumption.
  - assert (Hu : updateBrush b x y = set_brush b true (Some start) (Some (x, y))).
    { unfold updateBrush. rewrite Hb, Hs. reflexivity. }
    rewrite Hu.
    destruct (IH (set_brush b true (Some start) (Some (x, y))) eq_refl eq_refl (x, y) eq_refl)
      as (H1 & H2 & H3 & H4 & H5 & H6 & H7).
    split; [exact H1|]. split; [exact H2|]. split; [|repeat split; assumption].
    rewrite H3. unfold brushEnd. rewrite last_cons.
    destruct (last moves); reflexivity.
Qed.

(** X30.  A brush started with startBrush and moved with updateBrush ends,
    on endBrush, by returning and selecting the renderer's points in the
    region between the start and the last position; brushing is then off
    and a further endBrush returns no points. *)
Theorem brush_selects_region (b : t) (r : Renderer) (x1 y1 : Q) (moves : list (Q * Q)) :
  renderer b = Some r ->
  let brushed := fold_left (fun b0 '(x, y) => updateBrush b0 x y) moves (startBrush b x1 y1) in
  let result := endBrush brushed in
  let corner := brushEnd (x1, y1) moves in
  snd result = getPointsInRegion r x1 y1 (fst corner) (snd corner) /\
  selection (fst result) = snd result /\
  isBrushing (fst result) = false /\
  endBrush (fst result) = (fst result, []).
Proof.
  intros Hr brushed result corner.
  destruct (fold_updateBrush moves (startBrush b x1 y1) (x1, y1) eq_refl eq_refl
              (x1, y1) eq_refl) as (H1 & H2 & H3 & H4 & _).
  fold brushed in H1, H2, H3, H4. cbn [startBrush set_brush renderer] in H4.
  rewrite Hr in H4. fold corner in H3.
  assert (Hres : result = (set_brush (set_selection brushed
                                        (getPointsInRegion r x1 y1 (fst corner) (snd corner)))
                             false None None,
                           getPointsInRegion r x1 y1 (fst corner) (snd corner))).
  { subst result. unfold endBrush. rewrite H1, H2, H3, H4.
    destruct corner as [x2 y2]. reflexivity. }
  rewrite Hres. cbn [fst snd set_brush set_selection selection isBrushing].
  split; [reflexivity|]. split; [reflexivity|]. split; [reflexivity|].
  unfold endBrush. cbn [set_brush set_selection isBrushing brushStart brushCurrent]. reflexivity.
Qed.

Lemma brush_selects_region_witness :
  let r := ofSVG (renderedSVG [seriesOfPoints [dp 5 5]] marginContext) in
  let b := attach (createInteractionBridge DEFAULT_INTERACTION_CONFIG) r in
  let brushed := updateBrush (updateBrush (startBrush b 0 0) 50 50) 300 300 in
  snd (endBrush brushed) = getPointsInRegion r 0 0 300 300.
Proof.
  intros r b brushed.
  apply (brush_selects_region b r 0 0 [(50, 50); (300, 300)]%Q). reflexivity.
Defined.
End InteractionExtras.

(** ** The laws of rounded arithmetic hold of IEEE doubles *)

Module Float64Facts.
Import PrimFloat FloatOps FloatAxioms SpecFloat Float64.

Lemma SFltb_key (f g : spec_float) :
  SFltb f g = true <-> exists a b, key f = Some a /\ key g = Some b /\ below a b.
Proof.
  unfold SFltb.
  destruct f as [[]|[]| |[] m1 e1], g as [[]|[]| |[] m2 e2]; cbn [SFcompare key];
    try (split; [discriminate | intros (a & b & Ha & Hb & Hab); try discriminate;
                                 injection Ha as <-; injection Hb as <-; cbn in Hab; lia]);
    try (split; [intros _; eexists _, _; repeat split; cbn; lia | reflexivity]).
  - change (Pos.compare_cont Eq m1 m2) with (Pos.compare m1 m2).
    destruct (Z.compare_spec e1 e2) as [He|He|He], (Pos.compare_spec m1 m2) as [Hm|Hm|Hm];
      cbn [CompOpp];
      (split; [ try discriminate; intros _; eexists _, _; repeat split; cbn; lia
              | intros (a & b & Ha & Hb & Hab); injection Ha as <-; injection Hb as <-;
                cbn in Hab; try reflexivity; lia ]).
  - change (Pos.compare_cont Eq m1 m2) with (Pos.compare m1 m2).
    destruct (Z.compare_spec e1 e2) as [He|He|He], (Pos.compare_spec m1 m2) as [Hm|Hm|Hm];
      (split; [ try discriminate; intros _; eexists _, _; repeat split; cbn; lia
              | intros (a & b & Ha & Hb & Hab); injection Ha as <-; injection Hb as <-;
                cbn in Hab; try reflexivity; lia ]).
Qed.

Lemma SFeqb_refl (f : spec_float) : f <> S754_nan -> SFeqb f f = true.
Proof.
  unfold SFeqb. destruct f as [[]|[]| |[] m e]; cbn [SFcompare]; try reflexivity; try congruence;
    intros _; rewrite Z.compare_refl; change (Pos.compare_cont Eq m m) with (Pos.compare m m);
    rewrite Pos.compare_refl; reflexivity.
Qed.

Lemma SFeqb_number (f : spec_float) : SFeqb f f = true -> exists a, key f = Some a.
Proof. destruct f as [[]|[]| |[] m e]; try discriminate; intros _; eexists; reflexivity. Qed.

Lemma key_number (f : spec_float) (a : Z * Z * Z) : key f = Some a -> f <> S754_nan.
Proof. intros H ->. discriminate H. Qed.

Lemma SFsub_number (f g : spec_float) :
  SFsub prec emax f g <> S754_nan -> f <> S754_nan /\ g <> S754_nan.
Proof.
  destruct f as [[]|[]| |[] m1 e1], g as [[]|[]| |[] m2 e2]; cbn [SFsub]; intros H;
    split; congruence.
Qed.

Lemma Prim2SF_inj (a b : float) : Prim2SF a = Prim2SF b -> a = b.
Proof. intros H. rewrite <- (SF2Prim_Prim2SF a), <- (SF2Prim_Prim2SF b), H. reflexivity. Qed.

Lemma is_nan_spec (a : float) : is_nan a = true <-> Prim2SF a = S754_nan.
Proof.
  unfold is_nan. rewrite eqb_spec. split.
  - intros H. destruct (Prim2SF a) eqn:E; try reflexivity;
      rewrite SFeqb_refl in H by discriminate; discriminate.
  - intros ->. reflexivity.
Qed.

(** Two numbers with the same key are the same double or are both
    zeros. *)
Lemma key_inj (f g : spec_float) (k : Z * Z * Z) :
  key f = Some k -> key g = Some k ->
  f = g \/ exists s t, f = S754_zero s /\ g = S754_zero t.
Proof.
  destruct f as [[]|[]| |[] m1 e1], g as [[]|[]| |[] m2 e2]; cbn [key];
    intros Hf Hg; try discriminate; rewrite <- Hf in Hg; clear Hf;
    try (injection Hg as ?; lia);
    try (left; reflexivity); try (right; eauto; fail).
  - injection Hg as He Hm. left. f_equal; lia.
  - injection Hg as He Hm. left. f_equal; lia.
Qed.

Lemma not_below_eq (a b : Z * Z * Z) : ~ below a b -> ~ below b a -> a = b.
Proof.
  destruct a as [[a1 a2] a3], b as [[b1 b2] b3]. cbn. intros H1 H2.
  assert (a1 = b1 /\ a2 = b2 /\ a3 = b3) as (-> & -> & ->) by lia. reflexivity.
Qed.

Lemma zero_cases (a : float) (s : bool) :
  Prim2SF a = S754_zero s -> a = (if s then neg_zero else zero).
Proof.
  intros H. apply Prim2SF_inj. rewrite H. destruct s; reflexivity.
Qed.

(** [Math.min] and [Math.max] do not depend on the order of their
    arguments, signed zeros and NaN included. *)
Lemma minmax_comm (a b : float) : min2 a b = min2 b a /\ max2 a b = max2 b a.
Proof.
  unfold min2, max2.
  destruct (is_nan a) eqn:Na, (is_nan b) eqn:Nb.
  - apply is_nan_spec in Na, Nb. rewrite <- Nb in Na. apply Prim2SF_inj in Na.
    subst. split; reflexivity.
  - split; reflexivity.
  - split; reflexivity.
  - assert (Ha : exists ka, key (Prim2SF a) = Some ka).
    { destruct (Prim2SF a) as [[]|[]| |[] m e] eqn:E; try (eexists; reflexivity).
      apply is_nan_spec in E. congruence. }
    assert (Hb : exists kb, key (Prim2SF b) = Some kb).
    { destruct (Prim2SF b) as [[]|[]| |[] m e] eqn:E; try (eexists; reflexivity).
      apply is_nan_spec in E. congruence. }
    destruct Ha as [ka Ha], Hb as [kb Hb].
    destruct (PrimFloat.ltb a b) eqn:Eab, (PrimFloat.ltb b a) eqn:Eba.
    + rewrite ltb_spec, SFltb_key in Eab, Eba.
      destruct Eab as (x & y & Hx & Hy & Hxy), Eba as (y' & x' & Hy' & Hx' & Hyx).
      rewrite Hx in Hx'. rewrite Hy in Hy'. injection Hx' as <-. injection Hy' as <-.
      destruct x as [[? ?] ?], y as [[? ?] ?]. cbn in *. lia.
    + split; reflexivity.
    + split; reflexivity.
    + assert (E : ka = kb).
      { apply not_below_eq.
        - intros H. assert (Ht : PrimFloat.ltb a b = true).
          { rewrite ltb_spec. apply SFltb_key. eauto. }
          congruence.
        - intros H. assert (Ht : PrimFloat.ltb b a = true).
          { rewrite ltb_spec. apply SFltb_key. eauto. }
          congruence. }
      subst kb. destruct (key_inj _ _ _ Ha Hb) as [E | (s & t & Es & Et)].
      * apply Prim2SF_inj in E. subst b. split; destruct (get_sign a); reflexivity.
      * apply zero_cases in Es, Et. subst a b. destruct s, t; split; reflexivity.
Qed.

Lemma binary64_laws : Rounded.Laws Float64.binary64.
Proof.
  constructor; cbn [Rounded.ltb Rounded.eqb Rounded.sub Rounded.infinity Rounded.min2
                      Rounded.max2 Rounded.zero Rounded.neg_infinity
                      Float64.binary64 Rounded.num].
  - intros a. rewrite ltb_spec. destruct (SFltb _ _) eqn:H; [|reflexivity].
    apply SFltb_key in H. destruct H as (x & y & Hx & Hy & Hxy).
    rewrite Hx in Hy. injection Hy as <-. destruct x as [[? ?] ?]. cbn in Hxy. lia.
  - intros a b c. rewrite !ltb_spec, !SFltb_key.
    intros (x & y & Hx & Hy & Hxy) (y' & z & Hy' & Hz & Hyz).
    rewrite Hy in Hy'. injection Hy' as <-.
    exists x, z. repeat split; try assumption.
    destruct x as [[? ?] ?], y as [[? ?] ?], z as [[? ?] ?]. cbn in *. lia.
  - intros a b c. rewrite !ltb_spec, eqb_spec, !SFltb_key.
    intros (x & z & Hx & Hz & Hxz) Hb. apply SFeqb_number in Hb. destruct Hb as [y Hy].
    assert (Hor : below x y \/ below y z).
    { destruct x as [[? ?] ?], y as [[? ?] ?], z as [[? ?] ?]. cbn in *. lia. }
    destruct Hor as [H | H]; [left; exists x, y | right; exists y, z]; repeat split; assumption.
  - intros a b. rewrite !ltb_spec, !SFltb_key.
    intros (x & y & Hx & Hy & Hxy).
    exists x, (2, 0, 0)%Z. split; [exact Hx|]. split; [reflexivity|].
    destruct (Prim2SF a) as [[]|[]| |[] m1 e1], (Prim2SF b) as [[]|[]| |[] m2 e2];
      cbn in Hx, Hy; try discriminate; injection Hx as <-; injection Hy as <-;
      cbn in *; lia.
  - intros a b. rewrite ltb_spec, !eqb_spec, SFltb_key.
    intros (x & y & Hx & Hy & _).
    split; apply SFeqb_refl; eapply key_number; eassumption.
  - intros a b. rewrite !eqb_spec, sub_spec. intros H.
    assert (Hn : SF64sub (Prim2SF a) (Prim2SF b) <> S754_nan).
    { intros E. rewrite E in H. discriminate H. }
    apply SFsub_number in Hn. destruct Hn.
    split; apply SFeqb_refl; assumption.
  - intros a b. unfold Float64.min2.
    repeat match goal with |- context [if ?c then _ else _] => destruct c end; auto.
  - intros a b. unfold Float64.max2.
    repeat match goal with |- context [if ?c then _ else _] => destruct c end; auto.
  - intros a b. apply minmax_comm.
  - intros a b. apply minmax_comm.
  - reflexivity.
Qed.
End Float64Facts.

(** ** Hit testing over rounded arithmetic *)

Section ScanFacts.
Import Types Rounded TypesR SurfaceR NotionsR.
Context {A : Number} (L : Laws A) {X : Type}.

Lemma nearest_fewer (radius : num) (l l' : list (HitTestResult num X)) (h : HitTestResult num X) :
  (forall c, In c l -> In c l') -> nearest radius l' h -> nearest radius l h.
Proof.
  intros Hsub [Hw Hmin]. split; [exact Hw|].
  intros c Hc. apply Hmin, Hsub, Hc.
Qed.

Lemma firstWith_snoc_keep (radius : num) (l : list (HitTestResult num X))
    (c h : HitTestResult num X) :
  firstWith (nearest radius l) l h ->
  (ltb (distance c) radius = true -> ltb (distance c) (distance h) = false) ->
  firstWith (nearest radius (l ++ [c])) (l ++ [c]) h.
Proof.
  intros (pre & post & El & [Hw Hmin] & Hpre) Hc.
  exists pre, (post ++ [c]). split; [rewrite El, <- app_assoc; reflexivity|]. split.
  - split; [exact Hw|]. intros c' Hc' Hw'.
    apply in_app_or in Hc'. destruct Hc' as [Hc' | [<- | []]].
    + apply Hmin; assumption.
    + apply Hc, Hw'.
  - eapply List.Forall_impl; [|exact Hpre]. intros q Hq Hq'. apply Hq.
    eapply nearest_fewer; [|exact Hq']. intros c' Hc'. apply in_or_app. left. exact Hc'.
Qed.

(** The loop of a hit test: what [closest] and [minDistance] hold after
    the candidates [cands]. *)
Lemma scan_nearest (radius : num) (cands : list (HitTestResult num X)) :
  let st := fold_left (consider radius) cands (None, infinity) in
  match fst st with
  | None => snd st = infinity /\ forall c, In c cands -> ltb (distance c) radius = false
  | Some h => snd st = distance h /\ firstWith (nearest radius cands) cands h
  end.
Proof.
  induction cands as [|c cands IH] using rev_ind.
  - cbn. split; [reflexivity | intros c []].
  - rewrite fold_left_app. cbn [fold_left]. cbv zeta in IH.
    destruct (fold_left (consider radius) cands (None, infinity)) as [closest minDistance].
    cbn [fst snd] in IH. unfold consider. cbn [snd].
    destruct (ltb (distance c) radius) eqn:Ew; cbn [andb].
    + destruct (ltb (distance c) minDistance) eqn:Eb; cbn [fst snd].
      * split; [reflexivity|].
        exists cands, []. split; [reflexivity|]. split.
        -- split; [exact Ew|]. intros c' Hc' Hw'.
           apply in_app_or in Hc'. destruct Hc' as [Hc' | [<- | []]];
             [|apply (ltb_irrefl A L)].
           destruct closest as [h|]; destruct IH as [Hm IH].
           ++ destruct IH as (_ & _ & _ & [_ Hmin] & _). subst minDistance.
              destruct (ltb (distance c') (distance c)) eqn:E; [|reflexivity].
              rewrite <- (Hmin c' Hc' Hw'). symmetry.
              exact (ltb_trans A L _ _ _ E Eb).
           ++ rewrite (IH c' Hc') in Hw'. discriminate.
        -- apply List.Forall_forall. intros q Hq [Hwq Hminq].
           destruct closest as [h|]; destruct IH as [Hm IH].
           ++ destruct IH as (_ & _ & _ & [_ Hmin] & _). subst minDistance.
              destruct (ltb_comparable A L _ _ Hwq) as [Hq' _].
              destruct (ltb_cotrans A L _ (distance q) _ Eb Hq') as [H | H].
              ** rewrite (Hminq c) in H; [discriminate| |exact Ew].
                 apply in_or_app. right. left. reflexivity.
              ** rewrite (Hmin q Hq Hwq) in H. discriminate.
           ++ rewrite (IH q Hq) in Hwq. discriminate.
      * destruct closest as [h|]; destruct IH as [Hm IH].
        -- subst minDistance. split; [reflexivity|].
           apply firstWith_snoc_keep; [exact IH | intros _; exact Eb].
        -- subst minDistance. rewrite (ltb_infinity A L _ _ Ew) in Eb. discriminate.
    + destruct closest as [h|]; destruct IH as [Hm IH]; cbn [fst snd].
      * split; [exact Hm|]. apply firstWith_snoc_keep; [exact IH | congruence].
      * split; [exact Hm|]. intros c' Hc'.
        apply in_app_or in Hc'. destruct Hc' as [Hc' | [<- | []]]; [apply IH, Hc' | exact Ew].
Qed.

Lemma scan_nearestAmong (radius : num) (cands : list (HitTestResult num X)) :
  nearestAmong radius cands (fst (fold_left (consider radius) cands (None, infinity))).
Proof.
  pose proof (scan_nearest radius cands) as H. cbv zeta in H. unfold nearestAmong.
  destruct (fst _) as [h|]; apply H.
Qed.
End ScanFacts.

Section SurfaceFacts.
Import Types Rounded TypesR SurfaceR NotionsR.
Context {A : Number} {X : Type}.

Lemma skipped_not_shown (s : SeriesData num X) : skipped s = negb (shown s).
Proof. unfold skipped, shown. destruct (visible s) as [[]|]; reflexivity. Qed.

Lemma skip_loop {S : Type} (body : S -> SeriesData num X -> S) (data : list (SeriesData num X))
    (init : S) :
  fold_left (fun st s => if skipped s then st else body st s) data init
  = fold_left body (List.filter shown data) init.
Proof.
  revert init. induction data as [|s data IH]; intros init; [reflexivity|].
  cbn [fold_left List.filter]. rewrite skipped_not_shown.
  destruct (shown s); cbn [negb fold_left]; apply IH.
Qed.

Lemma svgHitTest_scan (ctx : RenderContext num X) (data : list (SeriesData num X))
    (x y radius : num) :
  svgHitTest (Some ctx) data x y radius
  = fst (fold_left (consider radius) (svgCandidates ctx data x y) (None, infinity)).
Proof.
  unfold svgHitTest, svgCandidates.
  destruct data as [|s data]; [reflexivity|]. cbn [length Nat.eqb].
  f_equal. rewrite skip_loop. rewrite <- fold_left_flat_map.
  apply fold_left_pointwise. intros st s'. apply fold_left_map_arg.
Qed.

Lemma webglHitTest_scan (ctx : RenderContext num X) (data : list (SeriesData num X))
    (x y radius : num) :
  webglHitTest (Some ctx) true data x y radius
  = fst (fold_left (consider radius) (webglCandidates ctx data x y) (None, infinity)).
Proof.
  unfold webglHitTest, webglCandidates. cbn [negb orb].
  destruct data as [|s data]; [reflexivity|]. cbn [length Nat.eqb].
  f_equal. rewrite skip_loop. rewrite <- fold_left_flat_map.
  apply fold_left_pointwise. intros st s'. apply fold_left_map_arg.
Qed.

Lemma renderedIndex_lookup (ctx : RenderContext num X) (data : list (SeriesData num X))
    (k : Z * Z) :
  default [] (renderedIndex ctx data !! k)
  = List.filter (fun p => bool_decide (cellKeyOf ctx p = k)) (shownPoints data).
Proof.
  unfold renderedIndex, buildSpatialIndex, shownPoints.
  rewrite skip_loop. rewrite fold_left_flat_map.
  rewrite (group_fold_lookup (cellKeyOf ctx)). rewrite lookup_empty.
  destruct (List.filter _ _); reflexivity.
Qed.

Lemma canvasHitTest_scan (sameX : X -> X -> bool) (ctx : RenderContext num X)
    (data : list (SeriesData num X)) (x y radius : num) :
  canvasHitTest sameX (Some ctx) data (renderedIndex ctx data) x y radius
  = fst (fold_left (consider radius) (canvasCandidates sameX ctx data x y) (None, infinity)).
Proof.
  unfold canvasHitTest, canvasCandidates, queryCell. cbn [fst snd].
  destruct data as [|s data].
  - cbn [length Nat.eqb].
    match goal with |- None = fst (fold_left _ ?l _) => assert (E : l = []) end.
    { unfold neighbourhood.
      cbv [mbind list_bind app flat_map List.app foldr fmap list_fmap].
      reflexivity. }
    rewrite E. reflexivity.
  - cbn [length Nat.eqb].
    f_equal. rewrite <- fold_left_flat_map.
    apply fold_left_pointwise. intros st cellKey.
    destruct (_ !! cellKey) as [points|]; cbn [default map fold_left].
    + apply fold_left_map_arg.
    + reflexivity.
Qed.

Lemma svgCandidates_points (ctx : RenderContext num X) (data : list (SeriesData num X)) (x y : num) :
  map point (svgCandidates ctx data x y) = shownPoints data.
Proof.
  unfold svgCandidates, shownPoints.
  induction (List.filter shown data) as [|s l IH]; [reflexivity|].
  cbn [flat_map]. rewrite map_app, IH. f_equal.
  rewrite map_map. cbn [svgCandidate point]. apply map_id.
Qed.

Lemma webglCandidates_points (ctx : RenderContext num X) (data : list (SeriesData num X))
    (x y : num) :
  map point (webglCandidates ctx data x y) = shownPoints data.
Proof.
  unfold webglCandidates, shownPoints.
  induction (List.filter shown data) as [|s l IH]; [reflexivity|].
  cbn [flat_map]. rewrite map_app, IH. f_equal.
  rewrite map_map. cbn [webglCandidate point]. apply map_id.
Qed.

Lemma canvasCandidates_points (sameX : X -> X -> bool) (ctx : RenderContext num X)
    (data : list (SeriesData num X)) (x y : num) :
  map point (canvasCandidates sameX ctx data x y) = nearbyPoints ctx data x y.
Proof.
  unfold canvasCandidates, nearbyPoints.
  induction (neighbourhood _ _) as [|k l IH]; [reflexivity|].
  cbn [flat_map]. rewrite map_app, IH. f_equal.
  rewrite map_map. cbn [canvasCandidate point]. rewrite map_id.
  apply renderedIndex_lookup.
Qed.

Lemma svgCandidates_distance (ctx : RenderContext num X) (data : list (SeriesData num X))
    (x y : num) (c : HitTestResult num X) :
  In c (svgCandidates ctx data x y) -> distance c = pixelDistance ctx x y (point c).
Proof.
  unfold svgCandidates. rewrite List.in_flat_map.
  intros (s & _ & Hc). apply List.in_map_iff in Hc. destruct Hc as (p & <- & _). reflexivity.
Qed.

Lemma canvasCandidates_distance (sameX : X -> X -> bool) (ctx : RenderContext num X)
    (data : list (SeriesData num X)) (x y : num) (c : HitTestResult num X) :
  (forall v : num, pow2 v = mul v v) ->
  In c (canvasCandidates sameX ctx data x y) -> distance c = pixelDistance ctx x y (point c).
Proof.
  intros Hpow. unfold canvasCandidates. rewrite List.in_flat_map.
  intros (k & _ & Hc). apply List.in_map_iff in Hc. destruct Hc as (p & <- & _).
  cbn [canvasCandidate distance point]. unfold pixelDistance. rewrite !Hpow. reflexivity.
Qed.

Lemma nearbyPoints_In (ctx : RenderContext num X) (data : list (SeriesData num X)) (x y : num)
    (p : DataPoint num X) :
  In p (nearbyPoints ctx data x y)
  <-> In p (shownPoints data) /\
      In (cellKeyOf ctx p) (neighbourhood (fst (queryCell ctx x y)) (snd (queryCell ctx x y))).
Proof.
  unfold nearbyPoints. rewrite List.in_flat_map. split.
  - intros (k & Hk & Hp). apply List.filter_In in Hp. destruct Hp as [Hp E].
    apply bool_decide_eq_true in E. subst k. split; assumption.
  - intros [Hp Hk]. exists (cellKeyOf ctx p). split; [exact Hk|].
    apply List.filter_In. split; [exact Hp|]. apply bool_decide_eq_true. reflexivity.
Qed.
End SurfaceFacts.

Section RoundedHitClaims.
Import Types Rounded TypesR SurfaceR NotionsR.

End RoundedHitClaims.

Section HitWitness.
Import Types Rounded TypesR SurfaceR NotionsR.


(** The vertical offsets of SVG and WebGL can round differently: on a
    surface 400 high, for the point at [y = 16.4], the query at
    [y = 6.4] and the radius 10, SVG computes a distance just below 10
    and answers the point, WebGL computes 10 and answers nothing. *)
Example hitTest_flipped_frame_rounding :
  let data := [SamplesR.seriesOf "a" None [SamplesR.dp 0 (164 # 10)]] in
  let ctx := SamplesR.surface 400 0 in
  option_map point
    (svgHitTest (A := Float64.binary64) (Some ctx) data (lit 0) (lit (64 # 10)) (lit 10))
    = Some (SamplesR.dp 0 (164 # 10)) /\
  webglHitTest (A := Float64.binary64) (Some ctx) true data (lit 0) (lit (64 # 10)) (lit 10)
    = None.
Proof. split; vm_compute; reflexivity. Qed.
End HitWitness.

Section RegionExtras.
Import Types Rounded TypesR SurfaceR NotionsR.

Lemma collect_shown {A : Number} {X : Type} (test : DataPoint num X -> bool)
    (data : list (SeriesData num X)) :
  fold_left
    (fun points s =>
       if skipped s then points
       else fold_left (fun points' p => if test p then points' ++ [p] else points')
              (s_data s) points)
    data []
  = List.filter test (shownPoints data).
Proof.
  rewrite skip_loop. rewrite (collect_groups test s_data). reflexivity.
Qed.

(** X19.  SVGRenderer.getPointsInRegion returns, in dataset order, the
    points of the shown series that pass its test, which compares the
    projected position with the corners moved by the margins, as the code
    computes them; the answer is the same whichever way round the corners
    are given, and holds no point of a series other than the shown
    ones. *)
Theorem svgGetPointsInRegion_shown_inside {A : Number} (L : Laws A) {X : Type}
    (data : list (SeriesData num X)) (ctx : RenderContext num X) (x1 y1 x2 y2 : num) :
  svgGetPointsInRegion (Some ctx) data x1 y1 x2 y2
  = List.filter (insideRegion ctx x1 y1 x2 y2) (shownPoints data) /\
  svgGetPointsInRegion (Some ctx) data x2 y2 x1 y1
  = svgGetPointsInRegion (Some ctx) data x1 y1 x2 y2 /\
  svgGetPointsInRegion (Some ctx) data x1 y2 x2 y1
  = svgGetPointsInRegion (Some ctx) data x1 y1 x2 y2 /\
  (forall p, In p (svgGetPointsInRegion (Some ctx) data x1 y1 x2 y2) ->
             exists s, In s data /\ visible s <> Some false /\ In p (s_data s)).
Proof.
  assert (Hf : forall a1 b1 a2 b2,
             svgGetPointsInRegion (Some ctx) data a1 b1 a2 b2
             = List.filter (insideRegion ctx a1 b1 a2 b2) (shownPoints data)).
  { intros a1 b1 a2 b2. unfold svgGetPointsInRegion. cbv zeta.
    apply (collect_shown (insideRegion ctx a1 b1 a2 b2)). }
  split; [apply Hf|]. split; [|split].
  - rewrite !Hf. unfold insideRegion.
    rewrite (min2_comm A L x2 x1), (max2_comm A L x2 x1),
            (min2_comm A L y2 y1), (max2_comm A L y2 y1). reflexivity.
  - rewrite !Hf. unfold insideRegion.
    rewrite (min2_comm A L y2 y1), (max2_comm A L y2 y1). reflexivity.
  - intros p Hp. rewrite Hf in Hp. apply List.filter_In in Hp. destruct Hp as [Hp _].
    unfold shownPoints in Hp. apply List.in_flat_map in Hp. destruct Hp as (s & Hs & Hps).
    apply List.filter_In in Hs. destruct Hs as [Hs Hshown].
    exists s. split; [exact Hs|]. split; [|exact Hps].
    intros E. unfold shown in Hshown. rewrite E in Hshown. discriminate.
Qed.

Lemma svgGetPointsInRegion_shown_inside_witness :
  let data := [SamplesR.seriesOf "a" None [SamplesR.dp 150 100; SamplesR.dp 300 200];
               SamplesR.seriesOf "b" (Some false) [SamplesR.dp 160 110]] in
  let ctx := SamplesR.surface 300 10 in
  svgGetPointsInRegion (A := Float64.binary64) (Some ctx) data
    (lit 200) (lit 150) (lit 100) (lit 50)
  = [SamplesR.dp 150 100].
Proof.
  intros data ctx.
  eapply eq_trans.
  - exact (proj1 (proj2 (svgGetPointsInRegion_shown_inside Float64Facts.binary64_laws
                           data ctx (lit 100) (lit 50) (lit 200) (lit 150)))).
  - vm_compute. reflexivity.
Defined.
End RegionExtras.

(** ** The representative of a bucket over rounded arithmetic *)

Section BucketFacts.
Import Types Rounded NotionsR LodR.
Context {A : Number} (L : Laws A).

Lemma fold_select (f : num -> num -> num) (vs : list num) (v : num) :
  (forall a b, f a b = a \/ f a b = b) -> In (fold_left f vs v) (v :: vs).
Proof.
  intros Hf. revert v. induction vs as [|w vs IH]; intros v; [left; reflexivity|].
  cbn [fold_left]. destruct (IH (f v w)) as [E | Hin].
  - rewrite <- E. destruct (Hf v w) as [E' | E']; rewrite E'; [left | right; left]; reflexivity.
  - right. right. exact Hin.
Qed.

Lemma max_of_select (vs : list num) : vs <> [] -> In (max_of vs) vs.
Proof.
  destruct vs as [|v vs]; [congruence|]. intros _.
  apply fold_select, (max2_select A L).
Qed.

Lemma min_of_select (vs : list num) : vs <> [] -> In (min_of vs) vs.
Proof.
  destruct vs as [|v vs]; [congruence|]. intros _.
  apply fold_select, (min2_select A L).
Qed.

Lemma find_first {T : Type} (f : T -> bool) (l : list T) (p : T) :
  List.find f l = Some p -> firstWith (fun q => f q = true) l p.
Proof.
  induction l as [|a l IH]; [discriminate|]. cbn [List.find].
  destruct (f a) eqn:E.
  - intros [= <-]. exists [], l. repeat split; [exact E | constructor].
  - intros H. destruct (IH H) as (pre & post & -> & Hp & Hpre).
    exists (a :: pre), post. repeat split; [exact Hp|].
    constructor; [congruence | exact Hpre].
Qed.

(** [find] does find a point when [v] is a value of the bucket that
    equals itself. *)
Lemma findByValue_finds (l : list (TimeSeriesPoint num)) (v : num) (fallback : TimeSeriesPoint num) :
  In v (map y l) -> eqb v v = true ->
  firstWith (fun q => eqb (y q) v = true) l (findByValue l v fallback).
Proof.
  intros Hv Hvv. unfold findByValue.
  destruct (List.find _ l) as [p|] eqn:E.
  - exact (find_first _ _ _ E).
  - exfalso. apply List.in_map_iff in Hv. destruct Hv as [q [Eq Hq]].
    pose proof (List.find_none _ _ E q Hq) as Hn. cbn beta in Hn.
    rewrite Eq, Hvv in Hn. discriminate.
Qed.

Lemma first_earliest (P : TimeSeriesPoint num -> Prop) (l : list (TimeSeriesPoint num))
    (p q : TimeSeriesPoint num) :
  StronglySorted (fun a b => (x a <= x b)%Z) l ->
  firstWith P l p -> In q l -> P q -> (x p <= x q)%Z.
Proof.
  intros Hs (pre & post & -> & Hp & Hpre) Hq HPq.
  apply List.in_app_or in Hq. destruct Hq as [Hq | [<- | Hq]].
  - rewrite List.Forall_forall in Hpre. exfalso. exact (Hpre q Hq HPq).
  - lia.
  - induction pre as [|a pre IH].
    + cbn [app] in Hs. apply StronglySorted_inv in Hs. destruct Hs as [_ Hall].
      rewrite List.Forall_forall in Hall. apply Hall, Hq.
    + cbn [app] in Hs. apply StronglySorted_inv in Hs. destruct Hs as [Hs _].
      apply IH; [exact Hs|]. inversion Hpre; assumption.
Qed.

Lemma no_outlier_in_range (lo hi : Z) (outliers : list (TimeSeriesPoint num)) :
  (forall o, In o outliers -> ~ (lo <= x o < hi)%Z) ->
  List.filter (fun o => (lo <=? x o)%Z && (x o <? hi)%Z) outliers = [].
Proof.
  intros H. induction outliers as [|o os IH]; [reflexivity|].
  cbn [List.filter].
  destruct ((lo <=? x o)%Z && (x o <? hi)%Z) eqn:E.
  - exfalso. apply (H o); [left; reflexivity|]. lia.
  - apply IH. intros o' Ho'. apply H. right. exact Ho'.
Qed.
End BucketFacts.

Section BucketClaims.
Import Types Rounded NotionsR LodR.

(** C7, amended.  With [preserveMinMax] on, for a bucket whose computed
    range [max - min] is positive and that has no capped outlier in its
    time range, with the ratios [(avg - min) / (max - min)] and
    [(max - avg) / (max - min)] as the code computes them: if the first
    exceeds 0.7 the representative is the first point, in input order,
    whose [y] is the maximum (the earliest in time when the bucket is in
    time order); else if the second exceeds 0.7 it is the first point
    whose [y] is the minimum (likewise); otherwise it is the synthetic
    point dated at the bucket's midpoint (in whole milliseconds) with
    [y = avg] and id "bucket-{index}-avg". *)
Theorem createBucketSummary_representative {A : Number} (L : Laws A)
    (bucketPoints : list (TimeSeriesPoint num)) (bucketIndex bucketSize startTime : Z)
    (outliers : list (TimeSeriesPoint num)) :
  let b := createBucketSummary bucketPoints bucketIndex bucketSize startTime outliers true in
  let range := sub (max b) (min b) in
  let high := gtb (div (sub (avg b) (min b)) range) (lit (7 # 10)) in
  let low := gtb (div (sub (max b) (avg b)) range) (lit (7 # 10)) in
  gtb range zero = true ->
  (forall o, In o outliers -> ~ (LodR.startTime b <= x o < endTime b)%Z) ->
  (high = true ->
     firstWith (fun p => eqb (y p) (max b) = true) bucketPoints (representative b) /\
     (StronglySorted (fun p q => (x p <= x q)%Z) bucketPoints ->
      forall q, In q bucketPoints -> eqb (y q) (max b) = true ->
                (x (representative b) <= x q)%Z))
  /\
  (high = false -> low = true ->
     firstWith (fun p => eqb (y p) (min b) = true) bucketPoints (representative b) /\
     (StronglySorted (fun p q => (x p <= x q)%Z) bucketPoints ->
      forall q, In q bucketPoints -> eqb (y q) (min b) = true ->
                (x (representative b) <= x q)%Z))
  /\
  (high = false -> low = false ->
     representative b
     = {| x := Z.quot (2 * LodR.startTime b + bucketSize) 2;
          y := avg b;
          id := Some (IdStr ("bucket-" +:+ pretty bucketIndex +:+ "-avg"));
          seriesId := None |}).
Proof.
  intros b range high low Hrange Hout.
  assert (Hne : map y bucketPoints <> []).
  { intros E. subst range b. unfold createBucketSummary in Hrange. cbn [min max] in Hrange.
    rewrite E in Hrange. cbn [min_of max_of] in Hrange. unfold gtb in Hrange.
    rewrite (empty_range A L) in Hrange. discriminate. }
  assert (Hrep : representative b =
    if gtb range zero && high
    then findByValue bucketPoints (max b)
           (averagePoint bucketIndex (LodR.startTime b) bucketSize (avg b))
    else if gtb range zero && low
    then findByValue bucketPoints (min b)
           (averagePoint bucketIndex (LodR.startTime b) bucketSize (avg b))
    else averagePoint bucketIndex (LodR.startTime b) bucketSize (avg b)).
  { assert (Hf : List.filter
                   (fun o => (startTime + bucketIndex * bucketSize <=? x o)%Z
                             && (x o <? startTime + bucketIndex * bucketSize + bucketSize)%Z)
                   outliers = []) by (apply no_outlier_in_range; exact Hout).
    subst high low range b. unfold createBucketSummary at 1. cbn [representative].
    rewrite Hf. reflexivity. }
  rewrite Hrange in Hrep. cbn [andb] in Hrep.
  assert (Hnum : eqb (max b) (max b) = true /\ eqb (min b) (min b) = true).
  { apply (sub_comparable A L). fold range.
    exact (proj2 (ltb_comparable A L _ _ Hrange)). }
  assert (Hmax : In (max b) (map y bucketPoints)) by (apply (max_of_select L), Hne).
  assert (Hmin : In (min b) (map y bucketPoints)) by (apply (min_of_select L), Hne).
  split; [|split].
  - intros Hhi. rewrite Hhi in Hrep. rewrite Hrep.
    pose proof (findByValue_finds bucketPoints (max b)
                  (averagePoint bucketIndex (LodR.startTime b) bucketSize (avg b))
                  Hmax (proj1 Hnum)) as Hfirst.
    split; [exact Hfirst|].
    intros Hs q Hq Hyq. exact (first_earliest _ _ _ _ Hs Hfirst Hq Hyq).
  - intros Hhi Hlo. rewrite Hhi, Hlo in Hrep. rewrite Hrep.
    pose proof (findByValue_finds bucketPoints (min b)
                  (averagePoint bucketIndex (LodR.startTime b) bucketSize (avg b))
                  Hmin (proj2 Hnum)) as Hfirst.
    split; [exact Hfirst|].
    intros Hs q Hq Hyq. exact (first_earliest _ _ _ _ Hs Hfirst Hq Hyq).
  - intros Hhi Hlo. rewrite Hhi, Hlo in Hrep. rewrite Hrep. reflexivity.
Qed.

Lemma createBucketSummary_representative_witness :
  let bucket := [SamplesR.pt 0 10; SamplesR.pt 1000 10; SamplesR.pt 2000 10;
                 SamplesR.pt 3000 0] in
  firstWith (fun p => eqb (Number := Float64.binary64) (y p) (lit 10) = true) bucket
    (representative
       (createBucketSummary (A := Float64.binary64) bucket 0 5000 0 [] true)).
Proof.
  intros bucket.
  refine (proj1 (proj1 (createBucketSummary_representative Float64Facts.binary64_laws
                          bucket 0 5000 0 [] _ _) _)).
  - vm_compute. reflexivity.
  - intros o [].
  - vm_compute. reflexivity.
Defined.

(** The ratio is the computed one: for the values 0, 3, 3, 3 and 1.5 the
    exact ratio is 0.7, the computed ratio is just above the double
    nearest to 0.7, and the representative is the first point at the
    maximum. *)
Example createBucketSummary_rounded_ratio :
  let bucket := [SamplesR.pt 0 0; SamplesR.pt 1000 3; SamplesR.pt 2000 3;
                 SamplesR.pt 3000 3; SamplesR.pt 4000 (15 # 10)] in
  representative (createBucketSummary (A := Float64.binary64) bucket 0 5000 0 [] true)
  = SamplesR.pt 1000 3.
Proof. vm_compute. reflexivity. Qed.
End BucketClaims.

Section BucketExtras.
Import Types Rounded NotionsR LodR.

(** The reduction over the outliers of a bucket ends on one of them that
    none exceeds in computed deviation from the average. *)
Lemma reduce_moreExtreme_computed {A : Number} (L : Laws A) (avg : num)
    (rest : list (TimeSeriesPoint num)) (first : TimeSeriesPoint num) :
  let res := fold_left (moreExtreme avg) rest first in
  In res (first :: rest) /\
  forall o, In o (first :: rest) ->
            gtb (abs (sub (y o) avg)) (abs (sub (y res) avg)) = false.
Proof.
  induction rest as [|c rest IH] using rev_ind.
  - cbn. split; [left; reflexivity|]. intros o [<- | []]. apply (ltb_irrefl A L).
  - rewrite fold_left_app. cbn [fold_left]. cbv zeta in IH.
    destruct IH as [Hin Hall].
    set (res := fold_left (moreExtreme avg) rest first) in *.
    assert (Hm : moreExtreme avg res c
                 = if ltb (abs (sub (y res) avg)) (abs (sub (y c) avg)) then c else res)
      by reflexivity.
    rewrite Hm. clear Hm. unfold gtb in *.
    destruct (ltb (abs (sub (y res) avg)) (abs (sub (y c) avg))) eqn:E.
    + split; [right; apply in_or_app; right; left; reflexivity|].
      intros o Ho. change (first :: rest ++ [c]) with ((first :: rest) ++ [c]) in Ho.
      apply in_app_or in Ho. destruct Ho as [Ho | [<- | []]]; [|apply (ltb_irrefl A L)].
      destruct (ltb (abs (sub (y c) avg)) (abs (sub (y o) avg))) eqn:E'; [|reflexivity].
      rewrite <- (Hall o Ho). symmetry. exact (ltb_trans A L _ _ _ E E').
    + split.
      * destruct Hin as [Hin | Hin]; [left; exact Hin | right; apply in_or_app; left; exact Hin].
      * intros o Ho. change (first :: rest ++ [c]) with ((first :: rest) ++ [c]) in Ho.
        apply in_app_or in Ho. destruct Ho as [Ho | [<- | []]]; [apply Hall, Ho | exact E].
Qed.

(** X6.  With preserveMinMax set and at least one outlier inside the
    bucket's time range, the representative of createBucketSummary is one
    of these outliers, and none of them has a larger deviation from the
    bucket average, by the deviations as the code computes them. *)
Theorem createBucketSummary_outlier_priority {A : Number} (L : Laws A)
    (bucketPoints : list (TimeSeriesPoint num)) (bucketIndex bucketSize startTime : Z)
    (outliers : list (TimeSeriesPoint num)) :
  let b := createBucketSummary bucketPoints bucketIndex bucketSize startTime outliers true in
  let inRange :=
    List.filter (fun o => (LodR.startTime b <=? x o)%Z && (x o <? endTime b)%Z) outliers in
  inRange <> [] ->
  In (representative b) inRange /\
  forall o, In o inRange ->
            gtb (abs (sub (y o) (avg b))) (abs (sub (y (representative b)) (avg b))) = false.
Proof.
  intros b inRange Hne.
  assert (Hrep : representative b
                 = match inRange with
                   | first :: rest => fold_left (moreExtreme (avg b)) rest first
                   | [] => representative b
                   end).
  { destruct inRange as [|first rest] eqn:E; [reflexivity|].
    subst b. unfold createBucketSummary at 1. cbn [representative].
    unfold inRange in E. cbn [LodR.startTime endTime createBucketSummary] in E.
    rewrite E. reflexivity. }
  destruct inRange as [|first rest]; [congruence|]. rewrite Hrep.
  apply (reduce_moreExtreme_computed L).
Qed.

Lemma createBucketSummary_outlier_priority_witness :
  let bucket := [SamplesR.pt 0 10; SamplesR.pt 1000 10; SamplesR.pt 2000 10;
                 SamplesR.pt 3000 0] in
  let outliers := [SamplesR.pt 3000 0; SamplesR.pt 1000 10] in
  In (representative
        (createBucketSummary (A := Float64.binary64) bucket 0 5000 0 outliers true))
     outliers.
Proof.
  intros bucket outliers.
  refine (proj1 (createBucketSummary_outlier_priority Float64Facts.binary64_laws
                   bucket 0 5000 0 outliers _)).
  vm_compute. discriminate.
Defined.

(** The deviations are the computed ones: after thirty-eight readings
    of 3.4, the outliers 42.5 and -35.7 are both at the computed distance
    39.1 from the computed average, and the first of them is kept, though
    the second is the farther one in exact arithmetic. *)
Example createBucketSummary_outlier_tie :
  let high := SamplesR.pt 1000 (425 # 10) in
  let low := SamplesR.pt 2000 (- 357 # 10) in
  let bucket := map (fun i => SamplesR.pt (Z.of_nat i) (34 # 10)) (seq 0 38) ++ [high; low] in
  let b := createBucketSummary (A := Float64.binary64) bucket 0 60000 0 [high; low] true in
  representative b = high /\
  PrimFloat.abs (PrimFloat.sub (y high) (avg b))
  = PrimFloat.abs (PrimFloat.sub (y low) (avg b)).
Proof. split; vm_compute; reflexivity. Qed.
End BucketExtras.

(** ** The anomalies of the data summary over rounded arithmetic *)

Section SummaryFacts.
Import Types Rounded TypesR SummaryR NotionsR.
Context {A : Number} {X : Type} (timeOf : X -> Z).

Lemma seriesAnomalies_flagged (s : SeriesData num X) :
  seriesAnomalies s = map (mkAnomaly (s_name s)) (List.filter (anomalous s) (s_data s)).
Proof.
  unfold seriesAnomalies, anomalous.
  set (test := fun p : DataPoint num X =>
                 gtb (abs (sub (dp_y p) (seriesAvg s))) (mul (lit 3) (seriesStd s))).
  assert (H : forall l found,
    fold_left
      (fun found p => if test p then found ++ [mkAnomaly (s_name s) p] else found) l found
    = found ++ map (mkAnomaly (s_name s)) (List.filter test l)).
  { induction l as [|p l IH]; intros found; cbn [fold_left List.filter map].
    - rewrite app_nil_r. reflexivity.
    - rewrite IH. destruct (test p).
      + cbn [map]. rewrite <- app_assoc. reflexivity.
      + reflexivity. }
  apply (H (s_data s) []).
Qed.

Lemma step_flagged (acc : Acc num X) (s : SeriesData num X) :
  acc_anomalies (step timeOf acc s) = acc_anomalies acc ++ flagged [s].
Proof.
  unfold step, flagged. cbn [flat_map]. rewrite app_nil_r.
  destruct (length (s_data s) =? 0)%nat eqn:E; cbn [acc_anomalies].
  - destruct (s_data s); [|discriminate]. cbn. rewrite app_nil_r. reflexivity.
  - rewrite seriesAnomalies_flagged. reflexivity.
Qed.

Lemma fold_step_flagged (data : list (SeriesData num X)) (acc : Acc num X) :
  acc_anomalies (fold_left (step timeOf) data acc) = acc_anomalies acc ++ flagged data.
Proof.
  revert acc. induction data as [|s data IH]; intros acc; cbn [fold_left].
  - unfold flagged. cbn. rewrite app_nil_r. reflexivity.
  - rewrite IH, step_flagged. rewrite <- app_assoc. f_equal.
    unfold flagged. cbn [flat_map]. rewrite app_nil_r. reflexivity.
Qed.

Lemma flagged_spec (data : list (SeriesData num X)) (a : Anomaly num X) :
  In a (flagged data) <->
  exists s p, In s data /\ In p (s_data s) /\ anomalous s p = true /\
              a = mkAnomaly (s_name s) p.
Proof.
  unfold flagged. rewrite List.in_flat_map. split.
  - intros (s & Hs & Ha). apply List.in_map_iff in Ha. destruct Ha as (p & <- & Hp).
    apply List.filter_In in Hp. destruct Hp as [Hp Hb].
    exists s, p. repeat split; assumption.
  - intros (s & p & Hs & Hp & Han & ->). exists s. split; [exact Hs|].
    apply List.in_map. apply List.filter_In. split; assumption.
Qed.
End SummaryFacts.

Section SummaryClaims.
Import Types Rounded TypesR SummaryR NotionsR.


(** The numbers are the computed ones: in a series of nine readings 0
    and one reading 7 the last reading lies at exactly three standard
    deviations; the computed product [3 * std] falls just below the
    computed deviation, and the reading is reported. *)
Example generateDataSummary_three_sigma :
  let readings := repeat (SamplesR.dp 0 0) 9 ++ [SamplesR.dp 9 7] in
  map a_point
    (anomalies
       (generateDataSummary (A := Float64.binary64) (fun _ => 0%Z)
          [SamplesR.seriesOf "load" None readings]))
  = [SamplesR.dp 9 7].
Proof. vm_compute. reflexivity. Qed.
End SummaryClaims.

(** ** Hidden series and the Canvas hit test *)

Section CanvasAttribution.
Import Types Rounded TypesR SurfaceR NotionsR.

(** C10 at a failing input.  The series "a" is hidden, the series "b",
    whose [visible] field is undefined, has a point at the same
    coordinates.  Every surface answers that point; SVG and WebGL name the
    series "b" it was found in, Canvas looks the point up by its
    coordinates in every series of the data, hidden ones included, and
    names the hidden series "a". *)
Theorem canvasHitTest_names_hidden_series :
  let hidden := SamplesR.seriesOf "a" (Some false) [SamplesR.dp 5 5] in
  let undefinedVisible := SamplesR.seriesOf "b" None [SamplesR.dp 5 5] in
  let data := [hidden; undefinedVisible] in
  let ctx := SamplesR.surface 100 0 in
  skipped hidden = true /\ skipped undefinedVisible = false /\
  renderedIndex (A := Float64.binary64) ctx data = {[ (0, 0)%Z := [SamplesR.dp 5 5] ]} /\
  option_map series
    (svgHitTest (A := Float64.binary64) (Some ctx) data (lit 5) (lit 5) (lit 10))
    = Some (Some "b") /\
  option_map series
    (webglHitTest (A := Float64.binary64) (Some ctx) true data (lit 5) (lit 5) (lit 10))
    = Some (Some "b") /\
  option_map series
    (canvasHitTest (A := Float64.binary64) PrimFloat.eqb (Some ctx) data
       (renderedIndex (A := Float64.binary64) ctx data) (lit 5) (lit 5) (lit 10))
    = Some (Some "a").
Proof.
  intros hidden undefinedVisible data ctx.
  split; [reflexivity|]. split; [reflexivity|].
  split; [vm_compute; reflexivity|].
  split; [vm_compute; reflexivity|].
  split; vm_compute; reflexivity.
Qed.
End CanvasAttribution.

